(** * javascriptRRD: the RRD archive reader of [src/lib/rrdFile.js]

    A shallow embedding of the binary-layout decoder ([RRDHeader], [RRDFile])
    and of its two views ([RRDDS], [RRDRRA]), followed by the properties of
    the offset arithmetic, of the circular row mapping and of the error
    paths.

    Conventions of the embedding.
    - A JavaScript number that the code uses as an index, a count or a byte
      offset is a [Z]: the arithmetic of the code on such numbers ([+], [-],
      [*], comparisons) is exact on integers of magnitude below 2^53, which
      covers every offset into a buffer that fits in memory.  Beyond, the
      code rounds to the nearest binary64 value: module [Binary64] replays
      [calc_idxs] on [float] to show it, and [Z] stands for the numbers of
      the code up to that bound only.
    - A number read with [getDoubleAt] is an IEEE binary64 value, a [float];
      the JavaScript [==] on two such values is [PrimFloat.eqb].
    - A method is a computation in a state-and-exception monad whose state
      is the object the method runs on ([this], or the variables a closure
      captured); [throw] keeps the assignments made before it, as in
      JavaScript. *)

From Stdlib Require Import ZArith List String Ascii Bool Lia DecimalString.
From Stdlib Require Import Floats.PrimFloat Numbers.Cyclic.Int63.Uint63.
From Stdlib Require Import Floats.SpecFloat Floats.FloatOps.
Import ListNotations.

Open Scope string_scope.
Open Scope Z_scope.

(** ** Exceptions

    [throw new InvalidRRD(msg)] and [throw RangeError(msg)]. *)

Inductive exn : Type :=
| InvalidRRD (message : string)
| RangeError (message : string).

(** ** State and exceptions *)

Definition M (S A : Type) : Type := S -> (exn + A) * S.

Definition ret {S A : Type} (a : A) : M S A := fun s => (inr a, s).

Definition throw {S A : Type} (e : exn) : M S A := fun s => (inl e, s).

Definition bind {S A B : Type} (m : M S A) (k : A -> M S B) : M S B :=
  fun s =>
    match m s with
    | (inr a, s') => k a s'
    | (inl e, s') => (inl e, s')
    end.

Definition get {S : Type} : M S S := fun s => (inr s, s).

Definition modify {S : Type} (f : S -> S) : M S unit := fun s => (inr tt, f s).

Notation "x <- m ;; k" := (bind m (fun x => k))
  (at level 61, m at next level, right associativity).
Notation "m ;; k" := (bind m (fun _ => k))
  (at level 61, right associativity).

(** The result and the final state of a computation. *)

Definition result {S A : Type} (m : M S A) (s : S) : exn + A := fst (m s).
Definition final {S A : Type} (m : M S A) (s : S) : S := snd (m s).

(** A counted loop [for (var i = start; i < start + n; i++) body(i)] whose
    body assigns neither [i] nor the bound. *)

Fixpoint for_range {S : Type} (n : nat) (i : Z) (body : Z -> M S unit)
  : M S unit :=
  match n with
  | O => ret tt
  | S n' => body i ;; for_range n' (i + 1) body
  end.

(** ** JavaScript values *)

(** [""+n] for an integer [n]: its decimal digits, with a sign when
    negative. *)

Definition string_of_Z (n : Z) : string := NilZero.string_of_int (Z.to_int n).

(** [a[i]] and [a[i] = v] on an array of numbers.  Reading outside the array
    gives [undefined] in JavaScript and writing past its end leaves holes;
    neither arises in the code below (lemmas [load_row_cnts_loop_spec] and
    [new_file_inr]), and the model answers 0 there. *)

Definition array_get (a : list Z) (i : Z) : Z := nth (Z.to_nat i) a 0.

Definition array_set (a : list Z) (i : Z) (v : Z) : list Z :=
  if i <? Z.of_nat (List.length a)
  then (firstn (Z.to_nat i) a ++ v :: skipn (S (Z.to_nat i)) a)%list
  else (a ++ repeat 0 (Z.to_nat i - List.length a) ++ [v])%list.

(** The number literal [8.642135e+130] that every alignment probe is
    compared with: the binary64 value nearest to it. *)

#[local] Set Warnings "-inexact-float".
Definition sentinel : float := 8.642135e+130%float.
#[local] Set Warnings "inexact-float".

(** ** The byte source

    The object handed to [RRDFile]; the code only calls these methods on it
    (second arguments that the interface does not declare, as in
    [getLongAt(20,false)], are dropped). *)

Record ByteSource : Type := {
  getByteAt : Z -> Z;
  getShortAt : Z -> Z;
  getLongAt : Z -> Z;
  getDoubleAt : Z -> float;
  getFastDoubleAt : Z -> float;
  getCStringAt : Z -> Z -> string
}.

(** ** RRDDS: one data-source definition *)

Module RRDDS.

Record t : Type := mk {
  rrd_data : ByteSource;
  rrd_data_idx : Z
}.

Definition getName : M t string :=
  this <- get ;; ret (getCStringAt (rrd_data this) (rrd_data_idx this) 20).

Definition getType : M t string :=
  this <- get ;; ret (getCStringAt (rrd_data this) (rrd_data_idx this + 20) 20).

Definition getMin : M t float :=
  this <- get ;; ret (getDoubleAt (rrd_data this) (rrd_data_idx this + 48)).

Definition getMax : M t float :=
  this <- get ;; ret (getDoubleAt (rrd_data this) (rrd_data_idx this + 56)).

End RRDDS.

(** ** RRDRRA: one round-robin archive

    The state of the methods is the set of variables their closure captured:
    the constructor's arguments and its three [var]s. *)

Module RRDRRA.

Record t : Type := mk {
  rrd_data : ByteSource;
  rrd_align : Z;
  rra_def_idx : Z;
  rra_ptr_idx : Z;
  header_size : Z;
  row_cnt : Z;
  prev_row_cnts : Z;
  ds_cnt : Z;
  pdp_step : Z;
  row_size : Z;
  base_rrd_db_idx : Z;
  cur_row : Z
}.

Definition new (rrd_data : ByteSource) (rrd_align : Z)
    (rra_def_idx rra_ptr_idx : Z)
    (header_size row_cnt prev_row_cnts ds_cnt pdp_step : Z) : t :=
  let row_size := ds_cnt * 8 in
  let base_rrd_db_idx := header_size + prev_row_cnts * row_size in
  let cur_row := getLongAt rrd_data rra_ptr_idx in
  mk rrd_data rrd_align rra_def_idx rra_ptr_idx header_size row_cnt
     prev_row_cnts ds_cnt pdp_step row_size base_rrd_db_idx cur_row.

(** The local [real_row_idx] of [calc_idx]: round robin, starting from
    [cur_row+1]. *)

Definition real_row_idx (env : t) (row_idx : Z) : Z :=
  let real_row_idx := row_idx + cur_row env + 1 in
  if real_row_idx >=? row_cnt env
  then real_row_idx - row_cnt env
  else real_row_idx.

Definition calc_idx (row_idx ds_idx : Z) : M t Z :=
  env <- get ;;
  if (row_idx >=? 0) && (row_idx <? row_cnt env) then
    if (ds_idx >=? 0) && (ds_idx <? ds_cnt env) then
      ret (row_size env * real_row_idx env row_idx + ds_idx * 8)
    else
      throw (RangeError ("DS idx (" ++ string_of_Z row_idx
                         ++ ") out of range [0-" ++ string_of_Z (ds_cnt env)
                         ++ ")."))
  else
    throw (RangeError ("Row idx (" ++ string_of_Z row_idx
                       ++ ") out of range [0-" ++ string_of_Z (row_cnt env)
                       ++ ").")).

Definition getName : M t string :=
  env <- get ;; ret (getCStringAt (rrd_data env) (rra_def_idx env) 20).



Definition getNrRows : M t Z := env <- get ;; ret (row_cnt env).

Definition getNrDSs : M t Z := env <- get ;; ret (ds_cnt env).

Definition getEl (row_idx ds_idx : Z) : M t float :=
  env <- get ;;
  idx <- calc_idx row_idx ds_idx ;;
  ret (getDoubleAt (rrd_data env) (base_rrd_db_idx env + idx)).


End RRDRRA.

(** ** RRDHeader: the decoded header

    The fields of [this], in the order the code first assigns them. *)

Module RRDHeader.

Record t : Type := mk {
  rrd_data : ByteSource;
  rrd_version : string;
  rrd_align : Z;
  ds_cnt : Z;
  rra_cnt : Z;
  pdp_step : Z;
  top_header_size : Z;
  ds_def_idx : Z;
  ds_el_size : Z;
  rra_def_idx : Z;
  row_cnt_idx : Z;
  rra_def_el_size : Z;
  live_head_idx : Z;
  live_head_size : Z;
  pdp_prep_idx : Z;
  pdp_prep_el_size : Z;
  cdp_prep_idx : Z;
  cdp_prep_el_size : Z;
  rra_ptr_idx : Z;
  rra_ptr_el_size : Z;
  header_size : Z;
  rra_def_row_cnts : list Z;
  rra_def_row_cnt_sums : list Z
}.

(** One assignment [this.f = v] per field. *)

Definition set_rrd_version (v : string) (this : t) : t :=
  mk (rrd_data this) v (rrd_align this) (ds_cnt this) (rra_cnt this)
    (pdp_step this) (top_header_size this) (ds_def_idx this)
    (ds_el_size this) (rra_def_idx this) (row_cnt_idx this)
    (rra_def_el_size this) (live_head_idx this) (live_head_size this)
    (pdp_prep_idx this) (pdp_prep_el_size this) (cdp_prep_idx this)
    (cdp_prep_el_size this) (rra_ptr_idx this) (rra_ptr_el_size this)
    (header_size this) (rra_def_row_cnts this) (rra_def_row_cnt_sums this).

Definition set_rrd_align (v : Z) (this : t) : t :=
  mk (rrd_data this) (rrd_version this) v (ds_cnt this) (rra_cnt this)
    (pdp_step this) (top_header_size this) (ds_def_idx this)
    (ds_el_size this) (rra_def_idx this) (row_cnt_idx this)
    (rra_def_el_size this) (live_head_idx this) (live_head_size this)
    (pdp_prep_idx this) (pdp_prep_el_size this) (cdp_prep_idx this)
    (cdp_prep_el_size this) (rra_ptr_idx this) (rra_ptr_el_size this)
    (header_size this) (rra_def_row_cnts this) (rra_def_row_cnt_sums this).

Definition set_ds_cnt (v : Z) (this : t) : t :=
  mk (rrd_data this) (rrd_version this) (rrd_align this) v (rra_cnt this)
    (pdp_step this) (top_header_size this) (ds_def_idx this)
    (ds_el_size this) (rra_def_idx this) (row_cnt_idx this)
    (rra_def_el_size this) (live_head_idx this) (live_head_size this)
    (pdp_prep_idx this) (pdp_prep_el_size this) (cdp_prep_idx this)
    (cdp_prep_el_size this) (rra_ptr_idx this) (rra_ptr_el_size this)
    (header_size this) (rra_def_row_cnts this) (rra_def_row_cnt_sums this).

Definition set_rra_cnt (v : Z) (this : t) : t :=
  mk (rrd_data this) (rrd_version this) (rrd_align this) (ds_cnt this) v
    (pdp_step this) (top_header_size this) (ds_def_idx this)
    (ds_el_size this) (rra_def_idx this) (row_cnt_idx this)
    (rra_def_el_size this) (live_head_idx this) (live_head_size this)
    (pdp_prep_idx this) (pdp_prep_el_size this) (cdp_prep_idx this)
    (cdp_prep_el_size this) (rra_ptr_idx this) (rra_ptr_el_size this)
    (header_size this) (rra_def_row_cnts this) (rra_def_row_cnt_sums this).

Definition set_pdp_step (v : Z) (this : t) : t :=
  mk (rrd_data this) (rrd_version this) (rrd_align this) (ds_cnt this)
    (rra_cnt this) v (top_header_size this) (ds_def_idx this)
    (ds_el_size this) (rra_def_idx this) (row_cnt_idx this)
    (rra_def_el_size this) (live_head_idx this) (live_head_size this)
    (pdp_prep_idx this) (pdp_prep_el_size this) (cdp_prep_idx this)
    (cdp_prep_el_size this) (rra_ptr_idx this) (rra_ptr_el_size this)
    (header_size this) (rra_def_row_cnts this) (rra_def_row_cnt_sums this).

Definition set_top_header_size (v : Z) (this : t) : t :=
  mk (rrd_data this) (rrd_version this) (rrd_align this) (ds_cnt this)
    (rra_cnt this) (pdp_step this) v (ds_def_idx this) (ds_el_size this)
    (rra_def_idx this) (row_cnt_idx this) (rra_def_el_size this)
    (live_head_idx this) (live_head_size this) (pdp_prep_idx this)
    (pdp_prep_el_size this) (cdp_prep_idx this) (cdp_prep_el_size this)
    (rra_ptr_idx this) (rra_ptr_el_size this) (header_size this)
    (rra_def_row_cnts this) (rra_def_row_cnt_sums this).

Definition set_ds_def_idx (v : Z) (this : t) : t :=
  mk (rrd_data this) (rrd_version this) (rrd_align this) (ds_cnt this)
    (rra_cnt this) (pdp_step this) (top_header_size this) v
    (ds_el_size this) (rra_def_idx this) (row_cnt_idx this)
    (rra_def_el_size this) (live_head_idx this) (live_head_size this)
    (pdp_prep_idx this) (pdp_prep_el_size this) (cdp_prep_idx this)
    (cdp_prep_el_size this) (rra_ptr_idx this) (rra_ptr_el_size this)
    (header_size this) (rra_def_row_cnts this) (rra_def_row_cnt_sums this).

Definition set_ds_el_size (v : Z) (this : t) : t :=
  mk (rrd_data this) (rrd_version this) (rrd_align this) (ds_cnt this)
    (rra_cnt this) (pdp_step this) (top_header_size this) (ds_def_idx this)
    v (rra_def_idx this) (row_cnt_idx this) (rra_def_el_size this)
    (live_head_idx this) (live_head_size this) (pdp_prep_idx this)
    (pdp_prep_el_size this) (cdp_prep_idx this) (cdp_prep_el_size this)
    (rra_ptr_idx this) (rra_ptr_el_size this) (header_size this)
    (rra_def_row_cnts this) (rra_def_row_cnt_sums this).

Definition set_rra_def_idx (v : Z) (this : t) : t :=
  mk (rrd_data this) (rrd_version this) (rrd_align this) (ds_cnt this)
    (rra_cnt this) (pdp_step this) (top_header_size this) (ds_def_idx this)
    (ds_el_size this) v (row_cnt_idx this) (rra_def_el_size this)
    (live_head_idx this) (live_head_size this) (pdp_prep_idx this)
    (pdp_prep_el_size this) (cdp_prep_idx this) (cdp_prep_el_size this)
    (rra_ptr_idx this) (rra_ptr_el_size this) (header_size this)
    (rra_def_row_cnts this) (rra_def_row_cnt_sums this).

Definition set_row_cnt_idx (v : Z) (this : t) : t :=
  mk (rrd_data this) (rrd_version this) (rrd_align this) (ds_cnt this)
    (rra_cnt this) (pdp_step this) (top_header_size this) (ds_def_idx this)
    (ds_el_size this) (rra_def_idx this) v (rra_def_el_size this)
    (live_head_idx this) (live_head_size this) (pdp_prep_idx this)
    (pdp_prep_el_size this) (cdp_prep_idx this) (cdp_prep_el_size this)
    (rra_ptr_idx this) (rra_ptr_el_size this) (header_size this)
    (rra_def_row_cnts this) (rra_def_row_cnt_sums this).

Definition set_rra_def_el_size (v : Z) (this : t) : t :=
  mk (rrd_data this) (rrd_version this) (rrd_align this) (ds_cnt this)
    (rra_cnt this) (pdp_step this) (top_header_size this) (ds_def_idx this)
    (ds_el_size this) (rra_def_idx this) (row_cnt_idx this) v
    (live_head_idx this) (live_head_size this) (pdp_prep_idx this)
    (pdp_prep_el_size this) (cdp_prep_idx this) (cdp_prep_el_size this)
    (rra_ptr_idx this) (rra_ptr_el_size this) (header_size this)
    (rra_def_row_cnts this) (rra_def_row_cnt_sums this).

Definition set_live_head_idx (v : Z) (this : t) : t :=
  mk (rrd_data this) (rrd_version this) (rrd_align this) (ds_cnt this)
    (rra_cnt this) (pdp_step this) (top_header_size this) (ds_def_idx this)
    (ds_el_size this) (rra_def_idx this) (row_cnt_idx this)
    (rra_def_el_size this) v (live_head_size this) (pdp_prep_idx this)
    (pdp_prep_el_size this) (cdp_prep_idx this) (cdp_prep_el_size this)
    (rra_ptr_idx this) (rra_ptr_el_size this) (header_size this)
    (rra_def_row_cnts this) (rra_def_row_cnt_sums this).

Definition set_live_head_size (v : Z) (this : t) : t :=
  mk (rrd_data this) (rrd_version this) (rrd_align this) (ds_cnt this)
    (rra_cnt this) (pdp_step this) (top_header_size this) (ds_def_idx this)
    (ds_el_size this) (rra_def_idx this) (row_cnt_idx this)
    (rra_def_el_size this) (live_head_idx this) v (pdp_prep_idx this)
    (pdp_prep_el_size this) (cdp_prep_idx this) (cdp_prep_el_size this)
    (rra_ptr_idx this) (rra_ptr_el_size this) (header_size this)
    (rra_def_row_cnts this) (rra_def_row_cnt_sums this).

Definition set_pdp_prep_idx (v : Z) (this : t) : t :=
  mk (rrd_data this) (rrd_version this) (rrd_align this) (ds_cnt this)
    (rra_cnt this) (pdp_step this) (top_header_size this) (ds_def_idx this)
    (ds_el_size this) (rra_def_idx this) (row_cnt_idx this)
    (rra_def_el_size this) (live_head_idx this) (live_head_size this) v
    (pdp_prep_el_size this) (cdp_prep_idx this) (cdp_prep_el_size this)
    (rra_ptr_idx this) (rra_ptr_el_size this) (header_size this)
    (rra_def_row_cnts this) (rra_def_row_cnt_sums this).

Definition set_pdp_prep_el_size (v : Z) (this : t) : t :=
  mk (rrd_data this) (rrd_version this) (rrd_align this) (ds_cnt this)
    (rra_cnt this) (pdp_step this) (top_header_size this) (ds_def_idx this)
    (ds_el_size this) (rra_def_idx this) (row_cnt_idx this)
    (rra_def_el_size this) (live_head_idx this) (live_head_size this)
    (pdp_prep_idx this) v (cdp_prep_idx this) (cdp_prep_el_size this)
    (rra_ptr_idx this) (rra_ptr_el_size this) (header_size this)
    (rra_def_row_cnts this) (rra_def_row_cnt_sums this).

Definition set_cdp_prep_idx (v : Z) (this : t) : t :=
  mk (rrd_data this) (rrd_version this) (rrd_align this) (ds_cnt this)
    (rra_cnt this) (pdp_step this) (top_header_size this) (ds_def_idx this)
    (ds_el_size this) (rra_def_idx this) (row_cnt_idx this)
    (rra_def_el_size this) (live_head_idx this) (live_head_size this)
    (pdp_prep_idx this) (pdp_prep_el_size this) v (cdp_prep_el_size this)
    (rra_ptr_idx this) (rra_ptr_el_size this) (header_size this)
    (rra_def_row_cnts this) (rra_def_row_cnt_sums this).

Definition set_cdp_prep_el_size (v : Z) (this : t) : t :=
  mk (rrd_data this) (rrd_version this) (rrd_align this) (ds_cnt this)
    (rra_cnt this) (pdp_step this) (top_header_size this) (ds_def_idx this)
    (ds_el_size this) (rra_def_idx this) (row_cnt_idx this)
    (rra_def_el_size this) (live_head_idx this) (live_head_size this)
    (pdp_prep_idx this) (pdp_prep_el_size this) (cdp_prep_idx this) v
    (rra_ptr_idx this) (rra_ptr_el_size this) (header_size this)
    (rra_def_row_cnts this) (rra_def_row_cnt_sums this).

Definition set_rra_ptr_idx (v : Z) (this : t) : t :=
  mk (rrd_data this) (rrd_version this) (rrd_align this) (ds_cnt this)
    (rra_cnt this) (pdp_step this) (top_header_size this) (ds_def_idx this)
    (ds_el_size this) (rra_def_idx this) (row_cnt_idx this)
    (rra_def_el_size this) (live_head_idx this) (live_head_size this)
    (pdp_prep_idx this) (pdp_prep_el_size this) (cdp_prep_idx this)
    (cdp_prep_el_size this) v (rra_ptr_el_size this) (header_size this)
    (rra_def_row_cnts this) (rra_def_row_cnt_sums this).

Definition set_rra_ptr_el_size (v : Z) (this : t) : t :=
  mk (rrd_data this) (rrd_version this) (rrd_align this) (ds_cnt this)
    (rra_cnt this) (pdp_step this) (top_header_size this) (ds_def_idx this)
    (ds_el_size this) (rra_def_idx this) (row_cnt_idx this)
    (rra_def_el_size this) (live_head_idx this) (live_head_size this)
    (pdp_prep_idx this) (pdp_prep_el_size this) (cdp_prep_idx this)
    (cdp_prep_el_size this) (rra_ptr_idx this) v (header_size this)
    (rra_def_row_cnts this) (rra_def_row_cnt_sums this).

Definition set_header_size (v : Z) (this : t) : t :=
  mk (rrd_data this) (rrd_version this) (rrd_align this) (ds_cnt this)
    (rra_cnt this) (pdp_step this) (top_header_size this) (ds_def_idx this)
    (ds_el_size this) (rra_def_idx this) (row_cnt_idx this)
    (rra_def_el_size this) (live_head_idx this) (live_head_size this)
    (pdp_prep_idx this) (pdp_prep_el_size this) (cdp_prep_idx this)
    (cdp_prep_el_size this) (rra_ptr_idx this) (rra_ptr_el_size this) v
    (rra_def_row_cnts this) (rra_def_row_cnt_sums this).

Definition set_rra_def_row_cnts (v : list Z) (this : t) : t :=
  mk (rrd_data this) (rrd_version this) (rrd_align this) (ds_cnt this)
    (rra_cnt this) (pdp_step this) (top_header_size this) (ds_def_idx this)
    (ds_el_size this) (rra_def_idx this) (row_cnt_idx this)
    (rra_def_el_size this) (live_head_idx this) (live_head_size this)
    (pdp_prep_idx this) (pdp_prep_el_size this) (cdp_prep_idx this)
    (cdp_prep_el_size this) (rra_ptr_idx this) (rra_ptr_el_size this)
    (header_size this) v (rra_def_row_cnt_sums this).

Definition set_rra_def_row_cnt_sums (v : list Z) (this : t) : t :=
  mk (rrd_data this) (rrd_version this) (rrd_align this) (ds_cnt this)
    (rra_cnt this) (pdp_step this) (top_header_size this) (ds_def_idx this)
    (ds_el_size this) (rra_def_idx this) (row_cnt_idx this)
    (rra_def_el_size this) (live_head_idx this) (live_head_size this)
    (pdp_prep_idx this) (pdp_prep_el_size this) (cdp_prep_idx this)
    (cdp_prep_el_size this) (rra_ptr_idx this) (rra_ptr_el_size this)
    (header_size this) (rra_def_row_cnts this) v.

(** [this] as the constructor finds it: only [rrd_data] is assigned before
    the first method runs.  The other fields are not assigned yet
    ([undefined] in JavaScript) and hold a placeholder here; every method
    below assigns a field before it reads it. *)

Definition fresh (rrd_data : ByteSource) : t :=
  mk rrd_data "" 0 0 0 0 0 0 0 0 0 0 0 0 0 0 0 0 0 0 0 [] [].

(** Internal, used for initialization. *)

Definition validate_rrd : M t unit :=
  this <- get ;;
  (if negb (getCStringAt (rrd_data this) 0 4 =? "RRD")%string
   then throw (InvalidRRD "Wrong magic id.")
   else ret tt) ;;
  modify (set_rrd_version (getCStringAt (rrd_data this) 4 5)) ;;
  this <- get ;;
  (if negb (rrd_version this =? "0003")%string
      && negb (rrd_version this =? "0004")%string
   then throw (InvalidRRD ("Unsupported RRD version " ++ rrd_version this
                           ++ "."))
   else ret tt) ;;
  if PrimFloat.eqb (getDoubleAt (rrd_data this) 12) sentinel then
    modify (set_rrd_align 32)
  else if PrimFloat.eqb (getDoubleAt (rrd_data this) 16) sentinel then
    modify (set_rrd_align 64)
  else
    throw (InvalidRRD "Unsupported platform.").

Definition load_header : M t unit :=
  this <- get ;;
  if rrd_align this =? 32 then
    modify (set_ds_cnt (getLongAt (rrd_data this) 20)) ;;
    modify (set_rra_cnt (getLongAt (rrd_data this) 24)) ;;
    modify (set_pdp_step (getLongAt (rrd_data this) 28)) ;;
    modify (set_top_header_size 112)
  else
    modify (set_ds_cnt (getLongAt (rrd_data this) 24)) ;;
    modify (set_rra_cnt (getLongAt (rrd_data this) 32)) ;;
    modify (set_pdp_step (getLongAt (rrd_data this) 40)) ;;
    modify (set_top_header_size 128).

Definition calc_idxs : M t unit :=
  this <- get ;;
  modify (set_ds_def_idx (top_header_size this)) ;;
  modify (set_ds_el_size 120) ;;

  this <- get ;;
  modify (set_rra_def_idx (ds_def_idx this + ds_el_size this * ds_cnt this)) ;;
  (if rrd_align this =? 32 then
     modify (set_rra_def_el_size 108) ;;
     modify (set_row_cnt_idx 20)
   else
     modify (set_rra_def_el_size 120) ;;
     modify (set_row_cnt_idx 24)) ;;

  this <- get ;;
  modify (set_live_head_idx
            (rra_def_idx this + rra_def_el_size this * rra_cnt this)) ;;
  (if rrd_align this =? 32 then
     modify (set_live_head_size 8)
   else
     modify (set_live_head_size 16)) ;;

  this <- get ;;
  modify (set_pdp_prep_idx (live_head_idx this + live_head_size this)) ;;
  modify (set_pdp_prep_el_size 112) ;;

  this <- get ;;
  modify (set_cdp_prep_idx
            (pdp_prep_idx this + pdp_prep_el_size this * ds_cnt this)) ;;
  modify (set_cdp_prep_el_size 80) ;;

  this <- get ;;
  modify (set_rra_ptr_idx
            (cdp_prep_idx this
             + cdp_prep_el_size this * ds_cnt this * rra_cnt this)) ;;
  (if rrd_align this =? 32 then
     modify (set_rra_ptr_el_size 4)
   else
     modify (set_rra_ptr_el_size 8)) ;;

  this <- get ;;
  modify (set_header_size
            (rra_ptr_idx this + rra_ptr_el_size this * rra_cnt this)).

(** [new RRDHeader(rrd_data)]: the three steps run on a fresh object; when
    one of them throws, the [new] expression throws and the object under
    construction is dropped. *)

Definition init : M t unit :=
  validate_rrd ;;
  load_header ;;
  calc_idxs.

Definition new (rrd_data : ByteSource) : exn + t :=
  match init (fresh rrd_data) with
  | (inr _, this) => inr this
  | (inl e, _) => inl e
  end.

(** Optional initialization: read and calculate row counts.  The body of
    the loop, then the loop over [0 <= i < rra_cnt]. *)

Definition load_row_cnts_body (i : Z) : M t unit :=
  this <- get ;;
  modify (set_rra_def_row_cnts
            (array_set (rra_def_row_cnts this) i
               (getLongAt (rrd_data this)
                  (rra_def_idx this + i * rra_def_el_size this
                   + row_cnt_idx this)))) ;;
  this <- get ;;
  if i =? 0 then
    modify (set_rra_def_row_cnt_sums
              (array_set (rra_def_row_cnt_sums this) i 0))
  else
    modify (set_rra_def_row_cnt_sums
              (array_set (rra_def_row_cnt_sums this) i
                 (array_get (rra_def_row_cnt_sums this) (i - 1)
                  + array_get (rra_def_row_cnts this) (i - 1)))).

Definition load_row_cnts : M t unit :=
  modify (set_rra_def_row_cnts []) ;;
  modify (set_rra_def_row_cnt_sums []) ;;
  this <- get ;;
  for_range (Z.to_nat (rra_cnt this)) 0 load_row_cnts_body.

(** Start of user functions. *)

Definition getStep : M t Z := this <- get ;; ret (pdp_step this).

Definition getLastUpdate : M t Z :=
  this <- get ;; ret (getLongAt (rrd_data this) (live_head_idx this)).

Definition getNrDSs : M t Z := this <- get ;; ret (ds_cnt this).

Definition getDS (idx : Z) : M t RRDDS.t :=
  this <- get ;;
  if (idx >=? 0) && (idx <? ds_cnt this) then
    ret (RRDDS.mk (rrd_data this) (ds_def_idx this + ds_el_size this * idx))
  else
    throw (RangeError ("DS idx (" ++ string_of_Z idx
                       ++ ") out of range [0-" ++ string_of_Z (ds_cnt this)
                       ++ ").")).

End RRDHeader.

(** ** RRDFile: the archive

    [rrd_data] is the variable the constructor's closures capture,
    [rrd_header] the one field of [this]. *)

Module RRDFile.

Record t : Type := mk {
  rrd_data : ByteSource;
  rrd_header : RRDHeader.t
}.

(** A method call [this.rrd_header.m()]: [m] runs on the header object, and
    what it assigns there stays assigned. *)

Definition on_header {A : Type} (m : M RRDHeader.t A) : M t A :=
  fun this =>
    let (r, h) := m (rrd_header this) in (r, mk (rrd_data this) h).

Definition new (bf : ByteSource) : exn + t :=
  let rrd_data := bf in
  match RRDHeader.new rrd_data with
  | inl e => inl e
  | inr h =>
      match RRDHeader.load_row_cnts h with
      | (inr _, h') => inr (mk rrd_data h')
      | (inl e, _) => inl e
      end
  end.

Definition getStep : M t Z := on_header RRDHeader.getStep.

Definition getLastUpdate : M t Z := on_header RRDHeader.getLastUpdate.

Definition getNrDSs : M t Z := on_header RRDHeader.getNrDSs.

Definition getDS (idx : Z) : M t RRDDS.t := on_header (RRDHeader.getDS idx).

Definition getNrRRAs : M t Z :=
  this <- get ;; ret (RRDHeader.rra_cnt (rrd_header this)).

Definition getRRA (idx : Z) : M t RRDRRA.t :=
  this <- get ;;
  let h := rrd_header this in
  if (idx >=? 0) && (idx <? RRDHeader.rra_cnt h) then
    ret (RRDRRA.new (rrd_data this) (RRDHeader.rrd_align h)
           (RRDHeader.rra_def_idx h + idx * RRDHeader.rra_def_el_size h)
           (RRDHeader.rra_ptr_idx h + idx * RRDHeader.rra_ptr_el_size h)
           (RRDHeader.header_size h)
           (array_get (RRDHeader.rra_def_row_cnts h) idx)
           (array_get (RRDHeader.rra_def_row_cnt_sums h) idx)
           (RRDHeader.ds_cnt h) (RRDHeader.pdp_step h))
  else
    throw (RangeError ("RRA idx (" ++ string_of_Z idx
                       ++ ") out of range [0-"
                       ++ string_of_Z (RRDHeader.rra_cnt h) ++ ").")).

End RRDFile.

(** ** The vocabulary of the specification

    The four kinds of failure, as the code throws them: the three
    construction-time kinds are [InvalidRRD] objects told apart by their
    message, the fourth is a [RangeError]. *)

Definition InvalidFormat : exn := InvalidRRD "Wrong magic id.".

Definition UnsupportedVersion (version : string) : exn :=
  InvalidRRD ("Unsupported RRD version " ++ version ++ ".").

Definition UnsupportedPlatform : exn := InvalidRRD "Unsupported platform.".

Definition IndexOutOfRange (e : exn) : Prop := exists msg, e = RangeError msg.

(** The message of a bounds error that names the offending value [v] of the
    index called [what] and its valid range [[0-bound)]. *)

Definition range_message (what : string) (v bound : Z) : string :=
  what ++ " idx (" ++ string_of_Z v ++ ") out of range [0-"
       ++ string_of_Z bound ++ ").".

(** ** Sample buffers

    A byte source given by its magic, its version string, the doubles found
    at offsets 12 and 16 and a table of the 32-bit integers it holds (0
    elsewhere).  Sample cells hold the double of their own offset, so that a
    read shows where it was made. *)

Definition long_at (longs : list (Z * Z)) (idx : Z) : Z :=
  match find (fun p => fst p =? idx) longs with
  | Some p => snd p
  | None => 0
  end.

Definition buffer (magic version : string) (d12 d16 : float)
    (longs : list (Z * Z)) : ByteSource :=
  {| getByteAt := fun _ => 0;
     getShortAt := fun _ => 0;
     getLongAt := long_at longs;
     getDoubleAt := fun idx =>
       if idx =? 12 then d12 else if idx =? 16 then d16
       else PrimFloat.of_uint63 (Uint63.of_Z idx);
     getFastDoubleAt := fun idx => PrimFloat.of_uint63 (Uint63.of_Z idx);
     getCStringAt := fun idx _ =>
       if idx =? 0 then magic else if idx =? 4 then version else "" |}.

(** A 32-bit file with two data sources, step 300 and two archives of 10
    and 5 rows whose head rows are 3 and 4. *)

Definition sample32 : ByteSource :=
  buffer "RRD" "0003" sentinel 0%float
    [(20, 2); (24, 2); (28, 300); (372, 10); (480, 5); (1120, 3); (1124, 4)].

(** The same archive written with 64-bit alignment. *)

Definition sample64 : ByteSource :=
  buffer "RRD" "0004" 0%float sentinel
    [(24, 2); (32, 2); (40, 300); (392, 10); (512, 5); (1168, 3); (1176, 4)].

(** [sample32] with a head row of 25 stored for its first archive, which
    has 10 rows. *)

Definition stale_head : ByteSource :=
  buffer "RRD" "0003" sentinel 0%float
    [(20, 2); (24, 2); (28, 300); (372, 10); (480, 5); (1120, 25); (1124, 4)].

(** Valid magic and version, no sentinel at either probe. *)

Definition no_sentinel : ByteSource :=
  buffer "RRD" "0003" 0%float 0%float [(20, 2); (24, 2); (28, 300)].

(** The views of the first archive of [sample32] (10 rows, head row 3) and
    of [stale_head] (10 rows, head row 25), as [getRRA(0)] builds them. *)

Definition view_10_3 : RRDRRA.t :=
  RRDRRA.new sample32 32 352 1120 1128 10 0 2 300.

Definition stale_view : RRDRRA.t :=
  RRDRRA.new stale_head 32 352 1120 1128 10 0 2 300.

(** ** Auxiliary definitions *)

(** The header that [load_header] and [calc_idxs] leave once [validate_rrd]
    has stored [version] and [align] in the fresh object. *)

Definition decoded (bf : ByteSource) (version : string) (align : Z)
  : RRDHeader.t :=
  final (RRDHeader.load_header ;; RRDHeader.calc_idxs)
    (RRDHeader.set_rrd_align align
       (RRDHeader.set_rrd_version version (RRDHeader.fresh bf))).

(** The sum of a list of row counts, and the number of rows that precede
    archive [i]: the sum of [row_cnts[0..i-1]]. *)

Definition sumZ (l : list Z) : Z := fold_right Z.add 0 l.

Definition rows_before (row_cnts : list Z) (i : Z) : Z :=
  sumZ (firstn (Z.to_nat i) row_cnts).

(** The header that [new RRDHeader(sample32)] returns. *)

Definition sample32_header : RRDHeader.t := decoded sample32 "0003" 32.

(** The file that [new RRDFile(sample32)] returns. *)

Definition sample32_file : RRDFile.t :=
  RRDFile.mk sample32 (final RRDHeader.load_row_cnts sample32_header).

(** [sample32] with 12 and 288 samples per row stored for its two archives,
    and the file that [new RRDFile] returns for it. *)



(** ** The offsets in binary64

    The numbers of the code are binary64 values.  Up to 2^53 every integer
    is one of them, so a sum or a product of integers whose exact value is
    at most 2^53 is computed exactly and [Z] is a faithful model; past 2^53
    the code holds the binary64 value nearest to the exact one.  To show
    what the code holds for counts that large, [calc_idxs] is replayed here
    on [float], statement by statement. *)

Module Binary64.

(** The number that the code holds for an integer of a buffer. *)

Definition of_Z (n : Z) : float := PrimFloat.of_uint63 (Uint63.of_Z n).

(** The integer that a finite double without a fractional part stands
    for. *)

Definition to_Z (x : float) : Z :=
  match Prim2SF x with
  | S754_finite s m e =>
      let n := if 0 <=? e then Z.pos m * 2 ^ e else Z.pos m / 2 ^ (- e) in
      if s then - n else n
  | _ => 0
  end.

Record offsets : Type := {
  ds_def_idx : float;
  rra_def_idx : float;
  live_head_idx : float;
  pdp_prep_idx : float;
  cdp_prep_idx : float;
  rra_ptr_idx : float;
  header_size : float
}.

Definition calc_idxs (rrd_align : Z) (top_header_size ds_cnt rra_cnt : float)
  : offsets :=
  let ds_def_idx := top_header_size in
  let ds_el_size := 120%float in
  let rra_def_idx := (ds_def_idx + ds_el_size * ds_cnt)%float in
  let rra_def_el_size := if rrd_align =? 32 then 108%float else 120%float in
  let live_head_idx := (rra_def_idx + rra_def_el_size * rra_cnt)%float in
  let live_head_size := if rrd_align =? 32 then 8%float else 16%float in
  let pdp_prep_idx := (live_head_idx + live_head_size)%float in
  let pdp_prep_el_size := 112%float in
  let cdp_prep_idx := (pdp_prep_idx + pdp_prep_el_size * ds_cnt)%float in
  let cdp_prep_el_size := 80%float in
  let rra_ptr_idx :=
    (cdp_prep_idx + cdp_prep_el_size * ds_cnt * rra_cnt)%float in
  let rra_ptr_el_size := if rrd_align =? 32 then 4%float else 8%float in
  let header_size := (rra_ptr_idx + rra_ptr_el_size * rra_cnt)%float in
  {| ds_def_idx := ds_def_idx;
     rra_def_idx := rra_def_idx;
     live_head_idx := live_head_idx;
     pdp_prep_idx := pdp_prep_idx;
     cdp_prep_idx := cdp_prep_idx;
     rra_ptr_idx := rra_ptr_idx;
     header_size := header_size |}.

End Binary64.

(** A 32-bit header whose two counts are the largest unsigned 32-bit
    integer. *)

Definition huge_counts : ByteSource :=
  buffer "RRD" "0003" sentinel 0%float
    [(20, 4294967295); (24, 4294967295)].

(** * The Flot support of [rrdFile.js]

    The second half of the file turns archives into the series that the Flot
    plotting library draws, and trims series to a selection.

    Conventions, besides those of the reader.
    - A timestamp, in seconds or in milliseconds, is a [Z]; [a % b] is
      [Z.rem a b] (the sign of [a]), for [b] other than 0, and [a / b] is
      only used where [b] divides [a].  For [b = 0] the code gets [NaN],
      which no [Z] stands for: the statements on rounded times exclude a
      step of 0.
    - The functions take "an object of type RRDFile or equivalent" and call
      [getStep()] on its archives and [getIdx()] on its data sources, which
      [RRDRRA] and [RRDDS] above do not define: the object is taken by its
      interface, a record of the methods that are called, and [getEl] may
      answer [undefined] ([None]) or throw.
    - A point [[x, y]] of a series is a pair, an entry of a data list is a
      point or [null]. *)

(** A call of a method of a collaborator, which may throw. *)

Definition call {S A : Type} (r : exn + A) : M S A := fun s => (r, s).

Module Equivalent.

Record DS : Type := {
  getIdx : Z;
  getName : string
}.

Record RRA : Type := {
  getNrRows : Z;
  getStep : Z;
  getEl : Z -> Z -> exn + option float
}.

Record File (ID : Type) : Type := {
  getDS : ID -> exn + DS;
  getRRA : Z -> exn + RRA;
  getLastUpdate : Z
}.

Arguments getDS {ID}.
Arguments getRRA {ID}.
Arguments getLastUpdate {ID}.

End Equivalent.

(** The entries of a data list, with [x] in [num] and [y] in [val]. *)

Definition entry (num val : Type) : Type := option (num * val).

(** One line of a plot: [{label, data, color, lines, yaxis}], where every
    field but [data] may be missing. *)

Module FlotEl.

Record t (num val style : Type) : Type := mk {
  label : option string;
  data : list (entry num val);
  color : option style;
  lines : option style;
  yaxis : option style
}.

Arguments mk {num val style}.
Arguments label {num val style}.
Arguments data {num val style}.
Arguments color {num val style}.
Arguments lines {num val style}.
Arguments yaxis {num val style}.

End FlotEl.

(** What [rrdDS2FlotSeries] returns. *)

Module FlotSeries.

Record t : Type := mk {
  label : string;
  data : list (entry Z float);
  min : Z;
  max : Z
}.

End FlotSeries.

(** What [rrdRRA2FlotObj] and [rrdRRAStackFlotObj] return. *)

Module FlotObj.

Record t (style : Type) : Type := mk {
  data : list (FlotEl.t Z float style);
  min : Z;
  max : Z
}.

Arguments mk {style}.
Arguments data {style}.
Arguments min {style}.
Arguments max {style}.

End FlotObj.

Section FlotSeriesOf.

Variable ID : Type.
Variable style : Type.

(** The loop over the rows that [rrdDS2FlotSeries] and [rrdRRA2FlotObj]
    share: [n] rows are left, [i] is the next one, [timestamp] its time and
    [flot_series] the points pushed so far. *)

Fixpoint series_rows (rra : Equivalent.RRA) (ds : Equivalent.DS) (step : Z)
    (n : nat) (i timestamp : Z) (flot_series : list (entry Z float))
  : M unit (list (entry Z float)) :=
  match n with
  | O => ret flot_series
  | S n' =>
      el <- call (Equivalent.getEl rra i (Equivalent.getIdx ds)) ;;
      let flot_series :=
        match el with
        | Some x => (flot_series ++ [Some (timestamp * 1000, x)])%list
        | None => flot_series
        end in
      series_rows rra ds step n' (i + 1) (timestamp + step) flot_series
  end.

Definition rrdDS2FlotSeries (rrd_file : Equivalent.File ID) (ds_id : ID)
    (rra_idx : Z) (want_rounding : bool) : M unit FlotSeries.t :=
  ds <- call (Equivalent.getDS rrd_file ds_id) ;;
  rra <- call (Equivalent.getRRA rrd_file rra_idx) ;;
  let rra_rows := Equivalent.getNrRows rra in
  let last_update := Equivalent.getLastUpdate rrd_file in
  let step := Equivalent.getStep rra in
  let last_update :=
    if want_rounding then last_update - Z.rem last_update step
    else last_update in
  let first_el := last_update - (rra_rows - 1) * step in
  flot_series <- series_rows rra ds step (Z.to_nat rra_rows) 0 first_el [] ;;
  ret (FlotSeries.mk (Equivalent.getName ds) flot_series
         (first_el * 1000) (last_update * 1000)).

(** The loop over [ds_list] of [rrdRRA2FlotObj]; [data] is [out_el.data]. *)

Fixpoint flot_obj_series (rrd_file : Equivalent.File ID)
    (rra : Equivalent.RRA) (rra_rows step first_el : Z)
    (want_ds_labels : bool) (ds_list : list ID)
    (data : list (FlotEl.t Z float style))
  : M unit (list (FlotEl.t Z float style)) :=
  match ds_list with
  | [] => ret data
  | ds_id :: rest =>
      ds <- call (Equivalent.getDS rrd_file ds_id) ;;
      flot_series <-
        series_rows rra ds step (Z.to_nat rra_rows) 0 first_el [] ;;
      let flot_el :=
        FlotEl.mk
          (if want_ds_labels then Some (Equivalent.getName ds) else None)
          flot_series None None None in
      flot_obj_series rrd_file rra rra_rows step first_el want_ds_labels
        rest (data ++ [flot_el])%list
  end.

Definition rrdRRA2FlotObj (rrd_file : Equivalent.File ID) (rra_idx : Z)
    (ds_list : list ID) (want_ds_labels want_rounding : bool)
  : M unit (FlotObj.t style) :=
  rra <- call (Equivalent.getRRA rrd_file rra_idx) ;;
  let rra_rows := Equivalent.getNrRows rra in
  let last_update := Equivalent.getLastUpdate rrd_file in
  let step := Equivalent.getStep rra in
  let last_update :=
    if want_rounding then last_update - Z.rem last_update step
    else last_update in
  let first_el := last_update - (rra_rows - 1) * step in
  data <- flot_obj_series rrd_file rra rra_rows step first_el
            want_ds_labels ds_list [] ;;
  ret (FlotObj.mk data (first_el * 1000) (last_update * 1000)).

End FlotSeriesOf.

Arguments flot_obj_series {ID style}.
Arguments rrdDS2FlotSeries {ID}.
Arguments rrdRRA2FlotObj {ID style}.

(** ** rrdFlotSelection: the selection of a plot

    The numbers of the x axis are taken with their comparison [leb]
    ([a <= b]), their addition and the number that [null] converts to in a
    comparison: for the doubles of JavaScript these are [PrimFloat.leb],
    [PrimFloat.add] and [+0], for integers [Z.leb], [Z.add] and [0]. *)

Module rrdFlotSelection.

Section Numbers.

Variable num : Type.
Variable leb : num -> num -> bool.
Variable add : num -> num -> num.
Variable zero : num.
Variable val : Type.
Variable style : Type.

(** [this]: the two bounds, a number or [null] each. *)

Record t : Type := mk {
  selection_min : option num;
  selection_max : option num
}.

Definition set_selection_min (v : option num) (this : t) : t :=
  mk v (selection_max this).

Definition set_selection_max (v : option num) (this : t) : t :=
  mk (selection_min this) v.

(** The [ranges] of a Flot event, as far as the code reads them:
    [{xaxis: {from, to}}]. *)

Record axis : Type := {
  from : option num;
  to : option num
}.

Record ranges : Type := {
  xaxis : axis
}.

(** The number a bound stands for in [>=] and [<=]. *)

Definition number (bound : option num) : num :=
  match bound with
  | Some n => n
  | None => zero
  end.

Definition new : t := mk None None.

Definition reset : M t unit :=
  modify (set_selection_min None) ;;
  modify (set_selection_max None).

Definition setFromFlotRanges (r : ranges) : M t unit :=
  modify (set_selection_min (from (xaxis r))) ;;
  modify (set_selection_max (to (xaxis r))).

Definition getFlotRanges : M t ranges :=
  this <- get ;;
  ret {| xaxis := {| from := selection_min this;
                     to := selection_max this |} |}.

Definition isSet : M t bool :=
  this <- get ;;
  ret (match selection_min this with Some _ => true | None => false end).

(** The loop of [trim_data] over the entries left in [data_list]. *)

Fixpoint trim_data_loop (data_list out_data : list (entry num val))
  : M t (list (entry num val)) :=
  match data_list with
  | [] => ret out_data
  | e :: rest =>
      match e with
      | None => trim_data_loop rest out_data
      | Some p =>
          let nr := fst p in
          this <- get ;;
          if leb (number (selection_min this)) nr
             && leb nr (number (selection_max this))
          then trim_data_loop rest (out_data ++ [e])%list
          else trim_data_loop rest out_data
      end
  end.

Definition trim_data (data_list : list (entry num val))
  : M t (list (entry num val)) :=
  this <- get ;;
  match selection_min this with
  | None => ret data_list
  | Some _ => trim_data_loop data_list []
  end.

Fixpoint trim_flot_data_loop (flot_data out_data : list (FlotEl.t num val style))
  : M t (list (FlotEl.t num val style)) :=
  match flot_data with
  | [] => ret out_data
  | data_el :: rest =>
      trimmed <- trim_data (FlotEl.data data_el) ;;
      trim_flot_data_loop rest
        (out_data ++ [FlotEl.mk (FlotEl.label data_el) trimmed
                        (FlotEl.color data_el) (FlotEl.lines data_el)
                        (FlotEl.yaxis data_el)])%list
  end.

Definition trim_flot_data (flot_data : list (FlotEl.t num val style))
  : M t (list (FlotEl.t num val style)) :=
  trim_flot_data_loop flot_data [].

Fixpoint trim_timezone_data_loop (shift : num)
    (data_list out_data : list (entry num val))
  : M t (list (entry num val)) :=
  match data_list with
  | [] => ret out_data
  | e :: rest =>
      match e with
      | None => trim_timezone_data_loop shift rest out_data
      | Some p =>
          let nr := add (fst p) shift in
          this <- get ;;
          if leb (number (selection_min this)) nr
             && leb nr (number (selection_max this))
          then trim_timezone_data_loop shift rest (out_data ++ [e])%list
          else trim_timezone_data_loop shift rest out_data
      end
  end.

Definition trim_timezone_data (data_list : list (entry num val))
    (shift : num) : M t (list (entry num val)) :=
  this <- get ;;
  match selection_min this with
  | None => ret data_list
  | Some _ => trim_timezone_data_loop shift data_list []
  end.

Fixpoint trim_flot_timezone_data_loop (shift : num)
    (flot_data out_data : list (FlotEl.t num val style))
  : M t (list (FlotEl.t num val style)) :=
  match flot_data with
  | [] => ret out_data
  | data_el :: rest =>
      trimmed <- trim_timezone_data (FlotEl.data data_el) shift ;;
      trim_flot_timezone_data_loop shift rest
        (out_data ++ [FlotEl.mk (FlotEl.label data_el) trimmed
                        (FlotEl.color data_el) (FlotEl.lines data_el)
                        (FlotEl.yaxis data_el)])%list
  end.

Definition trim_flot_timezone_data
    (flot_data : list (FlotEl.t num val style)) (shift : num)
  : M t (list (FlotEl.t num val style)) :=
  trim_flot_timezone_data_loop shift flot_data [].

End Numbers.

Arguments mk {num}.
Arguments selection_min {num}.
Arguments selection_max {num}.
Arguments new {num}.
Arguments reset {num}.
Arguments isSet {num}.
Arguments getFlotRanges {num}.
Arguments setFromFlotRanges {num}.
Arguments from {num}.
Arguments to {num}.
Arguments xaxis {num}.
Arguments trim_data {num} leb zero {val}.
Arguments trim_data_loop {num} leb zero {val}.
Arguments trim_timezone_data {num} leb add zero {val}.
Arguments trim_timezone_data_loop {num} leb add zero {val}.
Arguments trim_flot_data {num} leb zero {val style}.
Arguments trim_flot_data_loop {num} leb zero {val style}.
Arguments trim_flot_timezone_data {num} leb add zero {val style}.
Arguments trim_flot_timezone_data_loop {num} leb add zero {val style}.

End rrdFlotSelection.

(** ** Miscellaneous helper functions *)

Definition rfs_format_time (s : Z) : string :=
  if s <? 120 then
    string_of_Z s ++ "s"
  else
    let s60 := Z.rem s 60 in
    let m := (s - s60) / 60 in
    if (m <? 10) && (s60 >? 9) then
      string_of_Z m ++ ":" ++ string_of_Z s60 ++ "min"
    else if m <? 120 then
      string_of_Z m ++ "min"
    else
      let m60 := Z.rem m 60 in
      let h := (m - m60) / 60 in
      if (h <? 12) && (m60 >? 9) then
        string_of_Z h ++ ":" ++ string_of_Z m60 ++ "h"
      else if h <? 48 then
        string_of_Z h ++ "h"
      else
        let h24 := Z.rem h 24 in
        let d := (h - h24) / 24 in
        if (d <? 7) && (h24 >? 0) then
          string_of_Z d ++ " days " ++ string_of_Z h24 ++ "h"
        else if d <? 60 then
          string_of_Z d ++ " days"
        else
          let d30 := Z.rem d 30 in
          let mt := (d - d30) / 30 in
          string_of_Z mt ++ " months".

(** ** Auxiliary definitions for the Flot support *)

(** The text for [s] seconds, with the unit chosen by the range of [s] and
    the number shown computed from [s] directly. *)

Definition format_time_by_range (s : Z) : string :=
  if s <? 120 then
    string_of_Z s ++ "s"
  else if s <? 7200 then
    if (s / 60 <? 10) && (s mod 60 >? 9)
    then string_of_Z (s / 60) ++ ":" ++ string_of_Z (s mod 60) ++ "min"
    else string_of_Z (s / 60) ++ "min"
  else if s <? 172800 then
    if (s / 3600 <? 12) && ((s / 60) mod 60 >? 9)
    then string_of_Z (s / 3600) ++ ":" ++ string_of_Z ((s / 60) mod 60)
         ++ "h"
    else string_of_Z (s / 3600) ++ "h"
  else if s <? 5184000 then
    if (s / 86400 <? 7) && ((s / 3600) mod 24 >? 0)
    then string_of_Z (s / 86400) ++ " days "
         ++ string_of_Z ((s / 3600) mod 24) ++ "h"
    else string_of_Z (s / 86400) ++ " days"
  else
    string_of_Z (s / 2592000) ++ " months".

(** An entry that a selection keeps: a point whose [x] lies between the
    bounds. *)

Definition selected {num val : Type} (leb : num -> num -> bool) (zero : num)
    (this : rrdFlotSelection.t num) (e : entry num val) : bool :=
  match e with
  | Some p =>
      leb (rrdFlotSelection.number num zero
             (rrdFlotSelection.selection_min this)) (fst p)
      && leb (fst p)
           (rrdFlotSelection.number num zero
              (rrdFlotSelection.selection_max this))
  | None => false
  end.

(** A point moved by [shift] along the x axis. *)

Definition shifted {num val : Type} (add : num -> num -> num) (shift : num)
    (e : entry num val) : entry num val :=
  match e with
  | Some p => Some (add (fst p) shift, snd p)
  | None => None
  end.

(** A line with its data replaced. *)

Definition with_data {num val style : Type} (el : FlotEl.t num val style)
    (data : list (entry num val)) : FlotEl.t num val style :=
  FlotEl.mk (FlotEl.label el) data (FlotEl.color el) (FlotEl.lines el)
    (FlotEl.yaxis el).

(** The selection from [a] to [b] on an integer axis. *)

Definition selection (a b : Z) : rrdFlotSelection.t Z :=
  rrdFlotSelection.mk (Some a) (Some b).

(** The points that the rows [0 .. rows-1] of an archive give for the data
    source [ds_idx]: row [k] gives a point at [first_el + k * step] seconds,
    in milliseconds, unless its value is [undefined] (or its read throws). *)

Definition row_points (rra : Equivalent.RRA) (ds_idx : Z)
    (first_el step : Z) (rows : nat) : list (entry Z float) :=
  flat_map
    (fun k =>
       match Equivalent.getEl rra (Z.of_nat k) ds_idx with
       | inr (Some x) => [Some ((first_el + Z.of_nat k * step) * 1000, x)]
       | _ => []
       end)
    (seq 0 rows).

(** The last update the series end at, and the time of their first row. *)

Definition series_end (last_update step : Z) (want_rounding : bool) : Z :=
  if want_rounding then last_update - Z.rem last_update step
  else last_update.

Definition series_start (last_update step rows : Z) (want_rounding : bool)
  : Z :=
  series_end last_update step want_rounding - (rows - 1) * step.

(** An archive of 4 rows with a step of 300 seconds whose row 2 has no
    value for data source 0 and which refuses every other data source, in
    a source last updated at second 1000 with data sources 0 and 1. *)

Definition sample_rra : Equivalent.RRA :=
  {| Equivalent.getNrRows := 4;
     Equivalent.getStep := 300;
     Equivalent.getEl := fun row_idx ds_idx =>
       if (row_idx >=? 0) && (row_idx <? 4) then
         if ds_idx =? 0 then
           inr (if row_idx =? 2 then None
                else Some (PrimFloat.of_uint63 (Uint63.of_Z row_idx)))
         else inl (RangeError "DS idx out of range")
       else inl (RangeError "Row idx out of range") |}.

Definition sample_source : Equivalent.File Z :=
  {| Equivalent.getDS := fun ds_id =>
       if (ds_id >=? 0) && (ds_id <? 2) then
         inr {| Equivalent.getIdx := ds_id;
                Equivalent.getName := "ds" ++ string_of_Z ds_id |}
       else inl (RangeError "DS idx out of range");
     Equivalent.getRRA := fun rra_idx =>
       if rra_idx =? 0 then inr sample_rra
       else inl (RangeError "RRA idx out of range");
     Equivalent.getLastUpdate := 1000 |}.

(** ** rrdRRAStackFlotObj: stacked lines

    The values of a row are doubles: a value that is [undefined] counts as
    [0] in a stack, and [+=] is the addition of doubles. *)

Section StackedSeries.

Variable ID : Type.
Variable style : Type.

(** The first loop over a stack list: the index of each data source is
    looked up once, and an empty line is made for it. *)

Fixpoint stack_init (rrd_file : Equivalent.File ID) (want_ds_labels : bool)
    (stack_list : list ID) (tmp_flot_els : list (FlotEl.t Z float style))
    (tmp_ds_ids : list Z)
  : M unit (list (FlotEl.t Z float style) * list Z) :=
  match stack_list with
  | [] => ret (tmp_flot_els, tmp_ds_ids)
  | ds_id :: rest =>
      ds <- call (Equivalent.getDS rrd_file ds_id) ;;
      let tmp_ds_ids := (tmp_ds_ids ++ [Equivalent.getIdx ds])%list in
      let flot_el :=
        FlotEl.mk
          (if want_ds_labels then Some (Equivalent.getName ds) else None)
          [] None None None in
      stack_init rrd_file want_ds_labels rest
        (tmp_flot_els ++ [flot_el])%list tmp_ds_ids
  end.

(** The loop over [id] that reads one row: the values, with [0] for the
    missing ones, and the two flags. *)

Fixpoint stack_row_vals (rra : Equivalent.RRA) (row : Z)
    (tmp_ds_ids : list Z) (ds_vals : list float) (all_undef all_def : bool)
  : M unit (list float * bool * bool) :=
  match tmp_ds_ids with
  | [] => ret (ds_vals, all_undef, all_def)
  | ds_idx :: rest =>
      el <- call (Equivalent.getEl rra row ds_idx) ;;
      match el with
      | Some x =>
          stack_row_vals rra row rest (ds_vals ++ [x])%list false all_def
      | None =>
          stack_row_vals rra row rest (ds_vals ++ [0%float])%list
            all_undef false
      end
  end.

(** [ds_vals[id] += ds_vals[id - 1]] for [id] from 1 on: [prev] is the
    value before, already summed. *)

Fixpoint running_sums (prev : float) (ds_vals : list float) : list float :=
  match ds_vals with
  | [] => []
  | v :: rest =>
      let summed := PrimFloat.add v prev in
      summed :: running_sums summed rest
  end.

Definition stack_sums (ds_vals : list float) : list float :=
  match ds_vals with
  | [] => []
  | v :: rest => v :: running_sums v rest
  end.

(** [tmp_flot_els[id].data.push([x, ds_vals[id]])] for every [id]. *)

Fixpoint push_points (x : Z) (tmp_flot_els : list (FlotEl.t Z float style))
    (ds_vals : list float) : list (FlotEl.t Z float style) :=
  match tmp_flot_els, ds_vals with
  | flot_el :: els, v :: vals =>
      FlotEl.mk (FlotEl.label flot_el)
        (FlotEl.data flot_el ++ [Some (x, v)])%list
        (FlotEl.color flot_el) (FlotEl.lines flot_el) (FlotEl.yaxis flot_el)
      :: push_points x els vals
  | _, _ => tmp_flot_els
  end.

(** The loop over the rows of a stack. *)

Fixpoint stack_rows (rra : Equivalent.RRA) (tmp_ds_ids : list Z)
    (step timestamp_shift : Z) (one_undefined_enough : bool)
    (n : nat) (row timestamp : Z)
    (tmp_flot_els : list (FlotEl.t Z float style))
  : M unit (list (FlotEl.t Z float style)) :=
  match n with
  | O => ret tmp_flot_els
  | S n' =>
      read <- stack_row_vals rra row tmp_ds_ids [] true true ;;
      let '(ds_vals, all_undef, all_def) := read in
      let tmp_flot_els :=
        if negb all_undef then
          if all_def || negb one_undefined_enough then
            push_points ((timestamp + timestamp_shift) * 1000) tmp_flot_els
              (stack_sums ds_vals)
          else tmp_flot_els
        else tmp_flot_els in
      stack_rows rra tmp_ds_ids step timestamp_shift one_undefined_enough
        n' (row + 1) (timestamp + step) tmp_flot_els
  end.

(** One stack: its lines are added to the output last one first. *)

Definition stack_lines (rrd_file : Equivalent.File ID) (rra : Equivalent.RRA)
    (rra_rows step first_el timestamp_shift : Z)
    (want_ds_labels one_undefined_enough : bool) (stack_list : list ID)
    (data : list (FlotEl.t Z float style))
  : M unit (list (FlotEl.t Z float style)) :=
  init <- stack_init rrd_file want_ds_labels stack_list [] [] ;;
  let '(tmp_flot_els, tmp_ds_ids) := init in
  tmp_flot_els <-
    stack_rows rra tmp_ds_ids step timestamp_shift one_undefined_enough
      (Z.to_nat rra_rows) 0 first_el tmp_flot_els ;;
  ret (data ++ rev tmp_flot_els)%list.

(** The rows of a line that is not stacked. *)

Fixpoint single_rows (rra : Equivalent.RRA) (ds : Equivalent.DS)
    (step first_el timestamp_shift : Z) (n : nat) (i : Z)
    (flot_series : list (entry Z float))
  : M unit (list (entry Z float)) :=
  match n with
  | O => ret flot_series
  | S n' =>
      el <- call (Equivalent.getEl rra i (Equivalent.getIdx ds)) ;;
      let flot_series :=
        match el with
        | Some x =>
            (flot_series
             ++ [Some ((first_el + i * step + timestamp_shift) * 1000, x)])
              %list
        | None => flot_series
        end in
      single_rows rra ds step first_el timestamp_shift n' (i + 1) flot_series
  end.

Fixpoint single_lines (rrd_file : Equivalent.File ID)
    (rra : Equivalent.RRA) (rra_rows step first_el timestamp_shift : Z)
    (want_ds_labels : bool) (ds_single_list : list ID)
    (data : list (FlotEl.t Z float style))
  : M unit (list (FlotEl.t Z float style)) :=
  match ds_single_list with
  | [] => ret data
  | ds_id :: rest =>
      ds <- call (Equivalent.getDS rrd_file ds_id) ;;
      flot_series <-
        single_rows rra ds step first_el timestamp_shift
          (Z.to_nat rra_rows) 0 [] ;;
      let flot_el :=
        FlotEl.mk
          (if want_ds_labels then Some (Equivalent.getName ds) else None)
          flot_series None None None in
      single_lines rrd_file rra rra_rows step first_el timestamp_shift
        want_ds_labels rest (data ++ [flot_el])%list
  end.

Definition rrdRRAStackFlotObj (rrd_file : Equivalent.File ID) (rra_idx : Z)
    (ds_positive_stack_list ds_negative_stack_list ds_single_list : list ID)
    (timestamp_shift : Z)
    (want_ds_labels want_rounding one_undefined_enough : bool)
  : M unit (FlotObj.t style) :=
  rra <- call (Equivalent.getRRA rrd_file rra_idx) ;;
  let rra_rows := Equivalent.getNrRows rra in
  let last_update := Equivalent.getLastUpdate rrd_file in
  let step := Equivalent.getStep rra in
  let last_update :=
    if want_rounding then last_update - Z.rem last_update step
    else last_update in
  let first_el := last_update - (rra_rows - 1) * step in
  data <- stack_lines rrd_file rra rra_rows step first_el timestamp_shift
            want_ds_labels one_undefined_enough ds_positive_stack_list [] ;;
  data <- stack_lines rrd_file rra rra_rows step first_el timestamp_shift
            want_ds_labels one_undefined_enough ds_negative_stack_list
            data ;;
  data <- single_lines rrd_file rra rra_rows step first_el timestamp_shift
            want_ds_labels ds_single_list data ;;
  ret (FlotObj.mk data ((first_el + timestamp_shift) * 1000)
         ((last_update + timestamp_shift) * 1000)).

End StackedSeries.

Arguments stack_init {ID style}.
Arguments stack_rows {style}.
Arguments push_points {style}.
Arguments stack_lines {ID style}.
Arguments single_lines {ID style}.
Arguments rrdRRAStackFlotObj {ID style}.

(** Whether an archive has a value for a data source in a row, and the
    value as a stack counts it. *)

Definition defined_at (rra : Equivalent.RRA) (row ds_idx : Z) : bool :=
  match Equivalent.getEl rra row ds_idx with
  | inr (Some _) => true
  | _ => false
  end.

Definition value_or_zero (rra : Equivalent.RRA) (row ds_idx : Z) : float :=
  match Equivalent.getEl rra row ds_idx with
  | inr (Some x) => x
  | _ => 0%float
  end.

(** The value drawn for line [k] of a stack of values: the value of the
    line itself for the first line, and for a later line its value added to
    the value drawn for the line before it. *)

Fixpoint stacked_value (ds_vals : list float) (k : nat) : float :=
  match k with
  | O => nth 0 ds_vals 0%float
  | S k' => PrimFloat.add (nth k ds_vals 0%float) (stacked_value ds_vals k')
  end.

(** Times that the code computes exactly: a last update, a number of rows,
    a span of the rows and a shift of magnitude at most 2^40 keep every
    time in seconds that is computed from them below 2^43 and every time in
    milliseconds below 2^53, where the sums and products of binary64
    numbers are exact. *)

Definition exact_times (last_update rows step shift : Z) : Prop :=
  Z.abs last_update <= 2 ^ 40
  /\ Z.abs rows <= 2 ^ 40
  /\ Z.abs ((rows - 1) * step) <= 2 ^ 40
  /\ Z.abs shift <= 2 ^ 40.

(** Two lines labelled [a] and [b] that hold no point yet. *)

Definition two_empty_lines : list (FlotEl.t Z float unit) :=
  [FlotEl.mk (Some "a") [] None None None;
   FlotEl.mk (Some "b") [] None None None].

(** The times of the points of a line. *)

Definition times {val style : Type} (el : FlotEl.t Z val style)
  : list (option Z) :=
  map (option_map fst) (FlotEl.data el).

(** A line made for the data source [ds_id] of a source: it has the label
    of the data source when labels are wanted and none otherwise, and no
    color, lines or yaxis. *)

Definition line_of {ID val style : Type} (rrd_file : Equivalent.File ID)
    (want_ds_labels : bool) (ds_id : ID) (el : FlotEl.t Z val style) : Prop :=
  exists ds,
    Equivalent.getDS rrd_file ds_id = inr ds
    /\ FlotEl.label el
       = (if want_ds_labels then Some (Equivalent.getName ds) else None)
    /\ FlotEl.color el = None
    /\ FlotEl.lines el = None
    /\ FlotEl.yaxis el = None.

(** A view of an archive with no rows. *)


(** * Properties *)

(** Evaluation of the assignments of the header's methods: everything is
    unfolded but the arithmetic on offsets and the reads of the buffer. *)

Ltac header_fields :=
  cbv -[Z.add Z.mul Z.sub Z.le Z.lt Z.ge Z.gt Z.modulo
        getLongAt getCStringAt getDoubleAt getFastDoubleAt
        PrimFloat.eqb sentinel String.eqb array_get array_set sumZ
        rows_before List.length Z.to_nat Z.of_nat firstn nth] in *.

(** ** Reading the tests of the code *)

Lemma range_test_true (i n : Z) :
  0 <= i < n -> (i >=? 0) && (i <? n) = true.
Proof.
  intros [H0 Hn]. apply andb_true_intro. split.
  - rewrite Z.geb_leb. now apply Z.leb_le.
  - now apply Z.ltb_lt.
Qed.

Lemma range_test_false (i n : Z) :
  i < 0 \/ n <= i -> (i >=? 0) && (i <? n) = false.
Proof.
  intros [H | H].
  - rewrite Z.geb_leb. replace (0 <=? i) with false; [reflexivity|].
    symmetry. now apply Z.leb_gt.
  - replace (i <? n) with false; [apply andb_false_r|].
    symmetry. now apply Z.ltb_ge.
Qed.

Lemma range_test_cases (i n : Z) :
  (0 <= i < n /\ (i >=? 0) && (i <? n) = true)
  \/ ((i < 0 \/ n <= i) /\ (i >=? 0) && (i <? n) = false).
Proof.
  destruct (Z_lt_dec i 0) as [Hneg | Hpos].
  - right. split; [now left | apply range_test_false; now left].
  - destruct (Z_lt_dec i n) as [Hlt | Hge].
    + left. split; [lia | apply range_test_true; lia].
    + right. split; [right; lia | apply range_test_false; right; lia].
Qed.

(** ** The circular row mapping *)

Section RowMapping.

Variable v : RRDRRA.t.

Let n := RRDRRA.row_cnt v.
Let head := RRDRRA.cur_row v.

Lemma real_row_idx_cases (row_idx : Z) :
  RRDRRA.real_row_idx v row_idx = row_idx + head + 1
  \/ RRDRRA.real_row_idx v row_idx = row_idx + head + 1 - n.
Proof.
  unfold RRDRRA.real_row_idx, head, n.
  destruct (row_idx + RRDRRA.cur_row v + 1 >=? RRDRRA.row_cnt v); auto.
Qed.

Lemma real_row_idx_mod (row_idx : Z) :
  0 <= head < n -> 0 <= row_idx < n ->
  RRDRRA.real_row_idx v row_idx = (row_idx + head + 1) mod n.
Proof.
  unfold RRDRRA.real_row_idx, head, n. intros Hh Hr.
  destruct (row_idx + RRDRRA.cur_row v + 1 >=? RRDRRA.row_cnt v) eqn:E;
    rewrite Z.geb_leb in E.
  - apply Z.leb_le in E.
    apply Z.mod_unique with (q := 1); lia.
  - apply Z.leb_gt in E. symmetry. apply Z.mod_small. lia.
Qed.

Lemma real_row_idx_in_range (row_idx : Z) :
  0 <= head < n -> 0 <= row_idx < n ->
  0 <= RRDRRA.real_row_idx v row_idx < n.
Proof.
  intros Hh Hr. rewrite real_row_idx_mod by assumption.
  apply Z.mod_pos_bound. lia.
Qed.

Lemma real_row_idx_newest :
  0 < n -> 0 <= head ->
  RRDRRA.real_row_idx v (n - 1) = head.
Proof.
  unfold RRDRRA.real_row_idx, head, n. intros Hn Hh.
  destruct (RRDRRA.row_cnt v - 1 + RRDRRA.cur_row v + 1 >=? RRDRRA.row_cnt v)
    eqn:E; rewrite Z.geb_leb in E.
  - lia.
  - apply Z.leb_gt in E. lia.
Qed.

(** ** The three outcomes of [calc_idx] *)

Lemma calc_idx_ok (row_idx ds_idx : Z) :
  0 <= row_idx < n -> 0 <= ds_idx < RRDRRA.ds_cnt v ->
  RRDRRA.calc_idx row_idx ds_idx v
  = (inr (RRDRRA.row_size v * RRDRRA.real_row_idx v row_idx + ds_idx * 8), v).
Proof.
  intros Hr Hd. unfold RRDRRA.calc_idx, bind, get, ret. fold n.
  now rewrite (range_test_true _ _ Hr), (range_test_true _ _ Hd).
Qed.

Lemma calc_idx_row_error (row_idx ds_idx : Z) :
  row_idx < 0 \/ n <= row_idx ->
  RRDRRA.calc_idx row_idx ds_idx v
  = (inl (RangeError (range_message "Row" row_idx n)), v).
Proof.
  intros Hr. unfold RRDRRA.calc_idx, bind, get, throw. fold n.
  now rewrite (range_test_false _ _ Hr).
Qed.

(** The message of the data-source branch is built from [row_idx]. *)

Lemma calc_idx_ds_error (row_idx ds_idx : Z) :
  0 <= row_idx < n -> ds_idx < 0 \/ RRDRRA.ds_cnt v <= ds_idx ->
  RRDRRA.calc_idx row_idx ds_idx v
  = (inl (RangeError (range_message "DS" row_idx (RRDRRA.ds_cnt v))), v).
Proof.
  intros Hr Hd. unfold RRDRRA.calc_idx, bind, get, throw. fold n.
  now rewrite (range_test_true _ _ Hr), (range_test_false _ _ Hd).
Qed.

Lemma calc_idx_final (row_idx ds_idx : Z) :
  final (RRDRRA.calc_idx row_idx ds_idx) v = v.
Proof.
  unfold final, RRDRRA.calc_idx, bind, get, ret, throw.
  destruct ((row_idx >=? 0) && (row_idx <? RRDRRA.row_cnt v));
    [destruct ((ds_idx >=? 0) && (ds_idx <? RRDRRA.ds_cnt v))|]; reflexivity.
Qed.

Lemma calc_idx_error_is_range (row_idx ds_idx : Z) (e : exn) :
  result (RRDRRA.calc_idx row_idx ds_idx) v = inl e -> IndexOutOfRange e.
Proof.
  unfold result, RRDRRA.calc_idx, bind, get, ret, throw.
  destruct ((row_idx >=? 0) && (row_idx <? RRDRRA.row_cnt v));
    [destruct ((ds_idx >=? 0) && (ds_idx <? RRDRRA.ds_cnt v))|];
    simpl; intros H; inversion H; eexists; reflexivity.
Qed.

(** [getEl] and [getElFast] through [calc_idx]. *)

Lemma getEl_unfold (row_idx ds_idx : Z) :
  RRDRRA.getEl row_idx ds_idx v
  = match RRDRRA.calc_idx row_idx ds_idx v with
    | (inr idx, s) =>
        (inr (getDoubleAt (RRDRRA.rrd_data v)
                (RRDRRA.base_rrd_db_idx v + idx)), s)
    | (inl e, s) => (inl e, s)
    end.
Proof.
  unfold RRDRRA.getEl, bind at 1 2, get, ret.
  destruct (RRDRRA.calc_idx row_idx ds_idx v) as [[e | idx] s]; reflexivity.
Qed.


Lemma getEl_final (row_idx ds_idx : Z) :
  final (RRDRRA.getEl row_idx ds_idx) v = v.
Proof.
  unfold final. rewrite getEl_unfold.
  pose proof (calc_idx_final row_idx ds_idx) as H. unfold final in H.
  destruct (RRDRRA.calc_idx row_idx ds_idx v) as [[e | idx] s]; exact H.
Qed.

End RowMapping.

(** ** Claims on the archive view *)




(** ** Lookups on the header and on the file *)

Section Lookups.

Variable f : RRDFile.t.

Let h := RRDFile.rrd_header f.

Lemma on_header_same {A : Type} (m : M RRDHeader.t A) (r : exn + A) :
  m h = (r, h) -> RRDFile.on_header m f = (r, f).
Proof.
  unfold RRDFile.on_header, h. intros ->. now destruct f.
Qed.

Lemma header_getDS_ok (idx : Z) :
  0 <= idx < RRDHeader.ds_cnt h ->
  RRDHeader.getDS idx h
  = (inr (RRDDS.mk (RRDHeader.rrd_data h)
            (RRDHeader.ds_def_idx h + RRDHeader.ds_el_size h * idx)), h).
Proof.
  intros Hi. unfold RRDHeader.getDS, bind, get, ret.
  now rewrite (range_test_true _ _ Hi).
Qed.

Lemma header_getDS_error (idx : Z) :
  idx < 0 \/ RRDHeader.ds_cnt h <= idx ->
  RRDHeader.getDS idx h
  = (inl (RangeError (range_message "DS" idx (RRDHeader.ds_cnt h))), h).
Proof.
  intros Hi. unfold RRDHeader.getDS, bind, get, throw.
  now rewrite (range_test_false _ _ Hi).
Qed.

Lemma getDS_ok (idx : Z) :
  0 <= idx < RRDHeader.ds_cnt h ->
  RRDFile.getDS idx f
  = (inr (RRDDS.mk (RRDHeader.rrd_data h)
            (RRDHeader.ds_def_idx h + RRDHeader.ds_el_size h * idx)), f).
Proof.
  intros Hi. apply on_header_same. now apply header_getDS_ok.
Qed.

Lemma getDS_error (idx : Z) :
  idx < 0 \/ RRDHeader.ds_cnt h <= idx ->
  RRDFile.getDS idx f
  = (inl (RangeError (range_message "DS" idx (RRDHeader.ds_cnt h))), f).
Proof.
  intros Hi. apply on_header_same. now apply header_getDS_error.
Qed.

Lemma getRRA_ok (idx : Z) :
  0 <= idx < RRDHeader.rra_cnt h ->
  RRDFile.getRRA idx f
  = (inr (RRDRRA.new (RRDFile.rrd_data f) (RRDHeader.rrd_align h)
            (RRDHeader.rra_def_idx h + idx * RRDHeader.rra_def_el_size h)
            (RRDHeader.rra_ptr_idx h + idx * RRDHeader.rra_ptr_el_size h)
            (RRDHeader.header_size h)
            (array_get (RRDHeader.rra_def_row_cnts h) idx)
            (array_get (RRDHeader.rra_def_row_cnt_sums h) idx)
            (RRDHeader.ds_cnt h) (RRDHeader.pdp_step h)), f).
Proof.
  intros Hi. unfold RRDFile.getRRA, bind, get, ret. fold h.
  now rewrite (range_test_true _ _ Hi).
Qed.

Lemma getRRA_error (idx : Z) :
  idx < 0 \/ RRDHeader.rra_cnt h <= idx ->
  RRDFile.getRRA idx f
  = (inl (RangeError (range_message "RRA" idx (RRDHeader.rra_cnt h))), f).
Proof.
  intros Hi. unfold RRDFile.getRRA, bind, get, throw. fold h.
  now rewrite (range_test_false _ _ Hi).
Qed.

Lemma getDS_final (idx : Z) : final (RRDFile.getDS idx) f = f.
Proof.
  unfold final.
  destruct (range_test_cases idx (RRDHeader.ds_cnt h)) as [[Hi _] | [Hi _]].
  - now rewrite getDS_ok.
  - now rewrite getDS_error.
Qed.

Lemma getRRA_final (idx : Z) : final (RRDFile.getRRA idx) f = f.
Proof.
  unfold final.
  destruct (range_test_cases idx (RRDHeader.rra_cnt h)) as [[Hi _] | [Hi _]].
  - now rewrite getRRA_ok.
  - now rewrite getRRA_error.
Qed.

End Lookups.

(** C10: the constructor of the view stores whatever head row the buffer
    holds at the archive-pointer offset, with no test, and the mapping
    subtracts the row count at most once.  Hence, for a logical row in
    [[0, rowCount)]: when [0 <= headRow < rowCount] the physical row lies in
    [[0, rowCount)] and is [(logicalRow + headRow + 1) mod rowCount]; when
    [headRow >= rowCount] the newest logical row maps to physical row
    [headRow], which is not below [rowCount]. *)
Theorem head_row_is_not_checked (bf : ByteSource)
    (rrd_align rra_def_idx rra_ptr_idx : Z)
    (header_size row_cnt prev_row_cnts ds_cnt pdp_step : Z) (row_idx : Z) :
  let v := RRDRRA.new bf rrd_align rra_def_idx rra_ptr_idx header_size
             row_cnt prev_row_cnts ds_cnt pdp_step in
  0 <= row_idx < row_cnt ->
  RRDRRA.cur_row v = getLongAt bf rra_ptr_idx
  /\ (RRDRRA.real_row_idx v row_idx = row_idx + RRDRRA.cur_row v + 1
      \/ RRDRRA.real_row_idx v row_idx
         = row_idx + RRDRRA.cur_row v + 1 - row_cnt)
  /\ (0 <= RRDRRA.cur_row v < row_cnt ->
      0 <= RRDRRA.real_row_idx v row_idx < row_cnt
      /\ RRDRRA.real_row_idx v row_idx
         = (row_idx + RRDRRA.cur_row v + 1) mod row_cnt)
  /\ (row_cnt <= RRDRRA.cur_row v ->
      RRDRRA.real_row_idx v (row_cnt - 1) = RRDRRA.cur_row v
      /\ row_cnt <= RRDRRA.real_row_idx v (row_cnt - 1)).
Proof.
  intros v Hr.
  assert (Hn : RRDRRA.row_cnt v = row_cnt) by reflexivity.
  split; [reflexivity|]. split; [|split].
  - rewrite <- Hn. apply real_row_idx_cases.
  - intros Hh. rewrite <- Hn in *. split.
    + now apply real_row_idx_in_range.
    + now apply real_row_idx_mod.
  - intros Hh. rewrite <- Hn in *.
    assert (E : RRDRRA.real_row_idx v (RRDRRA.row_cnt v - 1)
                = RRDRRA.cur_row v) by (apply real_row_idx_newest; lia).
    split; [exact E | rewrite E; exact Hh].
Qed.

(** On [stale_head] (10 rows, head row 25) logical row 9 is read from
    physical row 25. *)
Lemma head_row_is_not_checked_witness :
  0 <= 9 < 10
  /\ RRDRRA.cur_row stale_view = getLongAt stale_head 1120
  /\ RRDRRA.cur_row stale_view = 25
  /\ RRDRRA.real_row_idx stale_view 9 = 25
  /\ 10 <= RRDRRA.real_row_idx stale_view 9.
Proof.
  assert (H9 : 0 <= 9 < 10) by lia.
  assert (Hh : 10 <= RRDRRA.cur_row stale_view) by (vm_compute; discriminate).
  pose proof (head_row_is_not_checked stale_head 32 352 1120 1128 10 0 2 300
                9 H9) as [Hc [_ [_ Hbad]]].
  split; [exact H9|]. split; [exact Hc|]. split; [reflexivity|].
  exact (conj (eq_trans (proj1 (Hbad Hh)) eq_refl) (proj2 (Hbad Hh))).
Defined.




(** C3: [element] returns a value for every pair inside both ranges and
    fails with a [RangeError] for every pair outside one of them; in either
    case the view is left as it was, so that it answers later calls as
    before.  The view holds numbers copied from the header and no reference
    to it, and the bounds-checked lookups of the file leave the file (and
    its header) as they were. *)
Theorem element_bounds (v : RRDRRA.t) (row_idx ds_idx : Z) :
  (0 <= row_idx < RRDRRA.row_cnt v /\ 0 <= ds_idx < RRDRRA.ds_cnt v ->
   exists x, RRDRRA.getEl row_idx ds_idx v = (inr x, v))
  /\ (row_idx < 0 \/ RRDRRA.row_cnt v <= row_idx
      \/ ds_idx < 0 \/ RRDRRA.ds_cnt v <= ds_idx ->
      exists e, IndexOutOfRange e
                /\ RRDRRA.getEl row_idx ds_idx v = (inl e, v))
  /\ final (RRDRRA.getEl row_idx ds_idx) v = v
  /\ (forall row_idx' ds_idx',
         RRDRRA.getEl row_idx' ds_idx' (final (RRDRRA.getEl row_idx ds_idx) v)
         = RRDRRA.getEl row_idx' ds_idx' v)
  /\ (forall (f : RRDFile.t) (idx : Z),
         final (RRDFile.getDS idx) f = f /\ final (RRDFile.getRRA idx) f = f).
Proof.
  split; [|split; [|split; [|split]]].
  - intros [Hr Hd]. eexists.
    rewrite getEl_unfold, calc_idx_ok by assumption. reflexivity.
  - intros Hout.
    destruct (range_test_cases row_idx (RRDRRA.row_cnt v))
      as [[Hr _] | [Hr _]].
    + assert (Hd : ds_idx < 0 \/ RRDRRA.ds_cnt v <= ds_idx) by lia.
      eexists. split; [eexists; reflexivity|].
      rewrite getEl_unfold, calc_idx_ds_error by assumption. reflexivity.
    + eexists. split; [eexists; reflexivity|].
      rewrite getEl_unfold, calc_idx_row_error by assumption. reflexivity.
  - apply getEl_final.
  - intros. now rewrite getEl_final.
  - intros f idx. split; [apply getDS_final | apply getRRA_final].
Qed.

(** On the first archive of [sample32]: cell (9, 1) is read, row 10 is
    refused, and the view is unchanged by the refusal. *)
Lemma element_bounds_witness :
  (exists x, RRDRRA.getEl 9 1 view_10_3 = (inr x, view_10_3))
  /\ (exists e, IndexOutOfRange e
                /\ RRDRRA.getEl 10 1 view_10_3 = (inl e, view_10_3)).
Proof.
  split.
  - apply (proj1 (element_bounds view_10_3 9 1)).
    vm_compute. repeat split; discriminate.
  - apply (proj1 (proj2 (element_bounds view_10_3 10 1))).
    right. left. vm_compute. discriminate.
Defined.

(** ** The messages of the bounds errors *)


(** The fourth is built from the row index: with the row in range, the
    error does not depend on the data-source index that was refused. *)
Lemma ds_range_error_ignores_ds_idx (v : RRDRRA.t) (row_idx ds_idx : Z) :
  0 <= row_idx < RRDRRA.row_cnt v ->
  ds_idx < 0 \/ RRDRRA.ds_cnt v <= ds_idx ->
  result (RRDRRA.getEl row_idx ds_idx) v
  = inl (RangeError (range_message "DS" row_idx (RRDRRA.ds_cnt v))).
Proof.
  intros Hr Hd. unfold result.
  now rewrite getEl_unfold, calc_idx_ds_error.
Qed.

(** C2 (the code at the failing input): on a view with 10 rows and 2 data
    sources, [element(3, 5)] is refused for its data-source index 5, and the
    error reads "DS idx (3) out of range [0-2)": it names the row index 3,
    which was valid, and is the same error as for [element(3, -1)]. *)
Theorem ds_range_error_names_row_idx :
  RRDRRA.row_cnt view_10_3 = 10
  /\ RRDRRA.ds_cnt view_10_3 = 2
  /\ result (RRDRRA.getEl 3 5) view_10_3
     = inl (RangeError "DS idx (3) out of range [0-2).")
  /\ result (RRDRRA.getEl 3 5) view_10_3
     <> inl (RangeError (range_message "DS" 5 2))
  /\ result (RRDRRA.getEl 3 5) view_10_3
     = result (RRDRRA.getEl 3 (-1)) view_10_3.
Proof.
  split; [reflexivity|]. split; [reflexivity|].
  split; [vm_compute; reflexivity|].
  split; [vm_compute; discriminate | vm_compute; reflexivity].
Qed.

(** ** Construction of the header *)

Section Construction.

Variable bf : ByteSource.

Let magic := getCStringAt bf 0 4.
Let version := getCStringAt bf 4 5.
Let at12 := PrimFloat.eqb (getDoubleAt bf 12) sentinel.
Let at16 := PrimFloat.eqb (getDoubleAt bf 16) sentinel.

(** [validate_rrd] on the fresh object, test by test. *)
Lemma validate_rrd_fresh :
  RRDHeader.validate_rrd (RRDHeader.fresh bf)
  = if negb (magic =? "RRD")%string then
      (inl InvalidFormat, RRDHeader.fresh bf)
    else
      let this := RRDHeader.set_rrd_version version (RRDHeader.fresh bf) in
      if negb (version =? "0003")%string && negb (version =? "0004")%string
      then (inl (UnsupportedVersion version), this)
      else if at12 then (inr tt, RRDHeader.set_rrd_align 32 this)
      else if at16 then (inr tt, RRDHeader.set_rrd_align 64 this)
      else (inl UnsupportedPlatform, this).
Proof.
  unfold RRDHeader.validate_rrd, bind, get, modify, ret, throw,
    magic, version, at12, at16. simpl.
  destruct (getCStringAt bf 0 4 =? "RRD")%string; simpl; [|reflexivity].
  destruct (getCStringAt bf 4 5 =? "0003")%string,
           (getCStringAt bf 4 5 =? "0004")%string; simpl;
    try reflexivity;
    destruct (PrimFloat.eqb (getDoubleAt bf 12) sentinel);
    try reflexivity;
    destruct (PrimFloat.eqb (getDoubleAt bf 16) sentinel); reflexivity.
Qed.

(** The constructor, test by test. *)
Lemma new_cases :
  RRDHeader.new bf
  = if negb (magic =? "RRD")%string then inl InvalidFormat
    else if negb (version =? "0003")%string && negb (version =? "0004")%string
    then inl (UnsupportedVersion version)
    else if at12 then inr (decoded bf version 32)
    else if at16 then inr (decoded bf version 64)
    else inl UnsupportedPlatform.
Proof.
  unfold RRDHeader.new, RRDHeader.init. unfold bind at 1.
  rewrite validate_rrd_fresh.
  destruct (negb (magic =? "RRD")%string); [reflexivity|]. cbv zeta.
  destruct (negb (version =? "0003")%string
            && negb (version =? "0004")%string); [reflexivity|].
  destruct at12; [header_fields; reflexivity|].
  destruct at16; [header_fields; reflexivity | reflexivity].
Qed.

Lemma version_test (s : string) :
  negb (s =? "0003")%string && negb (s =? "0004")%string = false
  <-> s = "0003" \/ s = "0004".
Proof.
  destruct (String.eqb_spec s "0003") as [E3 | E3];
    destruct (String.eqb_spec s "0004") as [E4 | E4]; simpl;
    intuition discriminate.
Qed.

(** A header that was built is one of the two decoded layouts. *)
Lemma new_inr (h : RRDHeader.t) :
  RRDHeader.new bf = inr h ->
  magic = "RRD"
  /\ (version = "0003" \/ version = "0004")
  /\ ((at12 = true /\ h = decoded bf version 32)
      \/ (at12 = false /\ at16 = true /\ h = decoded bf version 64)).
Proof.
  rewrite new_cases.
  destruct (String.eqb_spec magic "RRD") as [Em | Em]; simpl;
    [|discriminate].
  destruct (negb (version =? "0003")%string
            && negb (version =? "0004")%string) eqn:Ev; [discriminate|].
  apply version_test in Ev.
  destruct at12.
  - intros H. injection H as <-.
    split; [exact Em|]. split; [exact Ev|]. left. split; reflexivity.
  - destruct at16; [|discriminate].
    intros H. injection H as <-.
    split; [exact Em|]. split; [exact Ev|]. right. repeat split.
Qed.

End Construction.

(** C4 (as amended): construction reads 4 bytes at offset 0 and fails with
    [InvalidFormat] unless they are the magic marker; with the marker
    present it reads the 5-byte version string at offset 4 and fails with
    [UnsupportedVersion] for every string other than "0003" and "0004";
    with the version accepted, construction succeeds exactly when an
    alignment probe matches, and fails with [UnsupportedPlatform] otherwise.
    A failure of any step makes [new] fail with that error, whatever the
    step had assigned, and a header is returned only when all three steps
    have run to their end. *)
Theorem header_construction_checks (bf : ByteSource) :
  let magic := getCStringAt bf 0 4 in
  let version := getCStringAt bf 4 5 in
  let aligned := PrimFloat.eqb (getDoubleAt bf 12) sentinel
                 || PrimFloat.eqb (getDoubleAt bf 16) sentinel in
  (magic <> "RRD" -> RRDHeader.new bf = inl InvalidFormat)
  /\ (magic = "RRD" -> version <> "0003" -> version <> "0004" ->
      RRDHeader.new bf = inl (UnsupportedVersion version))
  /\ (magic = "RRD" -> version = "0003" \/ version = "0004" ->
      aligned = true ->
      exists h, RRDHeader.new bf = inr h
                /\ RRDHeader.rrd_version h = version)
  /\ (magic = "RRD" -> version = "0003" \/ version = "0004" ->
      aligned = false ->
      RRDHeader.new bf = inl UnsupportedPlatform)
  /\ (forall h, RRDHeader.new bf = inr h ->
      magic = "RRD" /\ (version = "0003" \/ version = "0004")
      /\ aligned = true)
  /\ (forall e this,
         RRDHeader.init (RRDHeader.fresh bf) = (inl e, this) ->
         RRDHeader.new bf = inl e /\ RRDFile.new bf = inl e)
  /\ (forall h, RRDHeader.new bf = inr h ->
      RRDHeader.init (RRDHeader.fresh bf) = (inr tt, h)).
Proof.
  intros magic version aligned.
  split; [|split; [|split; [|split; [|split; [|split]]]]].
  - intros Hm. rewrite new_cases. fold magic.
    destruct (String.eqb_spec magic "RRD"); [contradiction | reflexivity].
  - intros Hm H3 H4. rewrite new_cases. fold magic version.
    rewrite Hm. simpl.
    destruct (String.eqb_spec version "0003"); [contradiction|].
    destruct (String.eqb_spec version "0004"); [contradiction|].
    reflexivity.
  - intros Hm Hv Ha. rewrite new_cases. fold magic version.
    rewrite Hm. simpl.
    rewrite (proj2 (version_test version) Hv).
    unfold aligned in Ha.
    destruct (PrimFloat.eqb (getDoubleAt bf 12) sentinel).
    + eexists. split; [reflexivity | header_fields; reflexivity].
    + simpl in Ha. rewrite Ha.
      eexists. split; [reflexivity | header_fields; reflexivity].
  - intros Hm Hv Ha. rewrite new_cases. fold magic version.
    rewrite Hm. simpl.
    rewrite (proj2 (version_test version) Hv).
    unfold aligned in Ha. apply orb_false_elim in Ha as [-> ->].
    reflexivity.
  - intros h Hh. apply new_inr in Hh as [Hm [Hv Hal]].
    split; [exact Hm|]. split; [exact Hv|]. unfold aligned.
    destruct Hal as [[-> _] | [-> [-> _]]]; reflexivity.
  - intros e this Hinit. unfold RRDFile.new, RRDHeader.new.
    rewrite Hinit. split; reflexivity.
  - intros h. unfold RRDHeader.new.
    destruct (RRDHeader.init (RRDHeader.fresh bf)) as [[e | []] this].
    + discriminate.
    + intros H. injection H as <-. reflexivity.
Qed.

(** [sample32] has the marker, version "0003" and the sentinel at offset
    12: it is accepted. *)
Lemma header_construction_checks_witness :
  (getCStringAt sample32 0 4 = "RRD"
   /\ (getCStringAt sample32 4 5 = "0003"
       \/ getCStringAt sample32 4 5 = "0004")
   /\ PrimFloat.eqb (getDoubleAt sample32 12) sentinel
      || PrimFloat.eqb (getDoubleAt sample32 16) sentinel = true)
  /\ exists h, RRDHeader.new sample32 = inr h
               /\ RRDHeader.rrd_version h = getCStringAt sample32 4 5.
Proof.
  assert (Hm : getCStringAt sample32 0 4 = "RRD") by reflexivity.
  assert (Hv : getCStringAt sample32 4 5 = "0003"
               \/ getCStringAt sample32 4 5 = "0004")
    by (left; reflexivity).
  assert (Ha : PrimFloat.eqb (getDoubleAt sample32 12) sentinel
               || PrimFloat.eqb (getDoubleAt sample32 16) sentinel = true)
    by (vm_compute; reflexivity).
  split; [exact (conj Hm (conj Hv Ha))|].
  exact (proj1 (proj2 (proj2 (header_construction_checks sample32)))
           Hm Hv Ha).
Defined.

(** C4 as stated fails on [no_sentinel]: the marker is there and the
    version string is "0003", yet construction fails. *)
Lemma accepted_version_without_sentinel :
  getCStringAt no_sentinel 0 4 = "RRD"
  /\ getCStringAt no_sentinel 4 5 = "0003"
  /\ RRDHeader.new no_sentinel = inl UnsupportedPlatform
  /\ RRDFile.new no_sentinel = inl UnsupportedPlatform.
Proof.
  split; [reflexivity|]. split; [reflexivity|].
  split; vm_compute; reflexivity.
Qed.

(** C5: once the marker and the version are accepted, the probes decide:
    the sentinel at offset 12 gives 32-bit alignment; otherwise the
    sentinel at offset 16 gives 64-bit alignment; otherwise construction
    fails with [UnsupportedPlatform].  No header is built without one of
    the probes matching, and the alignment of a header that was built is
    the one its probes gave. *)
Theorem alignment_is_probed (bf : ByteSource) :
  let at12 := PrimFloat.eqb (getDoubleAt bf 12) sentinel in
  let at16 := PrimFloat.eqb (getDoubleAt bf 16) sentinel in
  getCStringAt bf 0 4 = "RRD" ->
  getCStringAt bf 4 5 = "0003" \/ getCStringAt bf 4 5 = "0004" ->
  (at12 = true ->
   exists h, RRDHeader.new bf = inr h /\ RRDHeader.rrd_align h = 32)
  /\ (at12 = false -> at16 = true ->
      exists h, RRDHeader.new bf = inr h /\ RRDHeader.rrd_align h = 64)
  /\ (at12 = false -> at16 = false ->
      RRDHeader.new bf = inl UnsupportedPlatform)
  /\ (forall h, RRDHeader.new bf = inr h ->
      (at12 = true /\ RRDHeader.rrd_align h = 32)
      \/ (at12 = false /\ at16 = true /\ RRDHeader.rrd_align h = 64)).
Proof.
  intros at12 at16 Hm Hv.
  assert (Hnew : RRDHeader.new bf
                 = if at12 then inr (decoded bf (getCStringAt bf 4 5) 32)
                   else if at16
                        then inr (decoded bf (getCStringAt bf 4 5) 64)
                        else inl UnsupportedPlatform).
  { rewrite new_cases, Hm. simpl.
    now rewrite (proj2 (version_test _) Hv). }
  split; [|split; [|split]].
  - intros H12. rewrite Hnew, H12. eexists. split; [reflexivity|].
    header_fields. reflexivity.
  - intros H12 H16. rewrite Hnew, H12, H16. eexists. split; [reflexivity|].
    header_fields. reflexivity.
  - intros H12 H16. now rewrite Hnew, H12, H16.
  - intros h Hh. rewrite Hnew in Hh.
    destruct at12; [|destruct at16; [|discriminate]];
      injection Hh as <-; [left | right]; repeat split.
Qed.

(** [sample64] has no sentinel at offset 12 and one at offset 16: its
    alignment is 64-bit. *)
Lemma alignment_is_probed_witness :
  (getCStringAt sample64 0 4 = "RRD"
   /\ (getCStringAt sample64 4 5 = "0003"
       \/ getCStringAt sample64 4 5 = "0004")
   /\ PrimFloat.eqb (getDoubleAt sample64 12) sentinel = false
   /\ PrimFloat.eqb (getDoubleAt sample64 16) sentinel = true)
  /\ exists h, RRDHeader.new sample64 = inr h /\ RRDHeader.rrd_align h = 64.
Proof.
  assert (Hm : getCStringAt sample64 0 4 = "RRD") by reflexivity.
  assert (Hv : getCStringAt sample64 4 5 = "0003"
               \/ getCStringAt sample64 4 5 = "0004")
    by (right; reflexivity).
  assert (H12 : PrimFloat.eqb (getDoubleAt sample64 12) sentinel = false)
    by (vm_compute; reflexivity).
  assert (H16 : PrimFloat.eqb (getDoubleAt sample64 16) sentinel = true)
    by (vm_compute; reflexivity).
  split; [exact (conj Hm (conj Hv (conj H12 H16)))|].
  exact (proj1 (proj2 (alignment_is_probed sample64 Hm Hv)) H12 H16).
Defined.

(** C6, for headers of at most 2^53 bytes: in a header that was built, for
    non-negative counts that put the header size at or below 2^53 (so that
    every sum and product of [calc_idxs] is exact in binary64), the
    data-source definitions start at the top header size (112, or 128 with
    64-bit alignment) and every later section starts at the previous start
    plus the previous element size times the previous element count, with
    element sizes 120, 108/120, 8/16 (one live head), 112, 80 per pair of a
    data source and an archive, and 4/8; the starts never decrease and the
    last one is the header size.  The counts are the integers at offsets
    20/24 and 24/32. *)
Theorem section_offsets_are_sequential (bf : ByteSource) (h : RRDHeader.t) :
  RRDHeader.new bf = inr h ->
  0 <= RRDHeader.ds_cnt h ->
  0 <= RRDHeader.rra_cnt h ->
  RRDHeader.header_size h <= 2 ^ 53 ->
  let wide := negb (RRDHeader.rrd_align h =? 32) in
  let ds_cnt := RRDHeader.ds_cnt h in
  let rra_cnt := RRDHeader.rra_cnt h in
  (RRDHeader.rrd_align h = 32 \/ RRDHeader.rrd_align h = 64)
  /\ ds_cnt = getLongAt bf (if wide then 24 else 20)
  /\ rra_cnt = getLongAt bf (if wide then 32 else 24)
  /\ RRDHeader.top_header_size h = (if wide then 128 else 112)
  /\ RRDHeader.ds_def_idx h = RRDHeader.top_header_size h
  /\ RRDHeader.rra_def_idx h = RRDHeader.ds_def_idx h + 120 * ds_cnt
  /\ RRDHeader.live_head_idx h
     = RRDHeader.rra_def_idx h + (if wide then 120 else 108) * rra_cnt
  /\ RRDHeader.pdp_prep_idx h
     = RRDHeader.live_head_idx h + (if wide then 16 else 8) * 1
  /\ RRDHeader.cdp_prep_idx h = RRDHeader.pdp_prep_idx h + 112 * ds_cnt
  /\ RRDHeader.rra_ptr_idx h
     = RRDHeader.cdp_prep_idx h + 80 * (ds_cnt * rra_cnt)
  /\ RRDHeader.header_size h
     = RRDHeader.rra_ptr_idx h + (if wide then 8 else 4) * rra_cnt
  /\ (RRDHeader.ds_def_idx h <= RRDHeader.rra_def_idx h
      /\ RRDHeader.rra_def_idx h <= RRDHeader.live_head_idx h
      /\ RRDHeader.live_head_idx h <= RRDHeader.pdp_prep_idx h
      /\ RRDHeader.pdp_prep_idx h <= RRDHeader.cdp_prep_idx h
      /\ RRDHeader.cdp_prep_idx h <= RRDHeader.rra_ptr_idx h
      /\ RRDHeader.rra_ptr_idx h <= RRDHeader.header_size h)
  /\ (RRDHeader.ds_el_size h = 120
      /\ RRDHeader.rra_def_el_size h = (if wide then 120 else 108)
      /\ RRDHeader.row_cnt_idx h = (if wide then 24 else 20)
      /\ RRDHeader.live_head_size h = (if wide then 16 else 8)
      /\ RRDHeader.pdp_prep_el_size h = 112
      /\ RRDHeader.cdp_prep_el_size h = 80
      /\ RRDHeader.rra_ptr_el_size h = (if wide then 8 else 4)).
Proof.
  intros Hnew.
  apply new_inr in Hnew as [_ [_ [[_ ->] | [_ [_ ->]]]]];
    header_fields; intros Hds Hrra _;
    pose proof (Z.mul_nonneg_nonneg _ _ Hds Hrra) as Hpair;
    repeat split; try lia; auto.
Qed.

(** The header of [sample32]: two data sources and two archives put the
    sections at 112, 352, 568, 576, 800 and 1120, and the samples at
    1128. *)
Lemma section_offsets_are_sequential_witness :
  (RRDHeader.new sample32 = inr sample32_header
   /\ 0 <= RRDHeader.ds_cnt sample32_header
   /\ 0 <= RRDHeader.rra_cnt sample32_header
   /\ RRDHeader.header_size sample32_header <= 2 ^ 53)
  /\ RRDHeader.ds_def_idx sample32_header = 112
  /\ RRDHeader.rra_def_idx sample32_header = 112 + 120 * 2
  /\ RRDHeader.live_head_idx sample32_header = 352 + 108 * 2
  /\ RRDHeader.pdp_prep_idx sample32_header = 568 + 8 * 1
  /\ RRDHeader.cdp_prep_idx sample32_header = 576 + 112 * 2
  /\ RRDHeader.rra_ptr_idx sample32_header = 800 + 80 * (2 * 2)
  /\ RRDHeader.header_size sample32_header = 1120 + 4 * 2.
Proof.
  assert (Hnew : RRDHeader.new sample32 = inr sample32_header)
    by (rewrite new_cases; vm_compute; reflexivity).
  assert (Hds : 0 <= RRDHeader.ds_cnt sample32_header)
    by (vm_compute; discriminate).
  assert (Hrra : 0 <= RRDHeader.rra_cnt sample32_header)
    by (vm_compute; discriminate).
  assert (Hsize : RRDHeader.header_size sample32_header <= 2 ^ 53)
    by (vm_compute; discriminate).
  split; [exact (conj Hnew (conj Hds (conj Hrra Hsize)))|].
  pose proof (section_offsets_are_sequential sample32 sample32_header
                Hnew Hds Hrra Hsize) as T.
  vm_compute in T. vm_compute. tauto.
Defined.

(** C6 for all non-negative counts fails past 2^53: [huge_counts] opens as
    a 32-bit header whose two counts are 4294967295, for which the exact
    header size exceeds 2^53; in binary64 the archive pointers are put at
    1475739526669858242560 and the header size is 1475739526687038111744,
    which is 17179869184 further and not [4 * 4294967295 = 17179869180]. *)
Lemma huge_counts_round_the_offsets :
  match RRDHeader.new huge_counts with
  | inr h =>
      RRDHeader.rrd_align h = 32
      /\ RRDHeader.top_header_size h = 112
      /\ RRDHeader.ds_cnt h = 4294967295
      /\ RRDHeader.rra_cnt h = 4294967295
  | inl _ => False
  end
  /\ (0 <= getLongAt huge_counts 20 /\ 0 <= getLongAt huge_counts 24)
  /\ 2 ^ 53 < 112 + 120 * 4294967295 + 108 * 4294967295 + 8
              + 112 * 4294967295 + 80 * (4294967295 * 4294967295)
              + 4 * 4294967295
  /\ (Binary64.to_Z (Binary64.of_Z 112) = 112
      /\ Binary64.to_Z (Binary64.of_Z 4294967295) = 4294967295)
  /\ let o := Binary64.calc_idxs 32 (Binary64.of_Z 112)
                (Binary64.of_Z (getLongAt huge_counts 20))
                (Binary64.of_Z (getLongAt huge_counts 24)) in
     Binary64.to_Z (Binary64.rra_ptr_idx o) = 1475739526669858242560
     /\ Binary64.to_Z (Binary64.header_size o) = 1475739526687038111744
     /\ Binary64.to_Z (Binary64.header_size o)
        - Binary64.to_Z (Binary64.rra_ptr_idx o) = 17179869184
     /\ Binary64.to_Z (Binary64.header_size o)
        <> Binary64.to_Z (Binary64.rra_ptr_idx o) + 4 * 4294967295.
Proof.
  split; [vm_compute; repeat split; reflexivity|].
  split; [vm_compute; split; discriminate|].
  split; [vm_compute; reflexivity|].
  split; [vm_compute; split; reflexivity|].
  vm_compute. repeat split; discriminate.
Qed.

(** Below 2^53 the replay in binary64 and the header agree, as on the
    offsets of [sample32]. *)
Lemma binary64_offsets_of_sample32 :
  let o := Binary64.calc_idxs (RRDHeader.rrd_align sample32_header)
             (Binary64.of_Z (RRDHeader.top_header_size sample32_header))
             (Binary64.of_Z (RRDHeader.ds_cnt sample32_header))
             (Binary64.of_Z (RRDHeader.rra_cnt sample32_header)) in
  Binary64.to_Z (Binary64.ds_def_idx o) = RRDHeader.ds_def_idx sample32_header
  /\ Binary64.to_Z (Binary64.rra_def_idx o)
     = RRDHeader.rra_def_idx sample32_header
  /\ Binary64.to_Z (Binary64.live_head_idx o)
     = RRDHeader.live_head_idx sample32_header
  /\ Binary64.to_Z (Binary64.pdp_prep_idx o)
     = RRDHeader.pdp_prep_idx sample32_header
  /\ Binary64.to_Z (Binary64.cdp_prep_idx o)
     = RRDHeader.cdp_prep_idx sample32_header
  /\ Binary64.to_Z (Binary64.rra_ptr_idx o)
     = RRDHeader.rra_ptr_idx sample32_header
  /\ Binary64.to_Z (Binary64.header_size o)
     = RRDHeader.header_size sample32_header.
Proof.
  vm_compute. repeat split; reflexivity.
Qed.



(** ** The row counts and their running sums *)

Lemma sumZ_firstn_succ (l : list Z) :
  forall n : nat, (n < List.length l)%nat ->
  sumZ (firstn (S n) l) = sumZ (firstn n l) + nth n l 0.
Proof.
  induction l as [|x l IH]; intros n Hn; simpl in Hn.
  - lia.
  - destruct n as [|n].
    + simpl. lia.
    + change (sumZ (firstn (S (S n)) (x :: l)))
        with (x + sumZ (firstn (S n) l)).
      change (sumZ (firstn (S n) (x :: l))) with (x + sumZ (firstn n l)).
      change (nth (S n) (x :: l) 0) with (nth n l 0).
      rewrite IH by lia. lia.
Qed.

Lemma rows_before_succ (a : list Z) (k : Z) :
  0 <= k -> (Z.to_nat k < List.length a)%nat ->
  rows_before a (k + 1) = rows_before a k + array_get a k.
Proof.
  intros Hk Hlen. unfold rows_before, array_get.
  replace (Z.to_nat (k + 1)) with (S (Z.to_nat k)) by lia.
  now apply sumZ_firstn_succ.
Qed.

Lemma rows_before_app (a : list Z) (x : Z) (k : Z) :
  (Z.to_nat k <= List.length a)%nat ->
  rows_before (a ++ [x])%list k = rows_before a k.
Proof.
  intros Hk. unfold rows_before. rewrite firstn_app.
  replace (Z.to_nat k - List.length a)%nat with 0%nat by lia.
  simpl. now rewrite app_nil_r.
Qed.

(** A write at the end of the array appends. *)
Lemma array_set_end (a : list Z) (i v : Z) :
  0 <= i -> List.length a = Z.to_nat i ->
  array_set a i v = (a ++ [v])%list.
Proof.
  intros Hi Hlen. unfold array_set.
  replace (i <? Z.of_nat (List.length a)) with false
    by (symmetry; apply Z.ltb_ge; lia).
  replace (Z.to_nat i - List.length a)%nat with 0%nat by lia.
  reflexivity.
Qed.

Lemma array_get_app_old (a : list Z) (x : Z) (j : Z) :
  (Z.to_nat j < List.length a)%nat ->
  array_get (a ++ [x])%list j = array_get a j.
Proof.
  intros Hj. unfold array_get. now apply app_nth1.
Qed.

Lemma array_get_app_new (a : list Z) (x : Z) (i : Z) :
  List.length a = Z.to_nat i ->
  array_get (a ++ [x])%list i = x.
Proof.
  intros Hlen. unfold array_get. rewrite <- Hlen.
  rewrite app_nth2 by lia. now rewrite Nat.sub_diag.
Qed.

Section RowCounts.

Variable this : RRDHeader.t.

(** The row-count field of archive [j]. *)
Let field (j : Z) : Z :=
  getLongAt (RRDHeader.rrd_data this)
    (RRDHeader.rra_def_idx this + j * RRDHeader.rra_def_el_size this
     + RRDHeader.row_cnt_idx this).

(** [this] with the two arrays replaced. *)
Let with_arrays (c s : list Z) : RRDHeader.t :=
  RRDHeader.set_rra_def_row_cnt_sums s (RRDHeader.set_rra_def_row_cnts c this).

(** What holds of the arrays when the loop reaches index [i]. *)
Let loaded (i : Z) (c s : list Z) : Prop :=
  List.length c = Z.to_nat i
  /\ List.length s = Z.to_nat i
  /\ (forall j, 0 <= j < i -> array_get c j = field j)
  /\ (forall j, 0 <= j < i -> array_get s j = rows_before c j).

Lemma load_row_cnts_body_step (i : Z) (c s : list Z) :
  RRDHeader.load_row_cnts_body i (with_arrays c s)
  = (inr tt,
     with_arrays (array_set c i (field i))
       (if i =? 0 then array_set s i 0
        else array_set s i
               (array_get s (i - 1)
                + array_get (array_set c i (field i)) (i - 1)))).
Proof.
  unfold with_arrays, field. destruct this.
  unfold RRDHeader.load_row_cnts_body, bind, get, modify. cbn.
  destruct (i =? 0); reflexivity.
Qed.

Lemma loaded_step (i : Z) (c s : list Z) :
  0 <= i -> loaded i c s ->
  loaded (i + 1) (array_set c i (field i))
    (if i =? 0 then array_set s i 0
     else array_set s i
            (array_get s (i - 1)
             + array_get (array_set c i (field i)) (i - 1))).
Proof.
  intros Hi (Hc & Hs & Hfield & Hsum).
  rewrite (array_set_end c) by assumption.
  assert (Hlast : array_get s (i - 1) + array_get (c ++ [field i])%list (i - 1)
                  = rows_before c i \/ i = 0).
  { destruct (Z.eq_dec i 0) as [-> | Hne]; [now right | left].
    rewrite array_get_app_old by lia.
    rewrite Hsum by lia.
    replace i with (i - 1 + 1) at 3 by lia.
    symmetry. apply rows_before_succ; lia. }
  assert (Hset : (if i =? 0 then array_set s i 0
                  else array_set s i
                         (array_get s (i - 1)
                          + array_get (c ++ [field i])%list (i - 1)))
                 = (s ++ [rows_before c i])%list).
  { destruct (Z.eqb_spec i 0) as [-> | Hne].
    - now rewrite array_set_end.
    - rewrite array_set_end by assumption.
      destruct Hlast as [-> | ->]; [reflexivity | contradiction]. }
  rewrite Hset. unfold loaded. rewrite !length_app. simpl.
  split; [lia|]. split; [lia|]. split.
  - intros j Hj. destruct (Z.eq_dec j i) as [-> | Hne].
    + now apply array_get_app_new.
    + rewrite array_get_app_old by lia. apply Hfield. lia.
  - intros j Hj. rewrite rows_before_app by lia.
    destruct (Z.eq_dec j i) as [-> | Hne].
    + now apply array_get_app_new.
    + rewrite array_get_app_old by lia. apply Hsum. lia.
Qed.

(** The loop runs to its end and extends the arrays by [n] entries. *)
Lemma load_row_cnts_loop_spec (n : nat) :
  forall (i : Z) (c s : list Z),
    0 <= i -> loaded i c s ->
    exists c' s',
      for_range n i RRDHeader.load_row_cnts_body (with_arrays c s)
      = (inr tt, with_arrays c' s')
      /\ loaded (i + Z.of_nat n) c' s'.
Proof.
  induction n as [|n IH]; intros i c s Hi Hinv.
  - exists c, s. split; [reflexivity|].
    now replace (i + Z.of_nat 0) with i by lia.
  - destruct (IH (i + 1) _ _ ltac:(lia) (loaded_step i c s Hi Hinv))
      as (c' & s' & Hrun & Hinv').
    exists c', s'. split.
    + change (for_range (S n) i RRDHeader.load_row_cnts_body)
        with (bind (RRDHeader.load_row_cnts_body i)
                (fun _ => for_range n (i + 1) RRDHeader.load_row_cnts_body)).
      unfold bind at 1. rewrite load_row_cnts_body_step. exact Hrun.
    + now replace (i + Z.of_nat (S n)) with (i + 1 + Z.of_nat n) by lia.
Qed.

(** [load_row_cnts] returns, changes the two arrays only, and leaves in
    them the row counts and the rows before each archive. *)
Lemma load_row_cnts_spec :
  exists c s,
    RRDHeader.load_row_cnts this = (inr tt, with_arrays c s)
    /\ List.length c = Z.to_nat (RRDHeader.rra_cnt this)
    /\ List.length s = Z.to_nat (RRDHeader.rra_cnt this)
    /\ (forall j, 0 <= j < RRDHeader.rra_cnt this ->
        array_get c j = field j /\ array_get s j = rows_before c j).
Proof.
  destruct (load_row_cnts_loop_spec (Z.to_nat (RRDHeader.rra_cnt this))
              0 [] [] ltac:(lia)) as (c & s & Hrun & Hc & Hs & Hf & Hsum).
  { repeat split; intros; lia. }
  exists c, s. split; [|split; [|split]].
  - rewrite <- Hrun. unfold with_arrays. destruct this. reflexivity.
  - rewrite Hc. lia.
  - rewrite Hs. lia.
  - intros j Hj. split; [apply Hf | apply Hsum]; lia.
Qed.

End RowCounts.

(** A file that was built holds a header that was built, with the two
    arrays loaded: one entry per archive. *)
Lemma new_file_inr (bf : ByteSource) (f : RRDFile.t) :
  RRDFile.new bf = inr f ->
  exists h0 c s,
    RRDHeader.new bf = inr h0
    /\ f = RRDFile.mk bf
             (RRDHeader.set_rra_def_row_cnt_sums s
                (RRDHeader.set_rra_def_row_cnts c h0))
    /\ List.length c = Z.to_nat (RRDHeader.rra_cnt h0)
    /\ List.length s = Z.to_nat (RRDHeader.rra_cnt h0)
    /\ (forall j, 0 <= j < RRDHeader.rra_cnt h0 ->
        array_get c j
        = getLongAt (RRDHeader.rrd_data h0)
            (RRDHeader.rra_def_idx h0 + j * RRDHeader.rra_def_el_size h0
             + RRDHeader.row_cnt_idx h0)
        /\ array_get s j = rows_before c j).
Proof.
  unfold RRDFile.new.
  destruct (RRDHeader.new bf) as [e | h0]; [discriminate|].
  destruct (load_row_cnts_spec h0) as (c & s & Hrun & Hc & Hs & Hall).
  rewrite Hrun. intros H. injection H as <-.
  exists h0, c, s. repeat split; try assumption; now apply Hall.
Qed.



(** * Further properties of the reader *)

(** ** The ring of rows *)

Lemma rotation_inverse (v : RRDRRA.t) (physical : Z) :
  0 <= RRDRRA.cur_row v < RRDRRA.row_cnt v ->
  0 <= physical < RRDRRA.row_cnt v ->
  let logical := (physical - RRDRRA.cur_row v - 1) mod RRDRRA.row_cnt v in
  0 <= logical < RRDRRA.row_cnt v
  /\ RRDRRA.real_row_idx v logical = physical
  /\ (forall row_idx, 0 <= row_idx < RRDRRA.row_cnt v ->
      RRDRRA.real_row_idx v row_idx = physical -> row_idx = logical).
Proof.
  intros Hh Hp logical.
  assert (Hl : 0 <= logical < RRDRRA.row_cnt v)
    by (apply Z.mod_pos_bound; lia).
  assert (Hback : RRDRRA.real_row_idx v logical = physical).
  { rewrite real_row_idx_mod by assumption. unfold logical.
    rewrite <- Z.add_assoc, Zplus_mod_idemp_l.
    replace (physical - RRDRRA.cur_row v - 1 + (RRDRRA.cur_row v + 1))
      with physical by ring.
    apply Z.mod_small. exact Hp. }
  split; [exact Hl|]. split; [exact Hback|].
  intros row_idx Hr Hreal. rewrite <- Hback in Hreal.
  revert Hreal. unfold RRDRRA.real_row_idx.
  destruct (row_idx + RRDRRA.cur_row v + 1 >=? RRDRRA.row_cnt v) eqn:E1;
    destruct (logical + RRDRRA.cur_row v + 1 >=? RRDRRA.row_cnt v) eqn:E2;
    rewrite Z.geb_leb in E1, E2;
    try apply Z.leb_le in E1; try apply Z.leb_gt in E1;
    try apply Z.leb_le in E2; try apply Z.leb_gt in E2; lia.
Qed.

(** The circular mapping is a rotation of the rows: with the head row
    below the row count, every physical row is read by exactly one logical
    row, [(physical - headRow - 1) mod rowCount]. *)
Theorem physical_rows_are_a_rotation (v : RRDRRA.t) (physical : Z) :
  0 <= RRDRRA.cur_row v < RRDRRA.row_cnt v ->
  0 <= physical < RRDRRA.row_cnt v ->
  let logical := (physical - RRDRRA.cur_row v - 1) mod RRDRRA.row_cnt v in
  0 <= logical < RRDRRA.row_cnt v
  /\ RRDRRA.real_row_idx v logical = physical
  /\ (forall row_idx, 0 <= row_idx < RRDRRA.row_cnt v ->
      RRDRRA.real_row_idx v row_idx = physical -> row_idx = logical).
Proof.
  exact (rotation_inverse v physical).
Qed.

(** In the first archive of [sample32] physical row 4 is logical row 0. *)
Lemma physical_rows_are_a_rotation_witness :
  (0 <= RRDRRA.cur_row view_10_3 < RRDRRA.row_cnt view_10_3
   /\ 0 <= 4 < RRDRRA.row_cnt view_10_3)
  /\ (4 - RRDRRA.cur_row view_10_3 - 1) mod RRDRRA.row_cnt view_10_3 = 0
  /\ RRDRRA.real_row_idx view_10_3
       ((4 - RRDRRA.cur_row view_10_3 - 1) mod RRDRRA.row_cnt view_10_3) = 4.
Proof.
  assert (Hh : 0 <= RRDRRA.cur_row view_10_3 < RRDRRA.row_cnt view_10_3)
    by (vm_compute; split; [discriminate | reflexivity]).
  assert (Hp : 0 <= 4 < RRDRRA.row_cnt view_10_3)
    by (vm_compute; split; [discriminate | reflexivity]).
  split; [exact (conj Hh Hp)|]. split; [reflexivity|].
  exact (proj1 (proj2 (physical_rows_are_a_rotation view_10_3 4 Hh Hp))).
Defined.

(** Rows are read in ring order: the logical row after [row_idx] is the
    physical row after it, or physical row 0 after the last one. *)
Theorem next_logical_row_is_next_physical_row (v : RRDRRA.t) (row_idx : Z) :
  0 <= RRDRRA.cur_row v < RRDRRA.row_cnt v ->
  0 <= row_idx -> row_idx + 1 < RRDRRA.row_cnt v ->
  RRDRRA.real_row_idx v (row_idx + 1)
  = if RRDRRA.real_row_idx v row_idx =? RRDRRA.row_cnt v - 1
    then 0
    else RRDRRA.real_row_idx v row_idx + 1.
Proof.
  intros Hh H0 H1. unfold RRDRRA.real_row_idx.
  destruct (row_idx + RRDRRA.cur_row v + 1 >=? RRDRRA.row_cnt v) eqn:E1;
    destruct (row_idx + 1 + RRDRRA.cur_row v + 1 >=? RRDRRA.row_cnt v)
      eqn:E2;
    rewrite Z.geb_leb in E1, E2;
    try apply Z.leb_le in E1; try apply Z.leb_gt in E1;
    try apply Z.leb_le in E2; try apply Z.leb_gt in E2;
    match goal with
    | |- context [?a =? ?b] => destruct (Z.eqb_spec a b)
    end; lia.
Qed.

(** In the first archive of [sample32] logical rows 5, 6 and 7 are
    physical rows 9, 0 and 1. *)
Lemma next_logical_row_is_next_physical_row_witness :
  (0 <= RRDRRA.cur_row view_10_3 < RRDRRA.row_cnt view_10_3
   /\ 0 <= 5 /\ 5 + 1 < RRDRRA.row_cnt view_10_3)
  /\ RRDRRA.real_row_idx view_10_3 5 = 9
  /\ RRDRRA.real_row_idx view_10_3 (5 + 1) = 0.
Proof.
  assert (Hh : 0 <= RRDRRA.cur_row view_10_3 < RRDRRA.row_cnt view_10_3)
    by (vm_compute; split; [discriminate | reflexivity]).
  assert (H0 : 0 <= 5) by lia.
  assert (H1 : 5 + 1 < RRDRRA.row_cnt view_10_3) by (vm_compute; reflexivity).
  split; [exact (conj Hh (conj H0 H1))|]. split; [reflexivity|].
  exact (next_logical_row_is_next_physical_row view_10_3 5 Hh H0 H1).
Defined.

(** ** Where a view reads *)







(** ** The sections of a file that was built *)


Lemma array_ext (a b : list Z) :
  List.length a = List.length b ->
  (forall j, 0 <= j < Z.of_nat (List.length a) ->
             array_get a j = array_get b j) ->
  a = b.
Proof.
  intros Hlen Hall. apply (nth_ext a b 0 0 Hlen).
  intros n Hn. specialize (Hall (Z.of_nat n) ltac:(lia)).
  unfold array_get in Hall. now rewrite Nat2Z.id in Hall.
Qed.







(** The record of a data source lies in the data-source section: in a
    file that was built, [dataSource(idx)] for a valid index is a view on
    the 120 bytes at [ds_def_idx + 120 * idx], which end at or before the
    archive definitions; its name, type, minimum and maximum are read at
    offsets 0, 20, 48 and 56 of the record; and the records of two
    different data sources do not overlap. *)
Theorem data_source_record_lies_in_section (bf : ByteSource)
    (f : RRDFile.t) (idx : Z) :
  RRDFile.new bf = inr f ->
  let h := RRDFile.rrd_header f in
  0 <= idx < RRDHeader.ds_cnt h ->
  exists d,
    result (RRDFile.getDS idx) f = inr d
    /\ RRDDS.rrd_data_idx d = RRDHeader.ds_def_idx h + 120 * idx
    /\ RRDHeader.ds_def_idx h <= RRDDS.rrd_data_idx d
    /\ RRDDS.rrd_data_idx d + 120 <= RRDHeader.rra_def_idx h
    /\ result RRDDS.getName d
       = inr (getCStringAt bf (RRDDS.rrd_data_idx d) 20)
    /\ result RRDDS.getType d
       = inr (getCStringAt bf (RRDDS.rrd_data_idx d + 20) 20)
    /\ result RRDDS.getMin d
       = inr (getDoubleAt bf (RRDDS.rrd_data_idx d + 48))
    /\ result RRDDS.getMax d
       = inr (getDoubleAt bf (RRDDS.rrd_data_idx d + 56))
    /\ (forall idx' d',
           idx' <> idx ->
           result (RRDFile.getDS idx') f = inr d' ->
           RRDDS.rrd_data_idx d' + 120 <= RRDDS.rrd_data_idx d
           \/ RRDDS.rrd_data_idx d + 120 <= RRDDS.rrd_data_idx d').
Proof.
  intros Hnew.
  apply new_file_inr in Hnew as (h0 & c & s & Hh0 & -> & _).
  intros h Hi. subst h. cbn [RRDFile.rrd_header] in *.
  set (h := RRDHeader.set_rra_def_row_cnt_sums s
              (RRDHeader.set_rra_def_row_cnts c h0)) in *.
  assert (Hother : forall idx' d',
             result (RRDFile.getDS idx') (RRDFile.mk bf h) = inr d' ->
             RRDDS.rrd_data_idx d'
             = RRDHeader.ds_def_idx h + RRDHeader.ds_el_size h * idx').
  { intros idx' d'. unfold result.
    destruct (range_test_cases idx' (RRDHeader.ds_cnt h))
      as [[Hi' _] | [Hi' _]].
    - rewrite getDS_ok by exact Hi'. intros H. injection H as <-.
      reflexivity.
    - rewrite getDS_error by exact Hi'. discriminate. }
  unfold result at 1. rewrite getDS_ok by exact Hi.
  eexists. split; [reflexivity|].
  assert (Hlayout : RRDHeader.rrd_data h = bf
                    /\ RRDHeader.ds_el_size h = 120
                    /\ RRDHeader.rra_def_idx h
                       = RRDHeader.ds_def_idx h + 120 * RRDHeader.ds_cnt h).
  { subst h. clear Hi Hother.
    apply new_inr in Hh0 as [_ [_ [[_ ->] | [_ [_ ->]]]]];
      header_fields; repeat split. }
  destruct Hlayout as (Hdata & Hel & Hnext).
  cbn [RRDDS.rrd_data_idx RRDDS.rrd_data].
  unfold result, RRDDS.getName, RRDDS.getType, RRDDS.getMin, RRDDS.getMax,
    bind, get, ret.
  cbn [fst RRDDS.rrd_data_idx RRDDS.rrd_data]. cbn [RRDFile.rrd_header].
  fold h. rewrite Hdata, Hel, Hnext.
  repeat (split; [reflexivity || lia|]).
  intros idx' d' Hne Hd'. apply Hother in Hd'. rewrite Hd', Hel. lia.
Qed.

(** The two data sources of [sample32] have their records at 112 and
    232. *)
Lemma data_source_record_lies_in_section_witness :
  (RRDFile.new sample32 = inr sample32_file
   /\ 0 <= 1 < RRDHeader.ds_cnt (RRDFile.rrd_header sample32_file))
  /\ exists d,
       result (RRDFile.getDS 1) sample32_file = inr d
       /\ RRDDS.rrd_data_idx d = 232
       /\ RRDDS.rrd_data_idx d + 120
          <= RRDHeader.rra_def_idx (RRDFile.rrd_header sample32_file).
Proof.
  assert (Hnew : RRDFile.new sample32 = inr sample32_file)
    by (vm_compute; reflexivity).
  assert (Hi : 0 <= 1 < RRDHeader.ds_cnt (RRDFile.rrd_header sample32_file))
    by (vm_compute; split; [discriminate | reflexivity]).
  split; [exact (conj Hnew Hi)|].
  destruct (data_source_record_lies_in_section sample32 sample32_file 1
              Hnew Hi) as (d & Hd & Hidx & _ & Hend & _).
  exists d. split; [exact Hd|].
  split; [etransitivity; [exact Hidx | vm_compute; reflexivity] | exact Hend].
Defined.



(** [load_row_cnts] may be run again: it starts from empty arrays, so a
    second run leaves the header exactly as the first one did. *)
Theorem load_row_cnts_is_idempotent (this : RRDHeader.t) :
  result RRDHeader.load_row_cnts this = inr tt
  /\ result RRDHeader.load_row_cnts (final RRDHeader.load_row_cnts this)
     = inr tt
  /\ final RRDHeader.load_row_cnts (final RRDHeader.load_row_cnts this)
     = final RRDHeader.load_row_cnts this.
Proof.
  destruct (load_row_cnts_spec this) as (c & s & Hrun & Hc & Hs & Hall).
  unfold result, final. rewrite Hrun. cbn [fst snd].
  destruct (load_row_cnts_spec
              (RRDHeader.set_rra_def_row_cnt_sums s
                 (RRDHeader.set_rra_def_row_cnts c this)))
    as (c' & s' & Hrun' & Hc' & Hs' & Hall').
  rewrite Hrun'. cbn [fst snd].
  split; [reflexivity|]. split; [reflexivity|].
  assert (Hsame : RRDHeader.rra_cnt
                    (RRDHeader.set_rra_def_row_cnt_sums s
                       (RRDHeader.set_rra_def_row_cnts c this))
                  = RRDHeader.rra_cnt this) by (destruct this; reflexivity).
  rewrite Hsame in Hc', Hs', Hall'.
  assert (Ec : c' = c).
  { apply array_ext; [congruence|]. intros j Hj.
    rewrite (proj1 (Hall' j ltac:(lia))), (proj1 (Hall j ltac:(lia))).
    destruct this. reflexivity. }
  assert (Es : s' = s).
  { apply array_ext; [congruence|]. intros j Hj.
    rewrite (proj2 (Hall' j ltac:(lia))), (proj2 (Hall j ltac:(lia))).
    now rewrite Ec. }
  rewrite Ec, Es. destruct this. reflexivity.
Qed.

(** * The Flot support *)

(** ** The text of a duration *)

Lemma rem_quot_nonneg (a b : Z) :
  0 <= a -> 0 < b ->
  Z.rem a b = a mod b /\ (a - Z.rem a b) / b = a / b.
Proof.
  intros Ha Hb. rewrite Z.rem_mod_nonneg by lia. split; [reflexivity|].
  rewrite (Z.div_mod a b) at 1 by lia.
  replace (b * (a / b) + a mod b - a mod b) with (a / b * b) by ring.
  apply Z.div_mul. lia.
Qed.

(** For a whole number [s] of seconds of magnitude at most 2^53 (where the
    remainders and quotients of the code are exact and a number is printed
    with all its digits), [rfs_format_time] picks its unit by the range of
    [s] alone: seconds below 2 minutes (and for a negative [s]), minutes
    below 2 hours, hours below 2 days, days below 60 days, months of 30 days
    from there on.  The number shown is [s] divided by the length of the
    unit, rounded down; the seconds are shown with the minutes only below
    10 minutes and only from 10 seconds on, the minutes with the hours only
    below 12 hours and only from 10 minutes on, the hours with the days
    only below 7 days and only when there are some. *)
Theorem rfs_format_time_by_range (s : Z) :
  Z.abs s <= 2 ^ 53 ->
  rfs_format_time s = format_time_by_range s.
Proof.
  intros _.
  unfold rfs_format_time, format_time_by_range.
  destruct (Z.ltb_spec s 120) as [Hs | Hs]; [reflexivity|].
  destruct (rem_quot_nonneg s 60 ltac:(lia) ltac:(lia)) as [-> ->].
  assert (Hm : 0 <= s / 60) by (apply Z.div_pos; lia).
  destruct (rem_quot_nonneg (s / 60) 60 Hm ltac:(lia)) as [-> ->].
  rewrite (Z.div_div s 60 60) by lia.
  assert (Hh : 0 <= s / (60 * 60)) by (apply Z.div_pos; lia).
  destruct (rem_quot_nonneg (s / (60 * 60)) 24 Hh ltac:(lia)) as [-> ->].
  rewrite (Z.div_div s (60 * 60) 24) by lia.
  assert (Hd : 0 <= s / (60 * 60 * 24)) by (apply Z.div_pos; lia).
  destruct (rem_quot_nonneg (s / (60 * 60 * 24)) 30 Hd ltac:(lia))
    as [_ ->].
  rewrite (Z.div_div s (60 * 60 * 24) 30) by lia.
  change (60 * 60) with 3600. change (3600 * 24) with 86400.
  change (86400 * 30) with 2592000.
  assert (Hmin : s / 60 < 120 <-> s < 7200).
  { split; intros H.
    - apply (Z.mul_lt_mono_pos_l 60) in H; [|lia].
      pose proof (Z.mul_succ_div_gt s 60 ltac:(lia)). lia.
    - apply Z.div_lt_upper_bound; lia. }
  assert (Hhour : s / 3600 < 48 <-> s < 172800).
  { split; intros H.
    - pose proof (Z.mul_succ_div_gt s 3600 ltac:(lia)). lia.
    - apply Z.div_lt_upper_bound; lia. }
  assert (Hday : s / 86400 < 60 <-> s < 5184000).
  { split; intros H.
    - pose proof (Z.mul_succ_div_gt s 86400 ltac:(lia)). lia.
    - apply Z.div_lt_upper_bound; lia. }
  destruct (Z.ltb_spec s 7200) as [H1 | H1].
  - apply Hmin in H1.
    destruct ((s / 60 <? 10) && (s mod 60 >? 9)); [reflexivity|].
    destruct (Z.ltb_spec (s / 60) 120); [reflexivity | lia].
  - assert (Hm120 : 120 <= s / 60) by (apply Z.div_le_lower_bound; lia).
    replace (s / 60 <? 10) with false by (symmetry; apply Z.ltb_ge; lia).
    replace (s / 60 <? 120) with false by (symmetry; apply Z.ltb_ge; lia).
    cbn [andb].
    destruct (Z.ltb_spec s 172800) as [H2 | H2].
    + apply Hhour in H2.
      destruct ((s / 3600 <? 12) && ((s / 60) mod 60 >? 9));
        [reflexivity|].
      destruct (Z.ltb_spec (s / 3600) 48); [reflexivity | lia].
    + assert (Hh48 : 48 <= s / 3600)
        by (apply Z.div_le_lower_bound; lia).
      replace (s / 3600 <? 12) with false
        by (symmetry; apply Z.ltb_ge; lia).
      replace (s / 3600 <? 48) with false
        by (symmetry; apply Z.ltb_ge; lia).
      cbn [andb].
      destruct (Z.ltb_spec s 5184000) as [H3 | H3].
      * apply Hday in H3.
        destruct ((s / 86400 <? 7) && ((s / 3600) mod 24 >? 0));
          [reflexivity|].
        destruct (Z.ltb_spec (s / 86400) 60); [reflexivity | lia].
      * assert (Hd60 : 60 <= s / 86400)
          by (apply Z.div_le_lower_bound; lia).
        replace (s / 86400 <? 7) with false
          by (symmetry; apply Z.ltb_ge; lia).
        replace (s / 86400 <? 60) with false
          by (symmetry; apply Z.ltb_ge; lia).
        reflexivity.
Qed.

(** 200000 seconds are 2 days and 7 hours; 605 seconds are 10 minutes, and
    the 5 seconds are not shown. *)
Lemma rfs_format_time_by_range_witness :
  (Z.abs 200000 <= 2 ^ 53 /\ Z.abs 605 <= 2 ^ 53)
  /\ rfs_format_time 200000 = "2 days 7h"
  /\ rfs_format_time 605 = "10min".
Proof.
  assert (Ha : Z.abs 200000 <= 2 ^ 53) by (vm_compute; discriminate).
  assert (Hb : Z.abs 605 <= 2 ^ 53) by (vm_compute; discriminate).
  split; [exact (conj Ha Hb)|].
  split.
  - etransitivity; [exact (rfs_format_time_by_range 200000 Ha)|].
    vm_compute. reflexivity.
  - etransitivity; [exact (rfs_format_time_by_range 605 Hb)|].
    vm_compute. reflexivity.
Defined.

(** ** Trimming to a selection *)

Section Trimming.

Variable num : Type.
Variable leb : num -> num -> bool.
Variable add : num -> num -> num.
Variable zero : num.
Variable val : Type.
Variable style : Type.

Abbreviation sel := (rrdFlotSelection.t num).
Abbreviation trim_data := (rrdFlotSelection.trim_data leb zero (val := val)).
Abbreviation trim_timezone_data :=
  (rrdFlotSelection.trim_timezone_data leb add zero (val := val)).
Abbreviation trim_flot_data :=
  (rrdFlotSelection.trim_flot_data leb zero (val := val) (style := style)).
Abbreviation trim_flot_timezone_data :=
  (rrdFlotSelection.trim_flot_timezone_data leb add zero
     (val := val) (style := style)).

Lemma trim_data_loop_filter (this : sel) (l out : list (entry num val)) :
  rrdFlotSelection.trim_data_loop leb zero l out this
  = (inr (out ++ filter (selected leb zero this) l)%list, this).
Proof.
  revert out. induction l as [|e l IH]; intros out; simpl.
  - now rewrite app_nil_r.
  - destruct e as [p|]; simpl.
    + unfold bind, get.
      destruct (leb _ (fst p) && leb (fst p) _); rewrite IH.
      * now rewrite <- app_assoc.
      * reflexivity.
    + apply IH.
Qed.

Lemma trim_timezone_data_loop_filter (this : sel) (shift : num)
    (l out : list (entry num val)) :
  rrdFlotSelection.trim_timezone_data_loop leb add zero shift l out this
  = (inr (out ++ filter (fun e => selected leb zero this (shifted add shift e))
                   l)%list, this).
Proof.
  revert out. induction l as [|e l IH]; intros out; simpl.
  - now rewrite app_nil_r.
  - destruct e as [p|]; simpl.
    + unfold bind, get.
      destruct (leb _ (add (fst p) shift) && leb (add (fst p) shift) _);
        rewrite IH.
      * now rewrite <- app_assoc.
      * reflexivity.
    + apply IH.
Qed.

Lemma trim_data_filter (this : sel)
    (data_list : list (entry num val)) :
  trim_data data_list this
  = (inr (match rrdFlotSelection.selection_min this with
          | Some _ => filter (selected leb zero this) data_list
          | None => data_list
          end), this).
Proof.
  unfold rrdFlotSelection.trim_data, bind, get.
  destruct (rrdFlotSelection.selection_min this); [|reflexivity].
  apply trim_data_loop_filter.
Qed.

(** [trim_data] is a filter: with a selection set it returns the points of
    the list whose [x] lies between the bounds, in their order, and drops
    the [null] entries; with no selection it returns the list as it is,
    [null] entries included.  The selection is left as it was. *)
Theorem trim_data_keeps_selected_points (this : sel)
    (data_list : list (entry num val)) :
  trim_data data_list this
  = (inr (match rrdFlotSelection.selection_min this with
          | Some _ => filter (selected leb zero this) data_list
          | None => data_list
          end), this).
Proof.
  exact (trim_data_filter this data_list).
Qed.

Lemma filter_idempotent {A : Type} (p : A -> bool) (l : list A) :
  filter p (filter p l) = filter p l.
Proof.
  induction l as [|x l IH]; simpl; [reflexivity|].
  destruct (p x) eqn:E; simpl; [rewrite E, IH|]; auto.
Qed.

(** Trimming twice is trimming once, and trimming a list in two pieces is
    trimming the whole. *)
Theorem trim_data_is_idempotent_and_local (this : sel)
    (data_list more : list (entry num val)) :
  (forall trimmed,
      result (trim_data data_list) this = inr trimmed ->
      result (trim_data trimmed) this = inr trimmed)
  /\ (forall a b,
         result (trim_data data_list) this = inr a ->
         result (trim_data more) this = inr b ->
         result (trim_data (data_list ++ more)%list) this
         = inr (a ++ b)%list).
Proof.
  unfold result. rewrite !trim_data_filter. cbn [fst].
  split.
  - intros trimmed H. injection H as <-.
    rewrite trim_data_filter. cbn [fst].
    destruct (rrdFlotSelection.selection_min this); [|reflexivity].
    now rewrite filter_idempotent.
  - intros a b Ha Hb. injection Ha as <-. injection Hb as <-.
    destruct (rrdFlotSelection.selection_min this); [|reflexivity].
    now rewrite filter_app.
Qed.

(** What [trim_data] returns never holds a [null] entry or a point outside
    the bounds once a selection is set, and is never longer than the
    list. *)
Theorem trim_data_result_is_within_bounds (this : sel)
    (data_list trimmed : list (entry num val)) :
  result (trim_data data_list) this = inr trimmed ->
  (List.length trimmed <= List.length data_list)%nat
  /\ (forall e, In e trimmed -> In e data_list)
  /\ (rrdFlotSelection.selection_min this <> None ->
      forall e, In e trimmed ->
      exists x y,
        e = Some (x, y)
        /\ leb (rrdFlotSelection.number num zero
                  (rrdFlotSelection.selection_min this)) x = true
        /\ leb x (rrdFlotSelection.number num zero
                    (rrdFlotSelection.selection_max this)) = true).
Proof.
  unfold result. rewrite trim_data_filter. cbn [fst].
  intros H. injection H as <-.
  destruct (rrdFlotSelection.selection_min this) as [a|] eqn:Emin.
  - split; [apply filter_length_le|]. split.
    + intros e He. now apply filter_In in He.
    + intros _ e He. apply filter_In in He as [_ Hsel].
      destruct e as [[x y]|]; [|discriminate].
      unfold selected in Hsel. rewrite Emin in Hsel. cbn [fst] in Hsel.
      apply andb_prop in Hsel as [Hlo Hhi].
      exists x, y. repeat split; assumption.
  - split; [lia|]. split; [auto|]. intros Hne. contradiction.
Qed.

(** The selection as an object: [setFromFlotRanges] followed by
    [getFlotRanges] gives the ranges back, whatever was selected before;
    [isSet] then tells whether the lower bound is not [null], whatever the
    upper bound is; and after [reset], whatever was selected before,
    nothing is set and [trim_data] returns every list as it is. *)
Theorem selection_round_trip (this : sel) (r : rrdFlotSelection.ranges num)
    (data_list : list (entry num val)) :
  result (rrdFlotSelection.setFromFlotRanges r ;;
          rrdFlotSelection.getFlotRanges) this = inr r
  /\ result (rrdFlotSelection.setFromFlotRanges r ;;
             rrdFlotSelection.isSet) this
     = inr (match rrdFlotSelection.from (rrdFlotSelection.xaxis r) with
            | Some _ => true
            | None => false
            end)
  /\ result (rrdFlotSelection.reset ;; rrdFlotSelection.isSet) this
     = inr false
  /\ result (rrdFlotSelection.reset ;; trim_data data_list) this
     = inr data_list
  /\ final rrdFlotSelection.reset this = rrdFlotSelection.new.
Proof.
  destruct r as [[lo hi]]. repeat split.
Qed.

Lemma trim_flot_data_loop_map (this : sel)
    (l out : list (FlotEl.t num val style)) :
  rrdFlotSelection.trim_flot_data_loop leb zero l out this
  = (inr (out ++ map (fun el =>
                        with_data el
                          (match rrdFlotSelection.selection_min this with
                           | Some _ =>
                               filter (selected leb zero this)
                                 (FlotEl.data el)
                           | None => FlotEl.data el
                           end)) l)%list, this).
Proof.
  revert out. induction l as [|el l IH]; intros out; simpl.
  - now rewrite app_nil_r.
  - unfold bind at 1. rewrite trim_data_filter.
    rewrite IH. now rewrite <- app_assoc.
Qed.

(** [trim_flot_data] trims every line of a plot and keeps the lines: the
    result has as many lines as the plot, in the same order, each with the
    label, color, lines and yaxis of its line and with that line's data as
    [trim_data] returns it. *)
Theorem trim_flot_data_trims_each_line (this : sel)
    (flot_data : list (FlotEl.t num val style)) :
  exists out,
    trim_flot_data flot_data this = (inr out, this)
    /\ List.length out = List.length flot_data
    /\ forall i el,
         nth_error flot_data i = Some el ->
         exists trimmed,
           result (trim_data (FlotEl.data el)) this = inr trimmed
           /\ nth_error out i
              = Some (FlotEl.mk (FlotEl.label el) trimmed (FlotEl.color el)
                        (FlotEl.lines el) (FlotEl.yaxis el)).
Proof.
  unfold rrdFlotSelection.trim_flot_data.
  rewrite trim_flot_data_loop_map. cbn [app].
  eexists. split; [reflexivity|]. split; [apply length_map|].
  intros i el Hel. unfold result.
  rewrite trim_data_filter. cbn [fst].
  eexists. split; [reflexivity|].
  rewrite nth_error_map, Hel. reflexivity.
Qed.

Lemma trim_timezone_data_filter (this : sel) (shift : num)
    (data_list : list (entry num val)) :
  trim_timezone_data data_list shift this
  = (inr (match rrdFlotSelection.selection_min this with
          | Some _ =>
              filter (fun e => selected leb zero this (shifted add shift e))
                data_list
          | None => data_list
          end), this)
  /\ exists kept moved,
       result (trim_timezone_data data_list shift) this = inr kept
       /\ result (trim_data (map (shifted add shift) data_list)) this
          = inr moved
       /\ map (shifted add shift) kept = moved.
Proof.
  assert (Hrun : trim_timezone_data data_list shift this
                 = (inr (match rrdFlotSelection.selection_min this with
                         | Some _ =>
                             filter (fun e => selected leb zero this
                                                (shifted add shift e))
                               data_list
                         | None => data_list
                         end), this)).
  { unfold rrdFlotSelection.trim_timezone_data, bind, get.
    destruct (rrdFlotSelection.selection_min this); [|reflexivity].
    apply trim_timezone_data_loop_filter. }
  split; [exact Hrun|].
  unfold result. rewrite Hrun, trim_data_filter. cbn [fst].
  eexists. eexists. split; [reflexivity|]. split; [reflexivity|].
  destruct (rrdFlotSelection.selection_min this); [|reflexivity].
  clear Hrun. induction data_list as [|e l IH]; [reflexivity|].
  cbn [map filter].
  destruct (selected leb zero this (shifted add shift e));
    cbn [map]; now rewrite IH.
Qed.

(** [trim_timezone_data] keeps the points that [trim_data] would keep
    after moving them by [shift], and returns them unmoved: moving its
    result by [shift] gives exactly what [trim_data] returns for the moved
    list. *)
Theorem trim_timezone_data_is_trim_of_shifted (this : sel) (shift : num)
    (data_list : list (entry num val)) :
  trim_timezone_data data_list shift this
  = (inr (match rrdFlotSelection.selection_min this with
          | Some _ =>
              filter (fun e => selected leb zero this (shifted add shift e))
                data_list
          | None => data_list
          end), this)
  /\ exists kept moved,
       result (trim_timezone_data data_list shift) this = inr kept
       /\ result (trim_data (map (shifted add shift) data_list)) this
          = inr moved
       /\ map (shifted add shift) kept = moved.
Proof.
  exact (trim_timezone_data_filter this shift data_list).
Qed.

End Trimming.

(** A selection on an integer axis.  Zooming in: trimming to a selection
    what was already trimmed to a wider one gives what trimming the whole
    list to the narrower selection gives. *)
Theorem narrower_selection_after_wider {val : Type} (a b a' b' : Z)
    (data_list wider : list (entry Z val)) :
  a' <= a -> b <= b' ->
  result (rrdFlotSelection.trim_data Z.leb 0 data_list) (selection a' b')
  = inr wider ->
  result (rrdFlotSelection.trim_data Z.leb 0 wider) (selection a b)
  = result (rrdFlotSelection.trim_data Z.leb 0 data_list) (selection a b).
Proof.
  intros Ha Hb. unfold result.
  rewrite !trim_data_filter.
  cbn [fst rrdFlotSelection.selection_min selection].
  intros H. injection H as <-. f_equal.
  induction data_list as [|e l IH]; [reflexivity|]. cbn [filter].
  destruct (selected Z.leb 0 (selection a b) e) eqn:Enarrow.
  - assert (Ewide : selected Z.leb 0 (selection a' b') e = true).
    { destruct e as [[x y]|]; [|discriminate].
      unfold selected in *. cbn in *.
      apply andb_prop in Enarrow as [H1 H2].
      apply Z.leb_le in H1, H2.
      apply andb_true_intro. split; apply Z.leb_le; lia. }
    rewrite Ewide. cbn [filter]. rewrite Enarrow, IH. reflexivity.
  - destruct (selected Z.leb 0 (selection a' b') e); [|exact IH].
    cbn [filter]. rewrite Enarrow. exact IH.
Qed.

(** Points at 5, 15 and 25, first trimmed to [10, 30], then to [12, 20]. *)
Lemma narrower_selection_after_wider_witness :
  (10 <= 12 /\ 20 <= 30
   /\ result (rrdFlotSelection.trim_data Z.leb 0
                [Some (5, 1); None; Some (15, 2); Some (25, 3)])
        (selection 10 30)
      = inr [Some (15, 2); Some (25, 3)])
  /\ result (rrdFlotSelection.trim_data Z.leb 0
               [Some (15, 2); Some (25, 3)]) (selection 12 20)
     = inr [Some (15, 2)].
Proof.
  assert (Ha : 10 <= 12) by lia.
  assert (Hb : 20 <= 30) by lia.
  assert (Hw : result (rrdFlotSelection.trim_data Z.leb 0
                         [Some (5, 1); None; Some (15, 2); Some (25, 3)])
                 (selection 10 30)
               = inr [Some (15, 2); Some (25, 3)]) by reflexivity.
  split; [exact (conj Ha (conj Hb Hw))|].
  etransitivity;
    [exact (narrower_selection_after_wider 12 20 10 30 _ _ Ha Hb Hw)
    | reflexivity].
Defined.

(** Points at 5, 15 and 25 and a [null], trimmed to [10, 20]. *)
Lemma trim_data_result_is_within_bounds_witness :
  result (rrdFlotSelection.trim_data Z.leb 0
            [Some (5, 1); None; Some (15, 2); Some (25, 3)])
    (selection 10 20)
  = inr [Some (15, 2)]
  /\ (List.length [Some (15, 2)]
      <= List.length [Some (5, 1); None; Some (15, 2); Some (25, 3)])%nat.
Proof.
  assert (H : result (rrdFlotSelection.trim_data Z.leb 0
                        [Some (5, 1); None; Some (15, 2); Some (25, 3)])
                (selection 10 20)
              = inr [Some (15, 2)]) by reflexivity.
  split; [exact H|].
  exact (proj1 (trim_data_result_is_within_bounds Z Z.leb 0 Z
                  (selection 10 20) _ _ H)).
Defined.

(** ** Series for Flot *)

Lemma flat_map_seq_shift {A : Type} (g : nat -> list A) (n : nat) :
  forall a, flat_map g (seq (S a) n) = flat_map (fun k => g (S k)) (seq a n).
Proof.
  induction n as [|n IH]; intros a; [reflexivity|].
  cbn [seq flat_map]. now rewrite IH.
Qed.

Section RowsOfASeries.

Variable rra : Equivalent.RRA.
Variable ds : Equivalent.DS.
Variable step : Z.

Let read (k : Z) : exn + option float :=
  Equivalent.getEl rra k (Equivalent.getIdx ds).

(** The points of the rows [i .. i+n-1], the first one at [timestamp]. *)
Let points (i timestamp : Z) (n : nat) : list (entry Z float) :=
  flat_map
    (fun k =>
       match read (i + Z.of_nat k) with
       | inr (Some x) => [Some ((timestamp + Z.of_nat k * step) * 1000, x)]
       | _ => []
       end)
    (seq 0 n).

Lemma points_succ (i timestamp : Z) (n : nat) :
  points i timestamp (S n)
  = (match read i with
     | inr (Some x) => [Some (timestamp * 1000, x)]
     | _ => []
     end ++ points (i + 1) (timestamp + step) n)%list.
Proof.
  unfold points. cbn [seq flat_map]. rewrite flat_map_seq_shift.
  replace (i + Z.of_nat 0) with i by lia.
  replace (timestamp + Z.of_nat 0 * step) with timestamp by lia.
  f_equal. apply flat_map_ext. intros k.
  replace (i + Z.of_nat (S k)) with (i + 1 + Z.of_nat k) by lia.
  replace (timestamp + Z.of_nat (S k) * step)
    with (timestamp + step + Z.of_nat k * step) by lia.
  reflexivity.
Qed.

(** When every read returns, the loop returns the points of its rows. *)
Lemma series_rows_ok (n : nat) :
  forall (i timestamp : Z) (acc : list (entry Z float)),
    (forall k, (k < n)%nat -> exists el, read (i + Z.of_nat k) = inr el) ->
    series_rows rra ds step n i timestamp acc tt
    = (inr (acc ++ points i timestamp n)%list, tt).
Proof.
  induction n as [|n IH]; intros i timestamp acc Hall.
  - cbn. now rewrite app_nil_r.
  - rewrite points_succ. cbn [series_rows]. unfold bind at 1, call.
    destruct (Hall 0%nat ltac:(lia)) as [el Hel].
    replace (i + Z.of_nat 0) with i in Hel by lia.
    unfold read in Hel |- *. rewrite Hel.
    rewrite IH.
    + destruct el; [now rewrite <- app_assoc | reflexivity].
    + intros k Hk. destruct (Hall (S k) ltac:(lia)) as [el' Hel'].
      exists el'. rewrite <- Hel'. f_equal. lia.
Qed.

(** When the loop returns, every read had returned. *)
Lemma series_rows_inv (n : nat) :
  forall (i timestamp : Z) (acc out : list (entry Z float)),
    series_rows rra ds step n i timestamp acc tt = (inr out, tt) ->
    forall k, (k < n)%nat -> exists el, read (i + Z.of_nat k) = inr el.
Proof.
  induction n as [|n IH]; intros i timestamp acc out Hrun k Hk; [lia|].
  cbn [series_rows] in Hrun. unfold bind at 1, call in Hrun.
  fold (read i) in Hrun.
  destruct (read i) as [e | el] eqn:Hel; [discriminate|].
  destruct k as [|k].
  - exists el. rewrite <- Hel. f_equal. lia.
  - destruct (IH _ _ _ _ Hrun k ltac:(lia)) as [el' Hel'].
    exists el'. rewrite <- Hel'. f_equal. lia.
Qed.

(** The first read that throws ends the loop with its error. *)
Lemma series_rows_throws (n : nat) :
  forall (i timestamp : Z) (acc : list (entry Z float)) (k : nat) (e : exn),
    (k < n)%nat ->
    (forall k', (k' < k)%nat -> exists el, read (i + Z.of_nat k') = inr el) ->
    read (i + Z.of_nat k) = inl e ->
    series_rows rra ds step n i timestamp acc tt = (inl e, tt).
Proof.
  induction n as [|n IH]; intros i timestamp acc k e Hk Hbefore Hthrow;
    [lia|].
  cbn [series_rows]. unfold bind at 1, call. fold (read i).
  destruct k as [|k].
  - replace (i + Z.of_nat 0) with i in Hthrow by lia.
    now rewrite Hthrow.
  - destruct (Hbefore 0%nat ltac:(lia)) as [el Hel].
    replace (i + Z.of_nat 0) with i in Hel by lia. rewrite Hel.
    apply (IH _ _ _ k e); [lia| |].
    + intros k' Hk'. destruct (Hbefore (S k') ltac:(lia)) as [el' Hel'].
      exists el'. rewrite <- Hel'. f_equal. lia.
    + rewrite <- Hthrow. f_equal. lia.
Qed.

End RowsOfASeries.

(** The loop from row 0 gives [row_points]. *)
Lemma series_rows_from_zero (rra : Equivalent.RRA) (ds : Equivalent.DS)
    (step first_el : Z) (n : nat) :
  (forall k, (k < n)%nat ->
     exists el,
       Equivalent.getEl rra (Z.of_nat k) (Equivalent.getIdx ds) = inr el) ->
  series_rows rra ds step n 0 first_el [] tt
  = (inr (row_points rra (Equivalent.getIdx ds) first_el step n), tt).
Proof.
  intros Hall. rewrite series_rows_ok; [reflexivity|].
  intros k Hk. exact (Hall k Hk).
Qed.


Section SeriesOfADataSource.

Variable ID : Type.
Variable rrd_file : Equivalent.File ID.
Variable ds_id : ID.
Variable rra_idx : Z.
Variable want_rounding : bool.

(** What a series that was returned was made from. *)
Lemma rrdDS2FlotSeries_inr (series : FlotSeries.t) :
  result (rrdDS2FlotSeries rrd_file ds_id rra_idx want_rounding) tt
  = inr series ->
  exists ds rra,
    Equivalent.getDS rrd_file ds_id = inr ds
    /\ Equivalent.getRRA rrd_file rra_idx = inr rra
    /\ (forall k, (k < Z.to_nat (Equivalent.getNrRows rra))%nat ->
          exists el,
            Equivalent.getEl rra (Z.of_nat k) (Equivalent.getIdx ds)
            = inr el)
    /\ series
       = FlotSeries.mk (Equivalent.getName ds)
           (row_points rra (Equivalent.getIdx ds)
              (series_start (Equivalent.getLastUpdate rrd_file)
                 (Equivalent.getStep rra) (Equivalent.getNrRows rra)
                 want_rounding)
              (Equivalent.getStep rra)
              (Z.to_nat (Equivalent.getNrRows rra)))
           (series_start (Equivalent.getLastUpdate rrd_file)
              (Equivalent.getStep rra) (Equivalent.getNrRows rra)
              want_rounding * 1000)
           (series_end (Equivalent.getLastUpdate rrd_file)
              (Equivalent.getStep rra) want_rounding * 1000).
Proof.
  unfold result, rrdDS2FlotSeries. unfold bind at 1, call.
  destruct (Equivalent.getDS rrd_file ds_id) as [e | ds]; [discriminate|].
  unfold bind at 1.
  destruct (Equivalent.getRRA rrd_file rra_idx) as [e | rra];
    [discriminate|].
  cbv zeta. unfold bind at 1.
  fold (series_end (Equivalent.getLastUpdate rrd_file)
          (Equivalent.getStep rra) want_rounding).
  fold (series_start (Equivalent.getLastUpdate rrd_file)
          (Equivalent.getStep rra) (Equivalent.getNrRows rra)
          want_rounding).
  destruct (series_rows rra ds _ _ 0 _ [] tt) as [[e | pts] []] eqn:Hrun;
    [discriminate|].
  pose proof (series_rows_inv _ _ _ _ _ _ _ _ Hrun) as Hreads.
  rewrite series_rows_from_zero in Hrun by exact Hreads.
  injection Hrun as <-.
  cbn [fst ret]. intros H. injection H as <-.
  exists ds, rra. repeat split. exact Hreads.
Qed.


(** [rrdDS2FlotSeries] on failure: an unknown data source is reported
    first, then an unknown archive, then the first row whose read throws;
    no series is returned in any of these cases. *)
Theorem rrdDS2FlotSeries_errors (e : exn) :
  (Equivalent.getDS rrd_file ds_id = inl e ->
   result (rrdDS2FlotSeries rrd_file ds_id rra_idx want_rounding) tt
   = inl e)
  /\ (forall ds,
         Equivalent.getDS rrd_file ds_id = inr ds ->
         Equivalent.getRRA rrd_file rra_idx = inl e ->
         result (rrdDS2FlotSeries rrd_file ds_id rra_idx want_rounding) tt
         = inl e)
  /\ (forall ds rra k,
         Equivalent.getDS rrd_file ds_id = inr ds ->
         Equivalent.getRRA rrd_file rra_idx = inr rra ->
         0 <= k < Equivalent.getNrRows rra ->
         (forall k', 0 <= k' < k ->
            exists el,
              Equivalent.getEl rra k' (Equivalent.getIdx ds) = inr el) ->
         Equivalent.getEl rra k (Equivalent.getIdx ds) = inl e ->
         result (rrdDS2FlotSeries rrd_file ds_id rra_idx want_rounding) tt
         = inl e).
Proof.
  split; [|split].
  - intros Hds. unfold result, rrdDS2FlotSeries. unfold bind at 1, call.
    now rewrite Hds.
  - intros ds Hds Hrra. unfold result, rrdDS2FlotSeries.
    unfold bind at 1, call. rewrite Hds. unfold bind at 1.
    now rewrite Hrra.
  - intros ds rra k Hds Hrra Hk Hbefore Hthrow.
    unfold result, rrdDS2FlotSeries. unfold bind at 1, call. rewrite Hds.
    unfold bind at 1. rewrite Hrra. cbv zeta. unfold bind at 1.
    rewrite (series_rows_throws rra ds _ _ 0 _ [] (Z.to_nat k) e).
    + reflexivity.
    + lia.
    + intros k' Hk'. apply Hbefore. lia.
    + cbn [Z.add]. rewrite Z2Nat.id by lia. exact Hthrow.
Qed.

End SeriesOfADataSource.

Lemma row_points_In (rra : Equivalent.RRA) (ds_idx first_el step : Z)
    (n : nat) (e : entry Z float) :
  In e (row_points rra ds_idx first_el step n) ->
  exists k x,
    0 <= k < Z.of_nat n
    /\ Equivalent.getEl rra k ds_idx = inr (Some x)
    /\ e = Some ((first_el + k * step) * 1000, x).
Proof.
  unfold row_points. intros Hin. apply in_flat_map in Hin as (k & Hk & Hin).
  apply in_seq in Hk.
  destruct (Equivalent.getEl rra (Z.of_nat k) ds_idx) as [err | [x|]] eqn:E;
    try contradiction.
  destruct Hin as [<- | []]. exists (Z.of_nat k), x.
  split; [lia|]. split; [exact E | reflexivity].
Qed.

Lemma flat_map_length_le {A B : Type} (g : A -> list B) (l : list A) :
  (forall a, (List.length (g a) <= 1)%nat) ->
  (List.length (flat_map g l) <= List.length l)%nat.
Proof.
  intros Hg. induction l as [|a l IH]; [reflexivity|]. cbn [flat_map].
  rewrite length_app. cbn [List.length]. specialize (Hg a). lia.
Qed.

Lemma row_points_length (rra : Equivalent.RRA) (ds_idx first_el step : Z)
    (n : nat) :
  (List.length (row_points rra ds_idx first_el step n) <= n)%nat.
Proof.
  unfold row_points.
  apply (Nat.le_trans _ (List.length (seq 0 n))); [|now rewrite length_seq].
  apply flat_map_length_le. intros k.
  destruct (Equivalent.getEl rra (Z.of_nat k) ds_idx) as [err | [x|]];
    cbn [List.length]; lia.
Qed.

Lemma filter_keeps_all {A : Type} (p : A -> bool) (l : list A) :
  (forall x, In x l -> p x = true) -> filter p l = l.
Proof.
  induction l as [|x l IH]; intros Hall; [reflexivity|]. cbn [filter].
  rewrite (Hall x (or_introl eq_refl)).
  rewrite IH; [reflexivity|]. intros y Hy. apply Hall. now right.
Qed.

Lemma series_points_shape {ID : Type}
    (rrd_file : Equivalent.File ID) (ds_id : ID) (rra_idx : Z)
    (want_rounding : bool) (series : FlotSeries.t) (rra : Equivalent.RRA) :
  result (rrdDS2FlotSeries rrd_file ds_id rra_idx want_rounding) tt
  = inr series ->
  Equivalent.getRRA rrd_file rra_idx = inr rra ->
  0 <= Equivalent.getStep rra ->
  let step := Equivalent.getStep rra in
  let rows := Equivalent.getNrRows rra in
  (List.length (FlotSeries.data series) <= Z.to_nat rows)%nat
  /\ FlotSeries.max series
     = FlotSeries.min series + (rows - 1) * (step * 1000)
  /\ forall e, In e (FlotSeries.data series) ->
       exists k x,
         0 <= k < rows
         /\ e = Some (FlotSeries.min series + k * (step * 1000), x)
         /\ FlotSeries.min series
            <= FlotSeries.min series + k * (step * 1000)
            <= FlotSeries.max series.
Proof.
  intros Hres Hrra Hstep step rows.
  apply rrdDS2FlotSeries_inr in Hres
    as (ds & rra' & _ & Hrra' & _ & ->).
  rewrite Hrra in Hrra'. injection Hrra' as <-.
  cbn [FlotSeries.data FlotSeries.min FlotSeries.max].
  fold step rows. unfold series_start.
  set (last := series_end _ step want_rounding).
  split; [apply row_points_length|]. split; [ring|].
  intros e He. apply row_points_In in He as (k & x & Hk & _ & ->).
  exists k, x. split; [lia|]. split; [f_equal; f_equal; ring|]. nia.
Qed.

(** The points of a series lie between its [min] and its [max]: when the
    step is not negative, and not 0 if rounding is wanted (the remainder of
    a division by 0 is not a number), and the times are computed exactly, a
    series that was returned has at most one point per row, every point is
    at [min] plus a whole number of steps, not after [max], and [max] is
    [rows - 1] steps after [min]. *)
Theorem series_points_lie_between_min_and_max {ID : Type}
    (rrd_file : Equivalent.File ID) (ds_id : ID) (rra_idx : Z)
    (want_rounding : bool) (series : FlotSeries.t) (rra : Equivalent.RRA) :
  result (rrdDS2FlotSeries rrd_file ds_id rra_idx want_rounding) tt
  = inr series ->
  Equivalent.getRRA rrd_file rra_idx = inr rra ->
  0 <= Equivalent.getStep rra ->
  (want_rounding = true -> Equivalent.getStep rra <> 0) ->
  exact_times (Equivalent.getLastUpdate rrd_file)
    (Equivalent.getNrRows rra) (Equivalent.getStep rra) 0 ->
  let step := Equivalent.getStep rra in
  let rows := Equivalent.getNrRows rra in
  (List.length (FlotSeries.data series) <= Z.to_nat rows)%nat
  /\ FlotSeries.max series
     = FlotSeries.min series + (rows - 1) * (step * 1000)
  /\ forall e, In e (FlotSeries.data series) ->
       exists k x,
         0 <= k < rows
         /\ e = Some (FlotSeries.min series + k * (step * 1000), x)
         /\ FlotSeries.min series
            <= FlotSeries.min series + k * (step * 1000)
            <= FlotSeries.max series.
Proof.
  intros Hres Hrra Hstep _ _.
  exact (series_points_shape rrd_file ds_id rra_idx want_rounding series rra
           Hres Hrra Hstep).
Qed.

(** Data source 0 of [sample_source], rounded: 3 points for 4 rows, from
    second 0 to second 900. *)
Lemma series_points_lie_between_min_and_max_witness :
  (Equivalent.getRRA sample_source 0 = inr sample_rra
   /\ 0 <= Equivalent.getStep sample_rra
   /\ (true = true -> Equivalent.getStep sample_rra <> 0)
   /\ exact_times (Equivalent.getLastUpdate sample_source)
        (Equivalent.getNrRows sample_rra) (Equivalent.getStep sample_rra) 0)
  /\ exists series,
       result (rrdDS2FlotSeries sample_source 0 0 true) tt = inr series
       /\ FlotSeries.min series = 0
       /\ FlotSeries.max series = 900000
       /\ (List.length (FlotSeries.data series) <= 4)%nat.
Proof.
  assert (Hrra : Equivalent.getRRA sample_source 0 = inr sample_rra)
    by reflexivity.
  assert (Hstep : 0 <= Equivalent.getStep sample_rra)
    by (cbn; lia).
  assert (Hnz : true = true -> Equivalent.getStep sample_rra <> 0)
    by (intros _; cbn; lia).
  assert (Hexact : exact_times (Equivalent.getLastUpdate sample_source)
                     (Equivalent.getNrRows sample_rra)
                     (Equivalent.getStep sample_rra) 0)
    by (vm_compute; repeat split; discriminate).
  split; [exact (conj Hrra (conj Hstep (conj Hnz Hexact)))|].
  destruct (result (rrdDS2FlotSeries sample_source 0 0 true) tt)
    as [e | series] eqn:Hres; [vm_compute in Hres; discriminate|].
  exists series. split; [reflexivity|].
  pose proof (series_points_lie_between_min_and_max sample_source 0 0 true
                series sample_rra Hres Hrra Hstep Hnz Hexact) as [Hlen _].
  vm_compute in Hres. injection Hres as <-.
  split; [reflexivity|]. split; [reflexivity | exact Hlen].
Defined.

(** Selecting the whole range of a series keeps all of it: trimming the
    data of a series that was returned to the selection from its [min] to
    its [max] returns the data unchanged, when the step is not negative,
    and not 0 if rounding is wanted, and the times are computed exactly. *)
Theorem selecting_the_whole_series_keeps_it {ID : Type}
    (rrd_file : Equivalent.File ID) (ds_id : ID) (rra_idx : Z)
    (want_rounding : bool) (series : FlotSeries.t) (rra : Equivalent.RRA) :
  result (rrdDS2FlotSeries rrd_file ds_id rra_idx want_rounding) tt
  = inr series ->
  Equivalent.getRRA rrd_file rra_idx = inr rra ->
  0 <= Equivalent.getStep rra ->
  (want_rounding = true -> Equivalent.getStep rra <> 0) ->
  exact_times (Equivalent.getLastUpdate rrd_file)
    (Equivalent.getNrRows rra) (Equivalent.getStep rra) 0 ->
  result (rrdFlotSelection.trim_data Z.leb 0 (FlotSeries.data series))
    (selection (FlotSeries.min series) (FlotSeries.max series))
  = inr (FlotSeries.data series).
Proof.
  intros Hres Hrra Hstep _ _.
  pose proof (series_points_shape rrd_file ds_id rra_idx
                want_rounding series rra Hres Hrra Hstep)
    as (_ & _ & Hpoints).
  unfold result. rewrite trim_data_filter.
  cbn [fst rrdFlotSelection.selection_min selection]. f_equal.
  apply filter_keeps_all. intros e He.
  destruct (Hpoints e He) as (k & x & _ & -> & Hlo & Hhi).
  unfold selected. cbn. apply andb_true_intro.
  split; apply Z.leb_le; assumption.
Qed.

(** The series of data source 0 of [sample_source], trimmed to its own
    range. *)
Lemma selecting_the_whole_series_keeps_it_witness :
  (Equivalent.getRRA sample_source 0 = inr sample_rra
   /\ 0 <= Equivalent.getStep sample_rra
   /\ (true = true -> Equivalent.getStep sample_rra <> 0)
   /\ exact_times (Equivalent.getLastUpdate sample_source)
        (Equivalent.getNrRows sample_rra) (Equivalent.getStep sample_rra) 0)
  /\ exists series,
       result (rrdDS2FlotSeries sample_source 0 0 true) tt = inr series
       /\ result (rrdFlotSelection.trim_data Z.leb 0
                    (FlotSeries.data series))
            (selection (FlotSeries.min series) (FlotSeries.max series))
          = inr (FlotSeries.data series).
Proof.
  assert (Hrra : Equivalent.getRRA sample_source 0 = inr sample_rra)
    by reflexivity.
  assert (Hstep : 0 <= Equivalent.getStep sample_rra)
    by (cbn; lia).
  assert (Hnz : true = true -> Equivalent.getStep sample_rra <> 0)
    by (intros _; cbn; lia).
  assert (Hexact : exact_times (Equivalent.getLastUpdate sample_source)
                     (Equivalent.getNrRows sample_rra)
                     (Equivalent.getStep sample_rra) 0)
    by (vm_compute; repeat split; discriminate).
  split; [exact (conj Hrra (conj Hstep (conj Hnz Hexact)))|].
  destruct (result (rrdDS2FlotSeries sample_source 0 0 true) tt)
    as [e | series] eqn:Hres; [vm_compute in Hres; discriminate|].
  exists series. split; [reflexivity|].
  exact (selecting_the_whole_series_keeps_it sample_source 0 0 true series
           sample_rra Hres Hrra Hstep Hnz Hexact).
Defined.





(** ** Series for several data sources *)

Section SeriesOfAnArchive.

Variable ID : Type.
Variable style : Type.
Variable rrd_file : Equivalent.File ID.
Variable rra : Equivalent.RRA.
Variable first_el : Z.
Variable want_ds_labels : bool.

Let rra_rows := Equivalent.getNrRows rra.
Let step := Equivalent.getStep rra.

(** The line that [rrdRRA2FlotObj] makes for a data source. *)
Let line (ds : Equivalent.DS) (pts : list (entry Z float))
  : FlotEl.t Z float style :=
  FlotEl.mk (if want_ds_labels then Some (Equivalent.getName ds) else None)
    pts None None None.

(** What the lines that the loop returned were made from. *)
Lemma flot_obj_series_inr (ds_list : list ID) :
  forall acc out,
    flot_obj_series rrd_file rra rra_rows step first_el want_ds_labels
      ds_list acc tt = (inr out, tt) ->
    exists lines,
      out = (acc ++ lines)%list
      /\ List.length lines = List.length ds_list
      /\ forall k ds_id,
           nth_error ds_list k = Some ds_id ->
           exists ds pts,
             Equivalent.getDS rrd_file ds_id = inr ds
             /\ series_rows rra ds step (Z.to_nat rra_rows) 0 first_el [] tt
                = (inr pts, tt)
             /\ nth_error lines k = Some (line ds pts).
Proof.
  induction ds_list as [|ds_id rest IH]; intros acc out Hrun.
  - cbn in Hrun. injection Hrun as <-. exists []. split.
    + now rewrite app_nil_r.
    + split; [reflexivity|]. intros [|k] id H; discriminate.
  - cbn [flot_obj_series] in Hrun. unfold bind at 1, call in Hrun.
    destruct (Equivalent.getDS rrd_file ds_id) as [e | ds] eqn:Hds;
      [discriminate|].
    unfold bind at 1 in Hrun.
    destruct (series_rows rra ds step (Z.to_nat rra_rows) 0 first_el [] tt)
      as [[e | pts] []] eqn:Hrows; [discriminate|].
    apply IH in Hrun as (lines & -> & Hlen & Hall).
    exists (line ds pts :: lines). split; [now rewrite <- app_assoc|].
    split; [cbn; now rewrite Hlen|].
    intros [|k] id Hid.
    + injection Hid as <-. exists ds, pts. repeat split; assumption.
    + apply Hall. exact Hid.
Qed.

End SeriesOfAnArchive.

(** [rrdRRA2FlotObj] draws one line per data source of [ds_list], in the
    order of the list, and each line is the series of its data source: when
    it returns, [rrdDS2FlotSeries] returns for every data source of the
    list, with the same data, the same [min] and [max], and with the label
    of the line when labels are wanted; a line has no label otherwise, and
    never a color, lines or yaxis. *)
Theorem rrdRRA2FlotObj_lines_are_series {ID style : Type}
    (rrd_file : Equivalent.File ID) (rra_idx : Z) (ds_list : list ID)
    (want_ds_labels want_rounding : bool) (obj : FlotObj.t style) :
  result (rrdRRA2FlotObj rrd_file rra_idx ds_list want_ds_labels
            want_rounding) tt = inr obj ->
  List.length (FlotObj.data obj) = List.length ds_list
  /\ forall k ds_id,
       nth_error ds_list k = Some ds_id ->
       exists series,
         result (rrdDS2FlotSeries rrd_file ds_id rra_idx want_rounding) tt
         = inr series
         /\ nth_error (FlotObj.data obj) k
            = Some (FlotEl.mk
                      (if want_ds_labels
                       then Some (FlotSeries.label series) else None)
                      (FlotSeries.data series) None None None)
         /\ FlotObj.min obj = FlotSeries.min series
         /\ FlotObj.max obj = FlotSeries.max series.
Proof.
  unfold result at 1, rrdRRA2FlotObj. unfold bind at 1, call.
  destruct (Equivalent.getRRA rrd_file rra_idx) as [e | rra] eqn:Hrra;
    [discriminate|].
  cbv zeta. unfold bind at 1.
  set (last := if want_rounding
               then Equivalent.getLastUpdate rrd_file
                    - Z.rem (Equivalent.getLastUpdate rrd_file)
                        (Equivalent.getStep rra)
               else Equivalent.getLastUpdate rrd_file).
  set (first := last - (Equivalent.getNrRows rra - 1)
                       * Equivalent.getStep rra).
  destruct (flot_obj_series rrd_file rra _ _ first want_ds_labels ds_list
              [] tt) as [[e | out] []] eqn:Hrun; [discriminate|].
  cbn [fst ret]. intros H. injection H as <-.
  cbn [FlotObj.data FlotObj.min FlotObj.max].
  apply flot_obj_series_inr in Hrun as (lines & -> & Hlen & Hall).
  cbn [app]. split; [exact Hlen|].
  intros k ds_id Hk.
  destruct (Hall k ds_id Hk) as (ds & pts & Hds & Hrows & Hline).
  pose proof (series_rows_inv _ _ _ _ _ _ _ _ Hrows) as Hreads.
  rewrite series_rows_from_zero in Hrows by exact Hreads.
  injection Hrows as <-.
  eexists. split.
  - unfold result, rrdDS2FlotSeries. unfold bind at 1, call. rewrite Hds.
    unfold bind at 1. rewrite Hrra. cbv zeta. unfold bind at 1.
    fold last first.
    rewrite series_rows_from_zero by exact Hreads. reflexivity.
  - cbn [FlotSeries.label FlotSeries.data FlotSeries.min FlotSeries.max].
    split; [exact Hline|]. split; reflexivity.
Qed.

(** Data source 0 of [sample_source], twice, without labels. *)
Lemma rrdRRA2FlotObj_lines_are_series_witness :
  exists obj : FlotObj.t unit,
    result (rrdRRA2FlotObj sample_source 0 [0; 0] false false) tt = inr obj
    /\ List.length (FlotObj.data obj) = List.length [0; 0].
Proof.
  destruct (result (rrdRRA2FlotObj (style := unit) sample_source 0 [0; 0]
                      false false) tt)
    as [e | obj] eqn:Hres; [vm_compute in Hres; discriminate|].
  exists obj. split; [reflexivity|].
  exact (proj1 (rrdRRA2FlotObj_lines_are_series sample_source 0 [0; 0]
                  false false obj Hres)).
Defined.

(** ** Stacked lines *)

(** A computation with its result mapped. *)
Lemma bind_unit_inr {A B : Type} (m : M unit A) (k : A -> M unit B) (a : A) :
  m tt = (inr a, tt) -> bind m k tt = k a tt.
Proof.
  intros H. unfold bind. now rewrite H.
Qed.

Lemma bind_unit_inl {A B : Type} (m : M unit A) (k : A -> M unit B)
    (e : exn) :
  m tt = (inl e, tt) -> bind m k tt = (inl e, tt).
Proof.
  intros H. unfold bind. now rewrite H.
Qed.

Lemma unit_run {A : Type} (m : M unit A) :
  exists r, m tt = (r, tt).
Proof.
  destruct (m tt) as [r []]. now exists r.
Qed.

Section NoStack.

Variable style : Type.
Variable rra : Equivalent.RRA.
Variable step first_el timestamp_shift : Z.



End NoStack.



Section OneRowOfAStack.

Variable rra : Equivalent.RRA.
Variable row : Z.

(** The loop that reads a row, from any point on: it adds the values of
    the data sources left and updates the flags. *)
Lemma stack_row_vals_ok (ids : list Z) :
  forall ds_vals all_undef all_def,
    Forall (fun ds_idx => exists el,
                Equivalent.getEl rra row ds_idx = inr el) ids ->
    stack_row_vals rra row ids ds_vals all_undef all_def tt
    = (inr ((ds_vals ++ map (value_or_zero rra row) ids)%list,
            all_undef && negb (existsb (defined_at rra row) ids),
            all_def && forallb (defined_at rra row) ids), tt).
Proof.
  induction ids as [|ds_idx rest IH]; intros ds_vals all_undef all_def Hall.
  - cbn. now rewrite app_nil_r, !andb_true_r.
  - inversion Hall as [|? ? [el Hel] Hrest]; subst.
    cbn [stack_row_vals map existsb forallb]. unfold bind, call.
    unfold defined_at at 1 3, value_or_zero at 1. rewrite Hel.
    destruct el as [x|]; rewrite IH by exact Hrest;
      rewrite <- app_assoc; cbn [app orb negb andb];
      now rewrite ?andb_false_r, ?andb_false_l.
Qed.

End OneRowOfAStack.

(** One row of a stack whose reads all return, as the loop runs it. *)
Lemma stack_row_step {style : Type} (rra : Equivalent.RRA)
    (tmp_ds_ids : list Z) (step timestamp_shift : Z)
    (one_undefined_enough : bool) (row timestamp : Z)
    (tmp_flot_els : list (FlotEl.t Z float style)) :
  Forall (fun ds_idx => exists el,
              Equivalent.getEl rra row ds_idx = inr el) tmp_ds_ids ->
  let some_defined := existsb (defined_at rra row) tmp_ds_ids in
  let all_defined := forallb (defined_at rra row) tmp_ds_ids in
  result (stack_rows rra tmp_ds_ids step timestamp_shift
            one_undefined_enough 1 row timestamp tmp_flot_els) tt
  = inr (if some_defined && (all_defined || negb one_undefined_enough)
         then push_points ((timestamp + timestamp_shift) * 1000)
                tmp_flot_els
                (stack_sums (map (value_or_zero rra row) tmp_ds_ids))
         else tmp_flot_els).
Proof.
  intros Hall some_defined all_defined.
  unfold result. cbn [stack_rows]. unfold bind.
  rewrite stack_row_vals_ok by exact Hall.
  cbn [app andb]. fold some_defined all_defined.
  rewrite negb_involutive.
  destruct some_defined; reflexivity.
Qed.

(** The sums along a stack, value by value. *)
Lemma running_sums_nth (l : list float) :
  forall rest pre,
    l = (pre ++ rest)%list ->
    pre <> [] ->
    forall k,
      (k < List.length rest)%nat ->
      nth k (running_sums (stacked_value l (List.length pre - 1)) rest)
        0%float
      = stacked_value l (List.length pre + k).
Proof.
  induction rest as [|v rest IH]; intros pre Hl Hpre k Hk;
    [cbn in Hk; lia|].
  destruct pre as [|p0 pre0] eqn:Epre; [congruence|]. rewrite <- Epre in *.
  assert (Hlen : List.length pre = S (List.length pre0))
    by (rewrite Epre; reflexivity).
  assert (Hv : nth (List.length pre) l 0%float = v).
  { rewrite Hl, app_nth2 by lia. now rewrite Nat.sub_diag. }
  assert (Hnext : PrimFloat.add v (stacked_value l (List.length pre - 1))
                  = stacked_value l (List.length pre)).
  { rewrite Hlen at 2. cbn [stacked_value]. rewrite <- Hlen, Hv.
    do 2 f_equal. lia. }
  cbn [running_sums]. rewrite Hnext.
  destruct k as [|k]; cbn [nth].
  - now rewrite Nat.add_0_r.
  - specialize (IH (pre ++ [v])%list).
    rewrite length_app in IH. cbn [List.length] in IH.
    replace (List.length pre + 1 - 1)%nat with (List.length pre) in IH
      by lia.
    rewrite IH.
    + f_equal. lia.
    + now rewrite <- app_assoc.
    + intros Hnil. apply app_eq_nil in Hnil as [_ Hnil]. discriminate.
    + cbn in Hk. lia.
Qed.

Lemma stack_sums_nth (ds_vals : list float) (k : nat) :
  (k < List.length ds_vals)%nat ->
  nth k (stack_sums ds_vals) 0%float = stacked_value ds_vals k.
Proof.
  destruct ds_vals as [|v rest]; intros Hk; [cbn in Hk; lia|].
  destruct k as [|k]; [reflexivity|].
  cbn [stack_sums nth].
  exact (running_sums_nth (v :: rest) rest [v] eq_refl
           ltac:(discriminate) k ltac:(cbn in Hk; lia)).
Qed.

(** The points pushed for a row, line by line. *)
Lemma push_points_nth_error {style : Type} (x : Z) :
  forall (els : list (FlotEl.t Z float style)) (vals : list float) k el,
    List.length els = List.length vals ->
    nth_error els k = Some el ->
    nth_error (push_points x els vals) k
    = Some (with_data el
              (FlotEl.data el ++ [Some (x, nth k vals 0%float)])%list).
Proof.
  induction els as [|el0 els IH]; intros vals k el Hlen Hel;
    [destruct k; discriminate|].
  destruct vals as [|v vals]; [discriminate|].
  cbn [push_points]. destruct k as [|k]; cbn [nth_error nth] in *.
  - injection Hel as <-. reflexivity.
  - apply IH; [cbn in Hlen; lia | exact Hel].
Qed.

Lemma push_points_length {style : Type} (x : Z) :
  forall (els : list (FlotEl.t Z float style)) (vals : list float),
    List.length (push_points x els vals) = List.length els.
Proof.
  induction els as [|el els IH]; intros vals; [reflexivity|].
  destruct vals as [|v vals]; [reflexivity|].
  cbn [push_points List.length]. now rewrite IH.
Qed.

Lemma running_sums_length (vals : list float) :
  forall prev, List.length (running_sums prev vals) = List.length vals.
Proof.
  induction vals as [|v vals IH]; intros prev; [reflexivity|].
  cbn [running_sums List.length]. now rewrite IH.
Qed.

Lemma stack_sums_length (vals : list float) :
  List.length (stack_sums vals) = List.length vals.
Proof.
  destruct vals as [|v vals]; [reflexivity|].
  cbn [stack_sums List.length]. now rewrite running_sums_length.
Qed.

(** The rule of a stack for one row whose reads all return, with as many
    lines as data sources and a time of the row of magnitude at most 2^53
    milliseconds: the row is drawn when at least one of its values
    is defined and, if [one_undefined_enough] is set, all of them are.  A
    row that is drawn adds exactly one point to every line of the stack, at
    the time of the row moved by the shift (in milliseconds): the first
    line gets the value of its data source, and every later line the value
    of its data source added to what the line before it got, a missing
    value counting as 0.  A row that is not drawn leaves every line as it
    was.  No line is added, dropped or moved. *)
Theorem stack_row_rule {style : Type} (rra : Equivalent.RRA)
    (tmp_ds_ids : list Z) (step timestamp_shift : Z)
    (one_undefined_enough : bool) (row timestamp : Z)
    (tmp_flot_els : list (FlotEl.t Z float style)) :
  Forall (fun ds_idx => exists el,
              Equivalent.getEl rra row ds_idx = inr el) tmp_ds_ids ->
  List.length tmp_flot_els = List.length tmp_ds_ids ->
  Z.abs ((timestamp + timestamp_shift) * 1000) <= 2 ^ 53 ->
  let some_defined := existsb (defined_at rra row) tmp_ds_ids in
  let all_defined := forallb (defined_at rra row) tmp_ds_ids in
  let drawn := some_defined && (all_defined || negb one_undefined_enough) in
  let ds_vals := map (value_or_zero rra row) tmp_ds_ids in
  exists els,
    result (stack_rows rra tmp_ds_ids step timestamp_shift
              one_undefined_enough 1 row timestamp tmp_flot_els) tt
    = inr els
    /\ List.length els = List.length tmp_flot_els
    /\ forall k el,
         nth_error tmp_flot_els k = Some el ->
         nth_error els k
         = Some (with_data el
                   (if drawn
                    then (FlotEl.data el
                          ++ [Some ((timestamp + timestamp_shift) * 1000,
                                    stacked_value ds_vals k)])%list
                    else FlotEl.data el)).
Proof.
  intros Hall Hlen _ some_defined all_defined drawn ds_vals.
  rewrite (stack_row_step rra tmp_ds_ids step timestamp_shift
             one_undefined_enough row timestamp tmp_flot_els Hall).
  fold some_defined all_defined drawn ds_vals.
  eexists. split; [reflexivity|].
  destruct drawn.
  - split; [apply push_points_length|].
    intros k el Hel.
    assert (Hk : (k < List.length ds_vals)%nat).
    { unfold ds_vals. rewrite length_map, <- Hlen.
      apply nth_error_Some. now rewrite Hel. }
    rewrite (push_points_nth_error _ _ _ k el);
      [|rewrite stack_sums_length; unfold ds_vals; now rewrite length_map
       |exact Hel].
    now rewrite stack_sums_nth by exact Hk.
  - split; [reflexivity|].
    intros k el Hel. rewrite Hel. now destruct el.
Qed.

(** Row 3 of [sample_rra] holds 3 for data source 0: in a stack of that
    data source on itself, the row adds a point of value 3 to the first
    line and one of value [3 + 3 = 6] to the second, both at 900 seconds;
    row 2, which has no value, adds nothing. *)
Lemma stack_row_rule_witness :
  (Forall (fun ds_idx => exists el,
               Equivalent.getEl sample_rra 3 ds_idx = inr el) [0; 0]
   /\ Forall (fun ds_idx => exists el,
                  Equivalent.getEl sample_rra 2 ds_idx = inr el) [0; 0]
   /\ List.length two_empty_lines = List.length [0; 0]
   /\ Z.abs ((900 + 0) * 1000) <= 2 ^ 53
   /\ Z.abs ((600 + 0) * 1000) <= 2 ^ 53)
  /\ result (stack_rows sample_rra [0; 0] 300 0 true 1 3 900
               two_empty_lines) tt
     = inr [FlotEl.mk (Some "a") [Some (900000, 3%float)] None None None;
            FlotEl.mk (Some "b") [Some (900000, 6%float)] None None None]
  /\ result (stack_rows sample_rra [0; 0] 300 0 true 1 2 600
               two_empty_lines) tt
     = inr two_empty_lines.
Proof.
  assert (H3 : Forall (fun ds_idx => exists el,
                           Equivalent.getEl sample_rra 3 ds_idx = inr el)
                 [0; 0]).
  { repeat constructor; eexists; reflexivity. }
  assert (H2 : Forall (fun ds_idx => exists el,
                           Equivalent.getEl sample_rra 2 ds_idx = inr el)
                 [0; 0]).
  { repeat constructor; eexists; reflexivity. }
  assert (Hlen : List.length two_empty_lines = List.length [0; 0])
    by reflexivity.
  assert (Hb3 : Z.abs ((900 + 0) * 1000) <= 2 ^ 53)
    by (vm_compute; discriminate).
  assert (Hb2 : Z.abs ((600 + 0) * 1000) <= 2 ^ 53)
    by (vm_compute; discriminate).
  split; [exact (conj H3 (conj H2 (conj Hlen (conj Hb3 Hb2))))|].
  split.
  - destruct (stack_row_rule sample_rra [0; 0] 300 0 true 3 900
                two_empty_lines H3 Hlen Hb3)
      as (els & Hres & Hl & Hnth).
    rewrite Hres. f_equal.
    pose proof (Hnth 0%nat _ eq_refl) as Ha.
    pose proof (Hnth 1%nat _ eq_refl) as Hb.
    destruct els as [|a [|b [|c els]]]; try discriminate Hl.
    cbn [nth_error] in Ha, Hb. injection Ha as ->. injection Hb as ->.
    vm_compute. reflexivity.
  - destruct (stack_row_rule sample_rra [0; 0] 300 0 true 2 600
                two_empty_lines H2 Hlen Hb2)
      as (els & Hres & Hl & Hnth).
    rewrite Hres. f_equal.
    pose proof (Hnth 0%nat _ eq_refl) as Ha.
    pose proof (Hnth 1%nat _ eq_refl) as Hb.
    destruct els as [|a [|b [|c els]]]; try discriminate Hl.
    cbn [nth_error] in Ha, Hb. injection Ha as ->. injection Hb as ->.
    vm_compute. reflexivity.
Defined.



(** ** The lines of a stacked plot *)

Section LinesOfAStack.

Variable ID : Type.
Variable style : Type.
Variable rrd_file : Equivalent.File ID.
Variable want_ds_labels : bool.

Abbreviation line := (FlotEl.t Z float style).
Abbreviation made_for := (line_of (val := float) (style := style) rrd_file
                            want_ds_labels).

Lemma stack_init_inr (stack_list : list ID) :
  forall (els els' : list line) (ids ids' : list Z),
    stack_init rrd_file want_ds_labels stack_list els ids tt
    = (inr (els', ids'), tt) ->
    exists new,
      els' = (els ++ new)%list
      /\ Forall2 made_for stack_list new
      /\ (forall el, In el new -> FlotEl.data el = [])
      /\ List.length ids' = (List.length ids + List.length stack_list)%nat.
Proof.
  induction stack_list as [|ds_id rest IH]; intros els els' ids ids' Hrun.
  - cbn in Hrun. injection Hrun as <- <-. exists [].
    rewrite app_nil_r. repeat split; [constructor | contradiction | cbn; lia].
  - cbn [stack_init] in Hrun. unfold bind, call in Hrun.
    destruct (Equivalent.getDS rrd_file ds_id) as [e | ds] eqn:Hds;
      [discriminate|].
    apply IH in Hrun as (new & -> & Hnew & Hempty & Hlen).
    eexists (_ :: new). split; [now rewrite <- app_assoc|].
    split; [|split].
    + constructor; [|exact Hnew]. exists ds. repeat split. exact Hds.
    + intros el [<- | Hin]; [reflexivity | now apply Hempty].
    + rewrite Hlen, length_app. cbn. lia.
Qed.

Lemma push_points_made_for (x : Z) (stack_list : list ID) :
  forall (els : list line) (vals : list float),
    Forall2 made_for stack_list els ->
    Forall2 made_for stack_list (push_points x els vals).
Proof.
  induction stack_list as [|ds_id rest IH]; intros els vals Hall;
    inversion Hall as [|? el ? els0 Hel Hrest]; subst.
  - constructor.
  - destruct vals as [|v vals]; [exact Hall|].
    cbn [push_points]. constructor; [|now apply IH].
    destruct Hel as (ds & Hds & Hlabel & Hc & Hl & Hy).
    exists ds. repeat split; assumption.
Qed.

Lemma push_points_times (x : Z) (xs : list (option Z)) :
  forall (els : list line) (vals : list float),
    List.length vals = List.length els ->
    (forall el, In el els -> times el = xs) ->
    forall el, In el (push_points x els vals) ->
               times el = (xs ++ [Some x])%list.
Proof.
  induction els as [|el0 els IH]; intros vals Hlen Hall el Hin.
  - destruct vals; contradiction.
  - destruct vals as [|v vals]; [discriminate|].
    cbn [push_points] in Hin. destruct Hin as [<- | Hin].
    + unfold times. cbn [FlotEl.data]. rewrite map_app.
      cbn [map option_map fst].
      f_equal. apply (Hall el0). now left.
    + apply (IH vals); [cbn in Hlen; lia | | exact Hin].
      intros el' Hel'. apply Hall. now right.
Qed.

Lemma stack_row_vals_length (rra : Equivalent.RRA) (row : Z)
    (ids : list Z) :
  forall acc u d vals u' d',
    stack_row_vals rra row ids acc u d tt = (inr (vals, u', d'), tt) ->
    List.length vals = (List.length acc + List.length ids)%nat.
Proof.
  induction ids as [|ds_idx rest IH]; intros acc u d vals u' d' Hrun.
  - cbn in Hrun. injection Hrun as <- _ _. cbn. lia.
  - cbn [stack_row_vals] in Hrun. unfold bind, call in Hrun.
    destruct (Equivalent.getEl rra row ds_idx) as [e | [x|]];
      [discriminate| |];
      apply IH in Hrun; rewrite Hrun, length_app; cbn; lia.
Qed.

(** The rows of a stack keep its lines, and keep them in step: all of them
    get a point, or none. *)
Lemma stack_rows_inr (rra : Equivalent.RRA) (ids : list Z)
    (step timestamp_shift : Z) (one_undefined_enough : bool)
    (stack_list : list ID) (n : nat) :
  forall row timestamp (els els' : list line) xs,
    stack_rows rra ids step timestamp_shift one_undefined_enough n row
      timestamp els tt = (inr els', tt) ->
    List.length els = List.length ids ->
    Forall2 made_for stack_list els ->
    (forall el, In el els -> times el = xs) ->
    Forall2 made_for stack_list els'
    /\ exists xs', forall el, In el els' -> times el = xs'.
Proof.
  induction n as [|n IH]; intros row timestamp els els' xs Hrun Hlen Hmade
                                 Htimes.
  - cbn in Hrun. injection Hrun as <-. split; [exact Hmade|]. now exists xs.
  - cbn [stack_rows] in Hrun. unfold bind at 1 in Hrun.
    destruct (stack_row_vals rra row ids [] true true tt)
      as [[e | [[vals u] d]] []] eqn:Hvals; [discriminate|].
    apply stack_row_vals_length in Hvals. cbn [List.length plus] in Hvals.
    destruct (negb u && (d || negb one_undefined_enough)) eqn:Hdrawn.
    + assert (Hpush : (if negb u
                       then if d || negb one_undefined_enough
                            then push_points
                                   ((timestamp + timestamp_shift) * 1000)
                                   els (stack_sums vals)
                            else els
                       else els)
                      = push_points ((timestamp + timestamp_shift) * 1000)
                          els (stack_sums vals)).
      { apply andb_prop in Hdrawn as [-> ->]. reflexivity. }
      rewrite Hpush in Hrun.
      apply (IH _ _ _ _
               (xs ++ [Some ((timestamp + timestamp_shift) * 1000)])%list)
        in Hrun.
      * exact Hrun.
      * now rewrite push_points_length.
      * now apply push_points_made_for.
      * apply push_points_times; [|exact Htimes].
        rewrite stack_sums_length. lia.
    + assert (Hskip : (if negb u
                       then if d || negb one_undefined_enough
                            then push_points
                                   ((timestamp + timestamp_shift) * 1000)
                                   els (stack_sums vals)
                            else els
                       else els) = els).
      { destruct (negb u); [|reflexivity].
        cbn [andb] in Hdrawn. now rewrite Hdrawn. }
      rewrite Hskip in Hrun.
      apply (IH _ _ _ _ xs) in Hrun; assumption.
Qed.

Lemma stack_lines_inr (rra : Equivalent.RRA)
    (rra_rows step first_el timestamp_shift : Z)
    (one_undefined_enough : bool) (stack_list : list ID)
    (data out : list line) :
  stack_lines rrd_file rra rra_rows step first_el timestamp_shift
    want_ds_labels one_undefined_enough stack_list data tt = (inr out, tt) ->
  exists els,
    out = (data ++ rev els)%list
    /\ Forall2 made_for stack_list els
    /\ exists xs, forall el, In el els -> times el = xs.
Proof.
  unfold stack_lines. unfold bind at 1.
  destruct (stack_init rrd_file want_ds_labels stack_list [] [] tt)
    as [[e | [els ids]] []] eqn:Hinit; [discriminate|].
  apply stack_init_inr in Hinit as (new & -> & Hmade & Hempty & Hlen).
  cbn [app List.length plus] in *. unfold bind at 1.
  destruct (stack_rows rra ids step timestamp_shift one_undefined_enough
              (Z.to_nat rra_rows) 0 first_el new tt)
    as [[e | els'] []] eqn:Hrows; [discriminate|].
  cbn [ret]. intros H. injection H as <-.
  apply (stack_rows_inr _ _ _ _ _ stack_list _ _ _ _ _ []) in Hrows
    as [Hmade' Htimes'].
  - exists els'. repeat split; assumption.
  - rewrite Hlen. symmetry. exact (Forall2_length Hmade).
  - exact Hmade.
  - intros el Hel. unfold times. now rewrite (Hempty el Hel).
Qed.

Lemma single_lines_inr (rra : Equivalent.RRA)
    (rra_rows step first_el timestamp_shift : Z) (ds_list : list ID) :
  forall data out : list line,
    single_lines rrd_file rra rra_rows step first_el timestamp_shift
      want_ds_labels ds_list data tt = (inr out, tt) ->
    exists new,
      out = (data ++ new)%list /\ Forall2 made_for ds_list new.
Proof.
  induction ds_list as [|ds_id rest IH]; intros data out Hrun.
  - cbn in Hrun. injection Hrun as <-. exists [].
    rewrite app_nil_r. split; [reflexivity | constructor].
  - cbn [single_lines] in Hrun. unfold bind at 1, call in Hrun.
    destruct (Equivalent.getDS rrd_file ds_id) as [e | ds] eqn:Hds;
      [discriminate|].
    unfold bind at 1 in Hrun.
    destruct (single_rows rra ds step first_el timestamp_shift
                (Z.to_nat rra_rows) 0 [] tt) as [[e | pts] []];
      [discriminate|].
    apply IH in Hrun as (new & -> & Hnew).
    eexists (_ :: new). split; [now rewrite <- app_assoc|].
    constructor; [|exact Hnew]. exists ds. repeat split. exact Hds.
Qed.

End LinesOfAStack.

(** The lines of a stacked plot, for a step other than 0 when rounding is
    wanted (the remainder of a division by 0 is not a number) and times
    that are computed exactly: when
    [rrdRRAStackFlotObj] returns, its plot holds one line per data source
    that was asked for, first those of the positive stack, last one first,
    then those of the negative stack, last one first, then the single lines
    in the order asked; every line has the label of its data source when
    labels are wanted; the lines of a stack have their points at the same
    times; and the range of the plot spans [rows - 1] steps. *)
Theorem stacked_plot_lines {ID style : Type} (rrd_file : Equivalent.File ID)
    (rra_idx : Z)
    (ds_positive_stack_list ds_negative_stack_list ds_single_list : list ID)
    (timestamp_shift : Z)
    (want_ds_labels want_rounding one_undefined_enough : bool)
    (rra : Equivalent.RRA) (obj : FlotObj.t style) :
  Equivalent.getRRA rrd_file rra_idx = inr rra ->
  (want_rounding = true -> Equivalent.getStep rra <> 0) ->
  exact_times (Equivalent.getLastUpdate rrd_file)
    (Equivalent.getNrRows rra) (Equivalent.getStep rra) timestamp_shift ->
  result (rrdRRAStackFlotObj rrd_file rra_idx ds_positive_stack_list
            ds_negative_stack_list ds_single_list timestamp_shift
            want_ds_labels want_rounding one_undefined_enough) tt
  = inr obj ->
  exists positive negative single,
    FlotObj.data obj = (rev positive ++ rev negative ++ single)%list
    /\ Forall2 (line_of rrd_file want_ds_labels) ds_positive_stack_list
         positive
    /\ Forall2 (line_of rrd_file want_ds_labels) ds_negative_stack_list
         negative
    /\ Forall2 (line_of rrd_file want_ds_labels) ds_single_list single
    /\ (exists xs, forall el, In el positive -> times el = xs)
    /\ (exists xs, forall el, In el negative -> times el = xs)
    /\ FlotObj.max obj - FlotObj.min obj
       = (Equivalent.getNrRows rra - 1) * Equivalent.getStep rra * 1000.
Proof.
  intros Hrra _ _.
  unfold result, rrdRRAStackFlotObj. unfold bind at 1, call. rewrite Hrra.
  cbv zeta.
  set (last := if want_rounding
               then Equivalent.getLastUpdate rrd_file
                    - Z.rem (Equivalent.getLastUpdate rrd_file)
                        (Equivalent.getStep rra)
               else Equivalent.getLastUpdate rrd_file).
  set (first := last - (Equivalent.getNrRows rra - 1)
                       * Equivalent.getStep rra).
  unfold bind at 1.
  destruct (stack_lines rrd_file rra _ _ first timestamp_shift
              want_ds_labels one_undefined_enough ds_positive_stack_list
              [] tt) as [[e | data1] []] eqn:Hpos; [discriminate|].
  unfold bind at 1.
  destruct (stack_lines rrd_file rra _ _ first timestamp_shift
              want_ds_labels one_undefined_enough ds_negative_stack_list
              data1 tt) as [[e | data2] []] eqn:Hneg; [discriminate|].
  unfold bind at 1.
  destruct (single_lines rrd_file rra _ _ first timestamp_shift
              want_ds_labels ds_single_list data2 tt)
    as [[e | data3] []] eqn:Hsingle; [discriminate|].
  cbn [fst ret]. intros H. injection H as <-.
  cbn [FlotObj.data FlotObj.min FlotObj.max].
  apply stack_lines_inr in Hpos as (positive & -> & Hp & Hpx).
  apply stack_lines_inr in Hneg as (negative & -> & Hn & Hnx).
  apply single_lines_inr in Hsingle as (single & -> & Hs).
  exists positive, negative, single. cbn [app].
  split; [now rewrite <- app_assoc|].
  repeat (split; [assumption|]). unfold first. ring.
Qed.

(** Data source 0 of [sample_source] stacked on itself, and once more as
    a single line, with rounding and a step of 300 seconds: three lines,
    over a range of 900 seconds. *)
Lemma stacked_plot_lines_witness :
  (Equivalent.getRRA sample_source 0 = inr sample_rra
   /\ (true = true -> Equivalent.getStep sample_rra <> 0)
   /\ exact_times (Equivalent.getLastUpdate sample_source)
        (Equivalent.getNrRows sample_rra) (Equivalent.getStep sample_rra) 0)
  /\ exists obj : FlotObj.t unit,
       result (rrdRRAStackFlotObj sample_source 0 [0; 0] [] [0] 0 true true
                 false) tt = inr obj
       /\ List.length (FlotObj.data obj) = 3%nat
       /\ FlotObj.max obj - FlotObj.min obj = 900000.
Proof.
  assert (Hrra : Equivalent.getRRA sample_source 0 = inr sample_rra)
    by reflexivity.
  assert (Hnz : true = true -> Equivalent.getStep sample_rra <> 0)
    by (intros _; cbn; lia).
  assert (Hexact : exact_times (Equivalent.getLastUpdate sample_source)
                     (Equivalent.getNrRows sample_rra)
                     (Equivalent.getStep sample_rra) 0)
    by (vm_compute; repeat split; discriminate).
  split; [exact (conj Hrra (conj Hnz Hexact))|].
  destruct (result (rrdRRAStackFlotObj (style := unit) sample_source 0
                      [0; 0] [] [0] 0 true true false) tt)
    as [e | obj] eqn:Hres; [vm_compute in Hres; discriminate|].
  exists obj. split; [reflexivity|].
  destruct (stacked_plot_lines sample_source 0 [0; 0] [] [0] 0 true true
              false sample_rra obj Hrra Hnz Hexact Hres)
    as (positive & negative & single & -> & Hp & Hn & Hs & _ & _ & Hrange).
  apply Forall2_length in Hp, Hn, Hs.
  split; [|exact Hrange].
  rewrite !length_app, !length_rev, <- Hp, <- Hn, <- Hs. reflexivity.
Defined.

(** ** The counters of a file *)

(** What the file reports of its header: in a file that was built, the
    number of data sources, the number of archives and the step are the
    integers at offsets 20, 24 and 28 of the buffer (24, 32 and 40 with
    64-bit alignment), the last update is the integer at the start of the
    live head, which lies after the archive definitions and before the
    scratch areas, and none of these calls changes the file. *)
Theorem file_reports_top_header (bf : ByteSource) (f : RRDFile.t) :
  RRDFile.new bf = inr f ->
  let h := RRDFile.rrd_header f in
  let wide := negb (RRDHeader.rrd_align h =? 32) in
  RRDFile.getNrDSs f = (inr (getLongAt bf (if wide then 24 else 20)), f)
  /\ RRDFile.getNrRRAs f = (inr (getLongAt bf (if wide then 32 else 24)), f)
  /\ RRDFile.getStep f = (inr (getLongAt bf (if wide then 40 else 28)), f)
  /\ RRDFile.getLastUpdate f
     = (inr (getLongAt bf (RRDHeader.live_head_idx h)), f)
  /\ RRDHeader.live_head_idx h
     = RRDHeader.rra_def_idx h
       + (if wide then 120 else 108) * RRDHeader.rra_cnt h
  /\ RRDHeader.live_head_idx h + 4 <= RRDHeader.pdp_prep_idx h.
Proof.
  intros Hnew.
  apply new_file_inr in Hnew as (h0 & c & s & Hh0 & -> & _).
  apply new_inr in Hh0 as [_ [_ [[_ ->] | [_ [_ ->]]]]];
    intros h wide; subst h wide;
    unfold RRDFile.getNrDSs, RRDFile.getNrRRAs, RRDFile.getStep,
      RRDFile.getLastUpdate, RRDFile.on_header, RRDHeader.getNrDSs,
      RRDHeader.getStep, RRDHeader.getLastUpdate, bind, get, ret;
    header_fields; repeat split; lia.
Qed.

(** [sample32] has 2 data sources, 2 archives and a step of 300. *)
Lemma file_reports_top_header_witness :
  RRDFile.new sample32 = inr sample32_file
  /\ result RRDFile.getNrDSs sample32_file = inr 2
  /\ result RRDFile.getNrRRAs sample32_file = inr 2
  /\ result RRDFile.getStep sample32_file = inr 300.
Proof.
  assert (Hnew : RRDFile.new sample32 = inr sample32_file)
    by (vm_compute; reflexivity).
  split; [exact Hnew|].
  destruct (file_reports_top_header sample32 sample32_file Hnew)
    as (Hds & Hrra & Hstep & _).
  unfold result. rewrite Hds, Hrra, Hstep.
  repeat split; vm_compute; reflexivity.
Defined.

(** ** Trimming a plot in another time zone *)

Section TrimmingShifted.

Variable num : Type.
Variable leb : num -> num -> bool.
Variable add : num -> num -> num.
Variable zero : num.
Variable val : Type.
Variable style : Type.

Lemma trim_flot_timezone_data_loop_map (this : rrdFlotSelection.t num)
    (shift : num) (l out : list (FlotEl.t num val style)) :
  rrdFlotSelection.trim_flot_timezone_data_loop leb add zero shift l out this
  = (inr (out ++ map (fun el =>
                        with_data el
                          (match rrdFlotSelection.selection_min this with
                           | Some _ =>
                               filter (fun e => selected leb zero this
                                                  (shifted add shift e))
                                 (FlotEl.data el)
                           | None => FlotEl.data el
                           end)) l)%list, this).
Proof.
  revert out. induction l as [|el l IH]; intros out; simpl.
  - now rewrite app_nil_r.
  - unfold bind at 1.
    rewrite (proj1 (trim_timezone_data_filter num leb add zero
                      val this shift (FlotEl.data el))).
    rewrite IH. now rewrite <- app_assoc.
Qed.

(** [trim_flot_timezone_data] trims every line of a plot as
    [trim_timezone_data] does and keeps the lines: as many lines, in the
    same order, each with its label, color, lines and yaxis; and it leaves
    the points where they were, so that with a shift that changes no
    comparison it returns what [trim_flot_data] returns. *)
Theorem trim_flot_timezone_data_trims_each_line
    (this : rrdFlotSelection.t num) (shift : num)
    (flot_data : list (FlotEl.t num val style)) :
  exists out,
    rrdFlotSelection.trim_flot_timezone_data leb add zero flot_data shift
      this = (inr out, this)
    /\ List.length out = List.length flot_data
    /\ (forall i el,
          nth_error flot_data i = Some el ->
          exists trimmed,
            result (rrdFlotSelection.trim_timezone_data leb add zero
                      (FlotEl.data el) shift) this = inr trimmed
            /\ nth_error out i
               = Some (FlotEl.mk (FlotEl.label el) trimmed
                         (FlotEl.color el) (FlotEl.lines el)
                         (FlotEl.yaxis el)))
    /\ ((forall x bound, leb bound (add x shift) = leb bound x
                         /\ leb (add x shift) bound = leb x bound) ->
        rrdFlotSelection.trim_flot_data leb zero flot_data this
        = (inr out, this)).
Proof.
  unfold rrdFlotSelection.trim_flot_timezone_data.
  rewrite trim_flot_timezone_data_loop_map. cbn [app].
  eexists. split; [reflexivity|]. split; [apply length_map|]. split.
  - intros i el Hel. unfold result.
    rewrite (proj1 (trim_timezone_data_filter num leb add zero
                      val this shift (FlotEl.data el))).
    cbn [fst]. eexists. split; [reflexivity|].
    rewrite nth_error_map, Hel. reflexivity.
  - intros Hsame. unfold rrdFlotSelection.trim_flot_data.
    rewrite trim_flot_data_loop_map. cbn [app]. f_equal. f_equal.
    apply map_ext. intros el. f_equal.
    destruct (rrdFlotSelection.selection_min this); [|reflexivity].
    apply filter_ext. intros [[x y]|]; [|reflexivity].
    unfold selected, shifted. cbn [fst].
    destruct (Hsame x (rrdFlotSelection.number num zero
                         (rrdFlotSelection.selection_min this))) as [-> _].
    destruct (Hsame x (rrdFlotSelection.number num zero
                         (rrdFlotSelection.selection_max this))) as [_ ->].
    reflexivity.
Qed.

End TrimmingShifted.

(** ** Instances *)



(** Data source 1 of [sample_source] is known, but its first row cannot be
    read. *)
Lemma rrdDS2FlotSeries_errors_witness :
  (0 <= 0 < Equivalent.getNrRows sample_rra
   /\ Equivalent.getEl sample_rra 0 1
      = inl (RangeError "DS idx out of range"))
  /\ result (rrdDS2FlotSeries sample_source 1 0 false) tt
     = inl (RangeError "DS idx out of range").
Proof.
  assert (Hk : 0 <= 0 < Equivalent.getNrRows sample_rra) by (cbn; lia).
  assert (Hthrow : Equivalent.getEl sample_rra 0 1
                   = inl (RangeError "DS idx out of range")) by reflexivity.
  split; [exact (conj Hk Hthrow)|].
  apply (proj2 (proj2 (rrdDS2FlotSeries_errors Z sample_source 1 0 false
                         (RangeError "DS idx out of range")))
           {| Equivalent.getIdx := 1; Equivalent.getName := "ds1" |}
           sample_rra 0);
    [reflexivity | reflexivity | exact Hk | intros k' Hk'; lia
    | exact Hthrow].
Defined.

(** Trimming to [10, 20] what was trimmed to [10, 20]. *)
Lemma trim_data_is_idempotent_and_local_witness :
  result (rrdFlotSelection.trim_data Z.leb 0
            [Some (5, 1); None; Some (15, 2); Some (25, 3)])
    (selection 10 20)
  = inr [Some (15, 2)]
  /\ result (rrdFlotSelection.trim_data Z.leb 0 [Some (15, 2)])
       (selection 10 20)
     = inr [Some (15, 2)].
Proof.
  assert (H : result (rrdFlotSelection.trim_data Z.leb 0
                        [Some (5, 1); None; Some (15, 2); Some (25, 3)])
                (selection 10 20)
              = inr [Some (15, 2)]) by reflexivity.
  split; [exact H|].
  exact (proj1 (trim_data_is_idempotent_and_local Z Z.leb 0 Z
                  (selection 10 20) _ []) _ H).
Defined.
